(** * gemini-text-editor: a shallow embedding of the editor's services

    The repository is a browser application: a storage service over one
    IndexedDB object store, two calls to a hosted generative model, and a
    canvas populated from the detected text blocks.  Every source function
    that the properties below talk about is transcribed here:

    - [StorageService]  src/services (initDB, createProject, getProject,
                        getAllProjects, updateProject, deleteProject);
    - [GeminiService]   src/services (analyzeImageText, removeTextFromImage),
                        over the SDK's messages ([GenAI], [Response]) and
                        the values [JSON.parse] yields ([Js]);
    - [EditorCanvas]    src/components (the content-loading effect), over
                        the fabric.js objects it creates ([Fabric], [Rect],
                        [Textbox]);
    - [App], [ProjectEditor], [Dashboard]  the upload handlers and
                        updateBlockText;
    - [AppAnalysis], [ProjectActions], [DashboardList]  the actions of
                        the pages that call the services (startAnalysis,
                        the project load, reDetectText, reCleanBackground,
                        loadProjects, handleDelete);
    - [AppView], [ProjectView], [Viewport]  the props handed to the
                        canvas, fitCanvas and the zoom buttons.

    JavaScript numbers are IEEE-754 binary64 values, so the canvas
    arithmetic is carried out on primitive floats.  Promises are modelled by
    a state-and-exception monad: an [async] function is a state transformer
    whose result is either [Resolved] or [Rejected].  What the code obtains
    from outside (the clock, the UUID generator, the network, the parser)
    is part of the world it runs in, so a statement about "every" run
    quantifies over every behaviour of these.

    The definitions come first; the properties, each with the facts it
    needs, follow under "Properties". *)

From Stdlib Require Import ZArith Ascii String List Floats.PrimFloat.
From stdpp Require Import base option list gmap strings sorting pretty.
From Stdlib Require Floats.SpecFloat Floats.FloatOps Floats.FloatAxioms.

Set Warnings "-inexact-float,-register-all".
#[local] Open Scope string_scope.
#[local] Open Scope list_scope.
#[local] Open Scope Z_scope.

(** ** Promises: state passing with rejection *)

Module Async.

(** What a [throw] carries.  [JsError msg] is [new Error(msg)];
    [TypeError] and [SyntaxError] are the engine's own; [HostError] is
    whatever a host API (the network, a browser dialog) rejected with. *)
Inductive exn :=
| JsError (message : string)
| TypeError (message : string)
| SyntaxError (message : string)
| HostError (message : string).

Inductive outcome (A : Type) :=
| Resolved (a : A)
| Rejected (e : exn).
Arguments Resolved {A} a.
Arguments Rejected {A} e.

Definition M (W A : Type) : Type := W -> outcome A * W.

Definition ret {W A} (a : A) : M W A := fun w => (Resolved a, w).

Definition throw {W A} (e : exn) : M W A := fun w => (Rejected e, w).

Definition bind {W A B} (m : M W A) (k : A -> M W B) : M W B :=
  fun w =>
    match m w with
    | (Resolved a, w') => k a w'
    | (Rejected e, w') => (Rejected e, w')
    end.

(** [try { m } catch (error) { h error }] *)
Definition try_catch {W A} (m : M W A) (h : exn -> M W A) : M W A :=
  fun w =>
    match m w with
    | (Resolved a, w') => (Resolved a, w')
    | (Rejected e, w') => h e w'
    end.

(** Awaiting a promise that a host API already settled. *)
Definition await {W A} (o : outcome A) : M W A := fun w => (o, w).

Definition is_rejected {A} (o : outcome A) : bool :=
  match o with Rejected _ => true | Resolved _ => false end.

End Async.

Notation "'let*' x := m 'in' k" := (Async.bind m (fun x => k))
  (at level 10, x pattern, m at level 100, k at level 200, only parsing).

(** ** src/types.ts *)

Module Types.

Inductive FontFamily := serif | sans_serif | monospace | cursive.
Inductive FontWeight := normal | bold.

(** [box_2d] is the array [[ymin, xmin, ymax, xmax]], each entry
    normalised to 0-1000. *)
Record DetectedTextBlock := {
  id : string;
  originalText : string;
  currentText : string;
  box_2d : list float;
  textColor : string;
  backgroundColor : string;
  fontFamily : FontFamily;
  fontWeight : FontWeight
}.

(** [{ ...b, currentText: newText }] *)
Definition with_currentText (b : DetectedTextBlock) (newText : string)
  : DetectedTextBlock :=
  {| id := id b;
     originalText := originalText b;
     currentText := newText;
     box_2d := box_2d b;
     textColor := textColor b;
     backgroundColor := backgroundColor b;
     fontFamily := fontFamily b;
     fontWeight := fontWeight b |}.

End Types.

(** ** src/services: the storage service (IndexedDB through [idb]) *)

Module StorageService.
Import Async.

Record Project := {
  id : string;
  name : string;
  createdAt : Z;
  updatedAt : Z;
  originalImage : string;
  processedImage : option string;   (* [None] is [null] *)
  blocks : list Types.DetectedTextBlock
}.

(** [Partial<Project>]: every property may be absent.  A property that is
    present is spread over the stored record whatever it holds, so
    [processedImage] can be present and hold no image. *)
Record PartialProject := {
  upd_id : option string;
  upd_name : option string;
  upd_createdAt : option Z;
  upd_updatedAt : option Z;
  upd_originalImage : option string;
  upd_processedImage : option (option string);
  upd_blocks : option (list Types.DetectedTextBlock)
}.

Definition no_updates : PartialProject :=
  {| upd_id := None; upd_name := None; upd_createdAt := None;
     upd_updatedAt := None; upd_originalImage := None;
     upd_processedImage := None; upd_blocks := None |}.

(** *** The database and its schema *)

Record IndexDecl := { index_name : string; index_keyPath : string }.
Record ObjectStoreDecl := {
  store_name : string;
  store_keyPath : string;
  store_indexes : list IndexDecl
}.
Definition Schema := list ObjectStoreDecl.

Definition createObjectStore (name keyPath : string) (db : Schema) : Schema :=
  db ++ [ {| store_name := name; store_keyPath := keyPath;
             store_indexes := [] |} ].

Definition createIndex (store name keyPath : string) (db : Schema) : Schema :=
  (fun d =>
     if String.eqb (store_name d) store
     then {| store_name := store_name d; store_keyPath := store_keyPath d;
             store_indexes := store_indexes d ++
               [ {| index_name := name; index_keyPath := keyPath |} ] |}
     else d) <$> db.

Definition DB_NAME : string := "gemini-text-editor-db".
Definition DB_VERSION : Z := 1.

(** The [upgrade] callback handed to [openDB]. *)
Definition upgrade (db : Schema) : Schema :=
  createIndex "projects" "by-date" "updatedAt"
    (createObjectStore "projects" "id" db).

(** The records of the ['projects'] store, under their primary key. *)
Record Database := {
  schema : Schema;
  projects : gmap string Project
}.

(** The world the service runs in: the browser's copy of the database
    ([None] until it is first opened), the clock behind [Date.now()] and
    the generator behind [uuidv4()], each with the number of calls made
    so far.  The database's own operations are taken to succeed. *)
Record World := {
  idb : option Database;
  clock : nat -> Z;
  clock_reads : nat;
  uuids : nat -> string;
  uuid_draws : nat
}.

Definition set_idb (d : Database) (w : World) : World :=
  {| idb := Some d; clock := clock w; clock_reads := clock_reads w;
     uuids := uuids w; uuid_draws := uuid_draws w |}.

Definition Date_now : M World Z :=
  fun w => (Resolved (clock w (clock_reads w)),
            {| idb := idb w; clock := clock w;
               clock_reads := S (clock_reads w);
               uuids := uuids w; uuid_draws := uuid_draws w |}).

Definition uuidv4 : M World string :=
  fun w => (Resolved (uuids w (uuid_draws w)),
            {| idb := idb w; clock := clock w;
               clock_reads := clock_reads w;
               uuids := uuids w; uuid_draws := S (uuid_draws w) |}).

(** [openDB(DB_NAME, DB_VERSION, { upgrade })]: a database that does not
    exist yet is created empty and [upgrade] runs on it; an existing one
    is opened as it is. *)
Definition openDB (w : World) : Database :=
  match idb w with
  | Some d => d
  | None => {| schema := upgrade []; projects := ∅ |}
  end.

(** [initDB]: the promise is created once and reused; opening again
    reaches the same database. *)
Definition initDB : M World Database :=
  fun w => let d := openDB w in (Resolved d, set_idb d w).

(** *** The [idb] calls the service makes *)

(** [db.put('projects', value)]: the store's key path is [id], so the
    record goes under its own [id], replacing what was there. *)
Definition put (value : Project) : M World unit :=
  fun w =>
    let d := openDB w in
    (Resolved tt,
     set_idb {| schema := schema d;
                projects := <[ id value := value ]> (projects d) |} w).

(** [db.get('projects', key)] *)
Definition get (key : string) : M World (option Project) :=
  fun w => (Resolved (projects (openDB w) !! key), w).

(** [db.delete('projects', key)] *)
Definition delete (key : string) : M World unit :=
  fun w =>
    let d := openDB w in
    (Resolved tt,
     set_idb {| schema := schema d;
                projects := base.delete key (projects d) |} w).

(** An index lists the records by index key, and records with equal
    index keys by primary key. *)
Definition by_date_le (a b : string * Project) : Prop :=
  updatedAt a.2 < updatedAt b.2
  ∨ (updatedAt a.2 = updatedAt b.2 ∧ String.leb a.1 b.1 = true).

#[global] Instance by_date_le_dec a b : Decision (by_date_le a b).
Proof. unfold by_date_le. apply _. Defined.

(** [db.getAllFromIndex('projects', 'by-date')] *)
Definition getAllFromIndex_by_date : M World (list Project) :=
  fun w =>
    (Resolved (snd <$> merge_sort by_date_le
                          (map_to_list (projects (openDB w)))), w).

(** *** The exported operations *)

Definition createProject (name originalImage : string)
    (blocks : list Types.DetectedTextBlock) : M World string :=
  let* _ := initDB in
  let* id := uuidv4 in
  let* created := Date_now in
  let* updated := Date_now in
  let project :=
    {| id := id; name := name; createdAt := created; updatedAt := updated;
       originalImage := originalImage; processedImage := None;
       blocks := blocks |} in
  let* _ := put project in
  ret id.

Definition getProject (id : string) : M World (option Project) :=
  let* _ := initDB in
  get id.

Definition getAllProjects : M World (list Project) :=
  let* _ := initDB in
  getAllFromIndex_by_date.

(** [{ ...project, ...updates, updatedAt: now }] *)
Definition spread_updates (project : Project) (updates : PartialProject)
    (now : Z) : Project :=
  {| id := default (id project) (upd_id updates);
     name := default (name project) (upd_name updates);
     createdAt := default (createdAt project) (upd_createdAt updates);
     updatedAt := now;
     originalImage :=
       default (originalImage project) (upd_originalImage updates);
     processedImage :=
       default (processedImage project) (upd_processedImage updates);
     blocks := default (blocks project) (upd_blocks updates) |}.

Definition updateProject (id : string) (updates : PartialProject)
    : M World unit :=
  let* _ := initDB in
  let* project := get id in
  match project with
  | None => throw (JsError ("Project " +:+ id +:+ " not found"))
  | Some project =>
      let* now := Date_now in
      put (spread_updates project updates now)
  end.

Definition deleteProject (id : string) : M World unit :=
  let* _ := initDB in
  delete id.

End StorageService.

(** ** src/components: the canvas editor (fabric.js) *)

(** The part of fabric.js the editor drives: a canvas is its pixel size,
    its background image and the objects added so far, in order. *)

Module Rect.

Record t := {
  left : float;
  top : float;
  width : float;
  height : float;
  fill : string;
  selectable : bool;
  evented : bool;
  excludeFromExport : bool
}.

End Rect.

Module Textbox.

Record t := {
  text : string;
  left : float;
  top : float;
  width : float;
  fontSize : float;
  fontFamily : string;
  fontWeight : Types.FontWeight;
  fill : string;
  textAlign : string;
  transparentCorners : bool;
  cornerColor : string;
  cornerStyle : string;
  borderColor : string;
  cornerSize : float;
  padding : float;
  editable : bool;
  lockRotation : bool;
  splitByGrapheme : bool
}.

End Textbox.

Module Fabric.

Inductive Object :=
| ORect (r : Rect.t)
| OTextbox (t : Textbox.t).

Record Image := {
  src : string;
  originX : string;
  originY : string;
  scaleX : float;
  scaleY : float
}.

Record Canvas := {
  width : float;
  height : float;
  backgroundImage : option Image;
  objects : list Object
}.

Definition clear (c : Canvas) : Canvas :=
  {| width := width c; height := height c;
     backgroundImage := None; objects := [] |}.

Definition setWidth (w : float) (c : Canvas) : Canvas :=
  {| width := w; height := height c;
     backgroundImage := backgroundImage c; objects := objects c |}.

Definition setHeight (h : float) (c : Canvas) : Canvas :=
  {| width := width c; height := h;
     backgroundImage := backgroundImage c; objects := objects c |}.

Definition setBackgroundImage (img : Image) (c : Canvas) : Canvas :=
  {| width := width c; height := height c;
     backgroundImage := Some img; objects := objects c |}.

Definition add (o : Object) (c : Canvas) : Canvas :=
  {| width := width c; height := height c;
     backgroundImage := backgroundImage c; objects := objects c ++ [o] |}.

(** The rectangles, and the textboxes, among a canvas's objects. *)
Definition rects (l : list Object) : list Rect.t :=
  omap (fun o => match o with ORect r => Some r | OTextbox _ => None end) l.

Definition textboxes (l : list Object) : list Textbox.t :=
  omap (fun o => match o with OTextbox t => Some t | ORect _ => None end) l.

End Fabric.

Module EditorCanvas.
Import Types.
#[local] Open Scope float_scope.

(** [a || b] on numbers: [0], [-0] and [NaN] are falsy. *)
Definition truthy (a : float) : bool := negb (is_zero a || is_nan a).
Definition or_else (a b : float) : float := if truthy a then a else b.

(** [box[i]]; past the end of the array the read is [undefined], which
    the arithmetic below turns into [NaN]. *)
Definition at_index (box : list float) (i : nat) : float := nth i box nan.

(** The image element once it has loaded. *)
Record LoadedImage := {
  src : string;
  naturalWidth : float;
  naturalHeight : float
}.

Definition fabricFontFamily (f : FontFamily) : string :=
  match f with
  | serif => "Times New Roman"
  | monospace => "Courier New"
  | cursive => "Brush Script MT"
  | sans_serif => "Arial"
  end.

(** [new fabric.Rect({...})], from the pixel box [x], [y], [w], [h] of
    the block. *)
Definition maskRect (x y w h : float) (block : DetectedTextBlock) : Rect.t :=
  let paddingX := w * 0.05 in
  let paddingY := h * 0.05 in
  {| Rect.left := x - paddingX;
     Rect.top := y - paddingY;
     Rect.width := w + (paddingX * 2);
     Rect.height := h + (paddingY * 2);
     Rect.fill := backgroundColor block;
     Rect.selectable := false;
     Rect.evented := false;
     Rect.excludeFromExport := false |}.

(** [new fabric.Textbox(block.currentText, {...})] *)
Definition textbox (x y w h : float) (block : DetectedTextBlock)
    : Textbox.t :=
  let fontSize := h * 0.8 in
  let fontFamily := fabricFontFamily (fontFamily block) in
  {| Textbox.text := currentText block;
     Textbox.left := x;
     Textbox.top := y + (h * 0.1);
     Textbox.width := w;
     Textbox.fontSize := fontSize;
     Textbox.fontFamily := fontFamily;
     Textbox.fontWeight := fontWeight block;
     Textbox.fill := textColor block;
     Textbox.textAlign := "center";
     Textbox.transparentCorners := false;
     Textbox.cornerColor := "#6366f1";
     Textbox.cornerStyle := "circle";
     Textbox.borderColor := "#6366f1";
     Textbox.cornerSize := 10;
     Textbox.padding := 2;
     Textbox.editable := true;
     Textbox.lockRotation := false;
     Textbox.splitByGrapheme := true |}.

(** The body of [blocks.forEach(block => ...)]. *)
Definition processBlock (width height : float) (isCleaned : bool)
    (canvas : Fabric.Canvas) (block : DetectedTextBlock) : Fabric.Canvas :=
  let x := (at_index (box_2d block) 1 / 1000) * width in
  let y := (at_index (box_2d block) 0 / 1000) * height in
  let w := ((at_index (box_2d block) 3 - at_index (box_2d block) 1) / 1000)
           * width in
  let h := ((at_index (box_2d block) 2 - at_index (box_2d block) 0) / 1000)
           * height in
  (* A. Create Mask (If not cleaned by AI) *)
  let canvas :=
    if negb isCleaned
    then Fabric.add (Fabric.ORect (maskRect x y w h block)) canvas
    else canvas in
  (* B. Create Text *)
  Fabric.add (Fabric.OTextbox (textbox x y w h block)) canvas.

(** What one pass of the loop body adds to the canvas. *)
Definition added (width height : float) (isCleaned : bool)
    (block : DetectedTextBlock) : list Fabric.Object :=
  let x := (at_index (box_2d block) 1 / 1000) * width in
  let y := (at_index (box_2d block) 0 / 1000) * height in
  let w := ((at_index (box_2d block) 3 - at_index (box_2d block) 1) / 1000)
           * width in
  let h := ((at_index (box_2d block) 2 - at_index (box_2d block) 0) / 1000)
           * height in
  (if negb isCleaned then [Fabric.ORect (maskRect x y w h block)] else [])
  ++ [Fabric.OTextbox (textbox x y w h block)].

(** [imgElement.onload]: reset the canvas, size it from the image, set
    the background and process the blocks in order. *)
Definition onload (img : LoadedImage) (blocks : list DetectedTextBlock)
    (isCleaned : bool) (canvas : Fabric.Canvas) : Fabric.Canvas :=
  let canvas := Fabric.clear canvas in
  let width := or_else (naturalWidth img) 800 in
  let height := or_else (naturalHeight img) 600 in
  let canvas := Fabric.setWidth width canvas in
  let canvas := Fabric.setHeight height canvas in
  let fImg :=
    {| Fabric.src := src img; Fabric.originX := "left";
       Fabric.originY := "top"; Fabric.scaleX := 1; Fabric.scaleY := 1 |} in
  let canvas := Fabric.setBackgroundImage fImg canvas in
  fold_left (processBlock width height isCleaned) blocks canvas.

(** The content-loading effect: nothing happens without a canvas
    instance or without an image URL; otherwise an image element is
    given the URL as its source ([imgElement.src = imageUrl]) and, once
    it has loaded, [onload] runs on the instance.  [img] tells the
    natural size the browser finds for the image at that URL. *)
Definition loadContent (fabricCanvas : option Fabric.Canvas)
    (imageUrl : option string) (img : LoadedImage)
    (blocks : list DetectedTextBlock) (isCleaned : bool)
    : option Fabric.Canvas :=
  match fabricCanvas, imageUrl with
  | Some canvas, Some url =>
      if String.eqb url "" then fabricCanvas
      else
        let imgElement :=
          {| src := url; naturalWidth := naturalWidth img;
             naturalHeight := naturalHeight img |} in
        Some (onload imgElement blocks isCleaned canvas)
  | _, _ => fabricCanvas
  end.

End EditorCanvas.

(** ** Browser values the pages handle *)

Module Browser.

(** A [File] picked in an [<input type="file">]: its name, its size in
    bytes, and the data URL a [FileReader] produces for it. *)
Record File := {
  name : string;
  size : N;
  dataURL : string
}.

(** [s.split(sep)] for a one-character separator. *)
Fixpoint split (sep : ascii) (s : string) : list string :=
  match s with
  | EmptyString => [""]
  | String c rest =>
      if Ascii.eqb c sep then "" :: split sep rest
      else match split sep rest with
           | piece :: pieces => String c piece :: pieces
           | [] => [String c ""]
           end
  end.

(** [a || b] on strings that may be [undefined]: [undefined] and the
    empty string are falsy. *)
Definition or_string (a : option string) (b : string) : string :=
  match a with
  | Some x => if String.eqb x "" then b else x
  | None => b
  end.

(** [!x] on such a string. *)
Definition falsy (a : option string) : bool :=
  match a with
  | Some x => String.eqb x ""
  | None => true
  end.

End Browser.

(** ** src/App.tsx: the single-page editor *)

Module App.
Import Types.

Record State := {
  imageFile : option Browser.File;
  imageUrl : option string;
  processedImageUrl : option string;
  isAnalyzing : bool;
  statusMessage : string;
  error : option string;
  blocks : list DetectedTextBlock
}.

Definition setError (e : option string) (s : State) : State :=
  {| imageFile := imageFile s; imageUrl := imageUrl s;
     processedImageUrl := processedImageUrl s;
     isAnalyzing := isAnalyzing s; statusMessage := statusMessage s;
     error := e; blocks := blocks s |}.

Definition setBlocks (f : list DetectedTextBlock -> list DetectedTextBlock)
    (s : State) : State :=
  {| imageFile := imageFile s; imageUrl := imageUrl s;
     processedImageUrl := processedImageUrl s;
     isAnalyzing := isAnalyzing s; statusMessage := statusMessage s;
     error := error s; blocks := f (blocks s) |}.

(** [handleFileChange]; [files] is [event.target.files] and
    [createObjectURL] is the browser's [URL.createObjectURL]. *)
Definition handleFileChange (createObjectURL : Browser.File -> string)
    (files : list Browser.File) (s : State) : State :=
  match head files with
  | Some file =>
      if (5 * 1024 * 1024 <? Browser.size file)%N then
        setError
          (Some "File size too large. Please upload an image under 5MB.") s
      else
        {| imageFile := Some file;
           imageUrl := Some (createObjectURL file);
           processedImageUrl := None;
           isAnalyzing := isAnalyzing s;
           statusMessage := statusMessage s;
           error := None;
           blocks := [] (* Reset previous analysis *) |}
  | None => s
  end.

Definition updateBlockText (id newText : string) (s : State) : State :=
  setBlocks
    (fun prev =>
       (fun b => if String.eqb (Types.id b) id
                 then with_currentText b newText else b) <$> prev) s.

End App.

(** ** src/pages: the project editor *)

Module ProjectEditor.
Import Async Types.

Record State := {
  id : option string;   (* the route parameter *)
  projectName : string;
  imageUrl : option string;
  processedImageUrl : option string;
  blocks : list DetectedTextBlock;
  isAnalyzing : bool;
  statusMessage : string;
  error : option string;
  isSaving : bool
}.

Definition setIsSaving (v : bool) (s : State) : State :=
  {| id := id s; projectName := projectName s; imageUrl := imageUrl s;
     processedImageUrl := processedImageUrl s; blocks := blocks s;
     isAnalyzing := isAnalyzing s; statusMessage := statusMessage s;
     error := error s; isSaving := v |}.

Definition setBlocks (v : list DetectedTextBlock) (s : State) : State :=
  {| id := id s; projectName := projectName s; imageUrl := imageUrl s;
     processedImageUrl := processedImageUrl s; blocks := v;
     isAnalyzing := isAnalyzing s; statusMessage := statusMessage s;
     error := error s; isSaving := isSaving s |}.

(** [a ?? b] *)
Definition nullish {A} (a : option A) (b : option A) : option A :=
  match a with Some x => Some x | None => b end.

(** [saveChanges(newBlocks, newProcessedImage)].  [seen] is the render
    whose [id], [blocks] and [processedImageUrl] the function closed
    over.  A failure of [updateProject] is caught and logged. *)
Definition saveChanges (seen : State)
    (newBlocks : option (list DetectedTextBlock))
    (newProcessedImage : option string)
    (s : State) (w : StorageService.World)
    : State * StorageService.World :=
  match id seen with
  | Some key =>
      if String.eqb key "" then (s, w)
      else
        let updates :=
          {| StorageService.upd_id := None;
             StorageService.upd_name := None;
             StorageService.upd_createdAt := None;
             StorageService.upd_updatedAt := None;
             StorageService.upd_originalImage := None;
             StorageService.upd_processedImage :=
               Some (nullish newProcessedImage (processedImageUrl seen));
             StorageService.upd_blocks :=
               Some (default (blocks seen) newBlocks) |} in
        let '(_, w') := StorageService.updateProject key updates w in
        (setIsSaving false s, w')
  | None => (s, w)
  end.

(** [updateBlockText]: recompute the blocks from the previous ones and
    auto-save them. *)
Definition updateBlockText (seen : State) (blockId newText : string)
    (s : State) (w : StorageService.World)
    : State * StorageService.World :=
  let newBlocks :=
    (fun b => if String.eqb (Types.id b) blockId
              then with_currentText b newText else b) <$> blocks s in
  let '(s', w') := saveChanges seen (Some newBlocks) None s w in
  (setBlocks newBlocks s', w').

End ProjectEditor.

(** ** src/pages: the dashboard *)

Module Dashboard.
Import Async.

Record World := {
  storage : StorageService.World;
  alerts : list string;          (* what [alert] has shown, oldest first *)
  location : string              (* the route [navigate] last went to *)
}.

Definition alert (message : string) (w : World) : World :=
  {| storage := storage w; alerts := alerts w ++ [message];
     location := location w |}.

Definition navigate (path : string) (w : World) : World :=
  {| storage := storage w; alerts := alerts w; location := path |}.

(** [handleCreateProject]; [files] is [event.target.files].  The reader's
    [onloadend] callback is run to its end. *)
Definition handleCreateProject (files : list Browser.File) (w : World)
    : World :=
  match head files with
  | None => w
  | Some file =>
      (* Basic size check *)
      if (5 * 1024 * 1024 <? Browser.size file)%N then
        alert "Image size too large (max 5MB)" w
      else
        let base64 := Browser.dataURL file in
        let name :=
          Browser.or_string (Browser.split "." (Browser.name file) !! 0%nat)
            "Untitled Project" in
        match StorageService.createProject name base64 [] (storage w) with
        | (Resolved newId, st) =>
            navigate ("/project/" +:+ newId)
              {| storage := st; alerts := alerts w;
                 location := location w |}
        | (Rejected _, st) =>
            {| storage := st; alerts := alerts w; location := location w |}
        end
  end.

End Dashboard.

(** ** JavaScript values, as [JSON.parse] produces them *)

Module Js.
Import Async.

Inductive value :=
| Undefined
| Null
| Bool (b : bool)
| Num (f : float)
| Str (s : string)
| Arr (items : list value)
| Obj (properties : gmap string value).

Definition truthy (v : value) : bool :=
  match v with
  | Undefined | Null => false
  | Bool b => b
  | Num f => negb (is_zero f || is_nan f)
  | Str s => negb (String.eqb s "")
  | Arr _ | Obj _ => true
  end.

(** [v.key], for a key that is neither [length] nor an index: reading a
    property of [null] or [undefined] throws, an object yields the
    property or [undefined], any other value yields [undefined]. *)
Definition getprop (v : value) (key : string) : outcome value :=
  match v with
  | Undefined | Null =>
      Rejected (TypeError ("Cannot read properties of null (reading '"
                           +:+ key +:+ "')"))
  | Obj m => Resolved (default Undefined (m !! key))
  | _ => Resolved Undefined
  end.

(** The UTF-16 code units of a string, each as a string of its own.  A
    string is held as its UTF-8 bytes: a sequence of one, two or three
    bytes is one code unit, a sequence of four bytes is the two
    surrogates of its code point (each written in the three-byte form).
    [pending] holds the bytes of the sequence being read and [need] the
    number of bytes it still lacks. *)
Definition sequence_length (lead : N) : nat :=
  if (lead <? 192)%N then 1
  else if (lead <? 224)%N then 2
  else if (lead <? 240)%N then 3
  else 4.

Definition three_bytes (unit : N) : string :=
  String (ascii_of_N (224 + unit / 4096))
    (String (ascii_of_N (128 + (unit / 64) mod 64))
       (String (ascii_of_N (128 + unit mod 64)) ""))%N.

Definition code_units_of (sequence : string) : list string :=
  match sequence with
  | String b0 (String b1 (String b2 (String b3 EmptyString))) =>
      let point :=
        ((N_of_ascii b0 mod 8) * 262144 + (N_of_ascii b1 mod 64) * 4096
         + (N_of_ascii b2 mod 64) * 64 + N_of_ascii b3 mod 64 - 65536)%N in
      [ three_bytes (55296 + point / 1024)%N;
        three_bytes (56320 + point mod 1024)%N ]
  | _ => [sequence]
  end.

Fixpoint code_units (s pending : string) (need : nat) : list string :=
  match s with
  | EmptyString =>
      match pending with EmptyString => [] | _ => [pending] end
  | String c rest =>
      match need with
      | O =>
          match sequence_length (N_of_ascii c) with
          | S (S more) => code_units rest (String c "") (S more)
          | _ => String c "" :: code_units rest "" 0
          end
      | S O =>
          code_units_of (pending +:+ String c "") ++ code_units rest "" 0
      | S more => code_units rest (pending +:+ String c "") more
      end
  end.

(** The characters [{ ...s }] copies from a string: one per code unit. *)
Definition chars (s : string) : list value := Str <$> code_units s "" 0.

(** The own enumerable properties [{ ...v }] copies: those of an object,
    the indexed items of an array or of a string, none otherwise. *)
Definition spread (v : value) : gmap string value :=
  match v with
  | Obj m => m
  | Arr items => list_to_map (imap (fun i x => (pretty i, x)) items)
  | Str s => list_to_map (imap (fun i x => (pretty i, x)) (chars s))
  | _ => ∅
  end.

End Js.

(** ** src/services: the two calls to the hosted model *)

(** What travels to and from [ai.models.generateContent]. *)
Module GenAI.

Record Blob := {
  mimeType : option string;
  data : option string
}.

Record Part := {
  inlineData : option Blob;
  text : option string
}.

Record Content := { parts : option (list Part) }.

Record Candidate := { content : option Content }.

(** A response schema, as far as the service spells one out. *)
Inductive Schema :=
| OBJECT (properties : list (string * Schema)) (required : list string)
| ARRAY (items : Schema)
| STRING (enum : list string)
| NUMBER.

Record Config := {
  responseMimeType : string;
  responseSchema : Schema;
  systemInstruction : string
}.

Record Request := {
  model : string;
  contents : list Part;
  config : option Config
}.

End GenAI.

Module Response.

(** [text] is what the SDK's [response.text] accessor returns. *)
Record t := {
  candidates : option (list GenAI.Candidate);
  text : option string
}.

End Response.

Module GeminiService.
Import Async GenAI.

Definition responseSchema : Schema :=
  OBJECT
    [ ("textBlocks",
       ARRAY
         (OBJECT
            [ ("originalText", STRING []);
              ("box_2d", ARRAY NUMBER);
              ("textColor", STRING []);
              ("backgroundColor", STRING []);
              ("fontFamily",
               STRING ["serif"; "sans-serif"; "monospace"; "cursive"]);
              ("fontWeight", STRING ["normal"; "bold"]) ]
            [ "originalText"; "box_2d"; "textColor"; "backgroundColor";
              "fontFamily"; "fontWeight" ])) ]
    [].

(** [window.aistudio]: each method may be missing; when present, what
    calling it settles to. *)
Record AiStudio := {
  hasSelectedApiKey : option (outcome bool);
  openSelectKey : option (outcome unit)
}.

(** The world the service runs in.  Building the client
    ([new GoogleGenAI(...)]) sends nothing; [network n req] is what the
    n-th [generateContent] call settles to when it sends [req];
    [requests] lists the requests sent so far.  [JSON_parse] is the engine's
    [JSON.parse]; [clock] is behind [Date.now()]; [console] collects the
    labels passed to [console.error]. *)
Record World := {
  aistudio : option AiStudio;
  network : nat -> Request -> outcome Response.t;
  requests : list Request;
  JSON_parse : string -> outcome Js.value;
  clock : nat -> Z;
  clock_reads : nat;
  console : list string
}.

Definition generateContent (req : Request) : M World Response.t :=
  fun w =>
    (network w (length (requests w)) req,
     {| aistudio := aistudio w; network := network w;
        requests := requests w ++ [req];
        JSON_parse := JSON_parse w; clock := clock w;
        clock_reads := clock_reads w; console := console w |}).

Definition Date_now : M World Z :=
  fun w =>
    (Resolved (clock w (clock_reads w)),
     {| aistudio := aistudio w; network := network w;
        requests := requests w;
        JSON_parse := JSON_parse w; clock := clock w;
        clock_reads := S (clock_reads w); console := console w |}).

Definition console_error (label : string) : M World unit :=
  fun w =>
    (Resolved tt,
     {| aistudio := aistudio w; network := network w;
        requests := requests w;
        JSON_parse := JSON_parse w; clock := clock w;
        clock_reads := clock_reads w; console := console w ++ [label] |}).

Definition parse (jsonText : string) : M World Js.value :=
  fun w => (JSON_parse w jsonText, w).

(** [base64Image.split(',')[1] || base64Image]: strip the data-URL
    header if present. *)
Definition cleanBase64 (base64Image : string) : string :=
  Browser.or_string (Browser.split "," base64Image !! 1%nat) base64Image.

(** [items.map((block, index) => f block index)], from [index] on. *)
Fixpoint map_from (f : Js.value -> nat -> M World Js.value)
    (items : list Js.value) (index : nat) : M World (list Js.value) :=
  match items with
  | [] => ret []
  | block :: rest =>
      let* y := f block index in
      let* ys := map_from f rest (S index) in
      ret (y :: ys)
  end.

(** [v.map(f)]: only an array has [map]. *)
Definition array_map (v : Js.value)
    (f : Js.value -> nat -> M World Js.value) : M World (list Js.value) :=
  match v with
  | Js.Arr items => map_from f items 0
  | Js.Undefined | Js.Null =>
      throw (TypeError "Cannot read properties of undefined (reading 'map')")
  | _ => throw (TypeError "(data.textBlocks || []).map is not a function")
  end.

(** Add IDs and initialize currentText:
    [{ ...block, id: `block-${index}-${Date.now()}`,
       currentText: block.originalText }] *)
Definition processBlock (block : Js.value) (index : nat) : M World Js.value :=
  let copied := Js.spread block in
  let* now := Date_now in
  let id := "block-" +:+ pretty index +:+ "-" +:+ pretty now in
  let* originalText := await (Js.getprop block "originalText") in
  ret (Js.Obj (<[ "currentText" := originalText ]>
                 (<[ "id" := Js.Str id ]> copied))).

Record AnalysisResult := { textBlocks : list Js.value }.

Definition analyzeRequest (base64Image : string) : Request :=
  {| model := "gemini-3-pro-preview";
     contents :=
       [ {| inlineData :=
              Some {| mimeType := Some "image/jpeg";
                      data := Some (cleanBase64 base64Image) |};
            text := None |};
         {| inlineData := None;
            text := Some "Analyze this image for text editing. 1. Detect all visible text. 2. Create TIGHT bounding boxes around each text line or block. 3. Accurately identify the background color behind the text so we can erase it. 4. Estimate font style." |} ];
     config :=
       Some {| GenAI.responseMimeType := "application/json";
               GenAI.responseSchema := responseSchema;
               GenAI.systemInstruction := "You are an expert OCR and design AI. Your goal is to help replace text in images. Be extremely precise with bounding boxes (tight fit) and background colors (for masking)." |} |}.

Definition analyzeImageText (base64Image : string) : M World AnalysisResult :=
  try_catch
    (let* response := generateContent (analyzeRequest base64Image) in
     match Response.text response with
     | Some jsonText =>
         if String.eqb jsonText ""
         then throw (JsError "No response from Gemini")
         else
           let* data := parse jsonText in
           let* textBlocks := await (Js.getprop data "textBlocks") in
           let* processedBlocks :=
             array_map
               (if Js.truthy textBlocks then textBlocks else Js.Arr [])
               processBlock in
           ret {| textBlocks := processedBlocks |}
     | None => throw (JsError "No response from Gemini")
     end)
    (fun error =>
       let* _ := console_error "Error analyzing image:" in
       throw error).

(** Check for API key selection logic for paid models. *)
Definition selectApiKey : M World unit :=
  fun w =>
    match aistudio w with
    | Some studio =>
        match hasSelectedApiKey studio with
        | Some asked =>
            (let* hasKey := await asked in
             match negb hasKey, openSelectKey studio with
             | true, Some opened => await opened
             | _, _ => ret tt
             end) w
        | None => (Resolved tt, w)
        end
    | None => (Resolved tt, w)
    end.

Definition removeRequest (base64Image : string) : Request :=
  {| model := "gemini-3-pro-image-preview";
     contents :=
       [ {| inlineData :=
              Some {| mimeType := Some "image/jpeg";
                      data := Some (cleanBase64 base64Image) |};
            text := None |};
         {| inlineData := None;
            text := Some "Remove all text from this image. Fill in the background where the text was to match the surrounding texture and lighting perfectly. Do not change the layout or other objects. Output only the cleaned image." |} ];
     config := None |}.

(** [response.candidates?.[0]?.content?.parts || []] *)
Definition firstParts (response : Response.t) : list Part :=
  match Response.candidates response with
  | Some (candidate :: _) =>
      match content candidate with
      | Some c => default [] (parts c)
      | None => []
      end
  | _ => []
  end.

(** [`${x}`] for a string that may be [undefined]. *)
Definition template (x : option string) : string := default "undefined" x.

(** The [for (const part of ...)] loop with its early [return]. *)
Fixpoint firstInlineImage (ps : list Part) : option string :=
  match ps with
  | [] => None
  | part :: rest =>
      match inlineData part with
      | Some blob => Some ("data:image/png;base64," +:+ template (data blob))
      | None => firstInlineImage rest
      end
  end.

Definition removeTextFromImage (base64Image : string)
    : M World (option string) :=
  try_catch
    (let* _ := selectApiKey in
     let* response := generateContent (removeRequest base64Image) in
     ret (firstInlineImage (firstParts response)))
    (fun error =>
       let* _ := console_error "Error cleaning image:" in
       ret None).

End GeminiService.

(** ** Sample worlds of the storage service *)

Module StorageSamples.
Import Async StorageService.

(** The record [createProject] builds from its arguments, the key drawn
    from the generator and the two clock readings. *)
Definition created (key name originalImage : string)
    (blocks : list Types.DetectedTextBlock) (t1 t2 : Z) : Project :=
  {| id := key; name := name; createdAt := t1; updatedAt := t2;
     originalImage := originalImage; processedImage := None;
     blocks := blocks |}.

(** A world whose clock advances by one millisecond at every reading. *)
Definition ticking_world : World :=
  {| idb := None; clock := fun n => 1700000000000 + Z.of_nat n;
     clock_reads := 0; uuids := fun n => "uuid-" +:+ pretty n;
     uuid_draws := 0 |}.

(** A world holding one project. *)
Definition sample_project : Project :=
  created "p1" "photo" "data:image/png;base64,AAAA" [] 5 5.

Definition one_project_world : World :=
  {| idb := Some {| schema := upgrade [];
                    projects := {[ "p1" := sample_project ]} |};
     clock := fun n => 100 + Z.of_nat n; clock_reads := 0;
     uuids := fun n => "uuid-" +:+ pretty n; uuid_draws := 0 |}.

(** A world holding three projects, stored in no particular order. *)
Definition three_projects_world : World :=
  {| idb := Some {| schema := upgrade [];
                    projects :=
                      <[ "b" := created "b" "late" "img" [] 1 9 ]>
                        (<[ "a" := created "a" "early" "img" [] 2 5 ]>
                           {[ "c" := created "c" "middle" "img" [] 3 5 ]}) |};
     clock := fun n => 100 + Z.of_nat n; clock_reads := 0;
     uuids := fun n => "uuid-" +:+ pretty n; uuid_draws := 0 |}.

(** An update that names one field. *)
Definition renaming : PartialProject :=
  {| upd_id := None; upd_name := Some "poster"; upd_createdAt := None;
     upd_updatedAt := None; upd_originalImage := None;
     upd_processedImage := None; upd_blocks := None |}.

End StorageSamples.

(** ** Sample canvas inputs *)

Module CanvasSamples.
Import Types.
#[local] Open Scope float_scope.

Definition headline : DetectedTextBlock :=
  {| id := "block-0-1700000000000"; originalText := "SALE";
     currentText := "SALE"; box_2d := [100; 250; 300; 750];
     textColor := "#000000"; backgroundColor := "#ffffff";
     fontFamily := sans_serif; fontWeight := bold |}.

Definition footer : DetectedTextBlock :=
  {| id := "block-1-1700000000000"; originalText := "ends friday";
     currentText := "ends monday"; box_2d := [800; 100; 900; 500];
     textColor := "#222222"; backgroundColor := "#eeeeee";
     fontFamily := serif; fontWeight := normal |}.

Definition photo : EditorCanvas.LoadedImage :=
  {| EditorCanvas.src := "blob:photo";
     EditorCanvas.naturalWidth := 640;
     EditorCanvas.naturalHeight := 480 |}.

Definition blank : Fabric.Canvas :=
  {| Fabric.width := 800; Fabric.height := 600;
     Fabric.backgroundImage := None; Fabric.objects := [] |}.

End CanvasSamples.

(** ** Sample page states *)

Module PageSamples.
Import Types CanvasSamples.

Definition big_file : Browser.File :=
  {| Browser.name := "poster.final.png"; Browser.size := 5242881;
     Browser.dataURL := "data:image/png;base64,QUJD" |}.

Definition editing : App.State :=
  {| App.imageFile := None; App.imageUrl := Some "blob:photo";
     App.processedImageUrl := Some "data:image/png;base64,CLEAN";
     App.isAnalyzing := false;
     App.statusMessage := "Analyzing Image Structure...";
     App.error := None; App.blocks := [headline; footer] |}.

Definition dashboard : Dashboard.World :=
  {| Dashboard.storage := StorageSamples.one_project_world;
     Dashboard.alerts := []; Dashboard.location := "/" |}.

Definition project_page : ProjectEditor.State :=
  {| ProjectEditor.id := Some "p1"; ProjectEditor.projectName := "photo";
     ProjectEditor.imageUrl := Some "data:image/png;base64,AAAA";
     ProjectEditor.processedImageUrl := None;
     ProjectEditor.blocks := [headline; footer];
     ProjectEditor.isAnalyzing := false;
     ProjectEditor.statusMessage := "";
     ProjectEditor.error := None; ProjectEditor.isSaving := false |}.

End PageSamples.

(** ** Decimal numerals *)

(** The characters [0] to [9], and the strings made of them only: what
    the index of a block looks like inside its id. *)
Module Numeral.

Definition is_digit (c : ascii) : bool :=
  (48 <=? nat_of_ascii c)%nat && (nat_of_ascii c <=? 57)%nat.

Fixpoint digits_only (s : string) : bool :=
  match s with
  | EmptyString => true
  | String c rest => is_digit c && digits_only rest
  end.

End Numeral.

(** ** Sample answers of the hosted model *)

Module GeminiSamples.
Import Async GenAI.

Definition vendor_headline : gmap string Js.value :=
  <[ "originalText" := Js.Str "SALE" ]>
    (<[ "box_2d" := Js.Arr [Js.Num 100; Js.Num 250; Js.Num 300; Js.Num 750] ]>
       (<[ "textColor" := Js.Str "#000000" ]>
          (<[ "backgroundColor" := Js.Str "#ffffff" ]>
             (<[ "fontFamily" := Js.Str "sans-serif" ]>
                {[ "fontWeight" := Js.Str "bold" ]})))).

Definition vendor_footer : gmap string Js.value :=
  <[ "originalText" := Js.Str "ends friday" ]>
    (<[ "box_2d" := Js.Arr [Js.Num 800; Js.Num 100; Js.Num 900; Js.Num 500] ]>
       (<[ "textColor" := Js.Str "#222222" ]>
          (<[ "backgroundColor" := Js.Str "#eeeeee" ]>
             (<[ "fontFamily" := Js.Str "serif" ]>
                {[ "fontWeight" := Js.Str "normal" ]})))).

Definition analysis_json : string := "{textBlocks:[headline,footer]}".

Definition analysis_data : Js.value :=
  Js.Obj {[ "textBlocks" :=
              Js.Arr (Js.Obj <$> [vendor_headline; vendor_footer]) ]}.

Definition analysis_response : Response.t :=
  {| Response.candidates := None; Response.text := Some analysis_json |}.

Definition png : Blob :=
  {| mimeType := Some "image/png"; data := Some "iVBORw0KGgo" |}.

Definition image_response : Response.t :=
  {| Response.candidates :=
       Some [ {| content :=
                   Some {| parts :=
                             Some [ {| inlineData := None;
                                       text := Some "Here it is." |};
                                    {| inlineData := Some png;
                                       text := None |} ] |} |} ];
     Response.text := Some "Here it is." |}.

(** A service that answers every analysis request with
    [analysis_response] and every other request with [image_response]. *)
Definition answering : GeminiService.World :=
  {| GeminiService.aistudio := None;
     GeminiService.network :=
       fun _ req =>
         if String.eqb (model req) "gemini-3-pro-preview"
         then Resolved analysis_response
         else Resolved image_response;
     GeminiService.requests := [];
     GeminiService.JSON_parse :=
       fun text =>
         if String.eqb text analysis_json then Resolved analysis_data
         else Rejected (SyntaxError "Unexpected token");
     GeminiService.clock := fun n => 1700000000000 + Z.of_nat n;
     GeminiService.clock_reads := 0;
     GeminiService.console := [] |}.

(** A service whose every request fails. *)
Definition offline : GeminiService.World :=
  {| GeminiService.aistudio := None;
     GeminiService.network :=
       fun _ _ => Rejected (HostError "Failed to fetch");
     GeminiService.requests := [];
     GeminiService.JSON_parse :=
       fun _ => Rejected (SyntaxError "Unexpected token");
     GeminiService.clock := fun n => 1700000000000 + Z.of_nat n;
     GeminiService.clock_reads := 0;
     GeminiService.console := [] |}.

End GeminiSamples.

(** ** An invariant of the object store *)

Module StorageInvariant.
Import StorageService.

(** Every stored record sits under its own [id]: what the key path of the
    store promises. *)
Definition keyed_by_id (w : World) : Prop :=
  forall k p, projects (openDB w) !! k = Some p -> id p = k.

End StorageInvariant.

(** What [uuidv4] promises, and what the store owes to it. *)
Module KeyGenerator.
Import StorageService.

(** The generator never returns the same key twice. *)
Definition never_repeats (w : World) : Prop :=
  forall i j : nat, uuids w i = uuids w j -> i = j.

(** Every stored key came out of one of the draws made so far. *)
Definition keys_drawn (w : World) : Prop :=
  forall k, is_Some (projects (openDB w) !! k) ->
    exists i, (i < uuid_draws w)%nat /\ uuids w i = k.

End KeyGenerator.

Module KeySamples.
Import StorageService StorageSamples.

(** A world after one project was created: its key was the first draw. *)
Definition first_project : Project :=
  created "uuid-0" "poster" "data:image/png;base64,BBBB" [] 7 8.

Definition drawn_world : World :=
  {| idb := Some {| schema := upgrade [];
                    projects := {[ "uuid-0" := first_project ]} |};
     clock := fun n => 100 + Z.of_nat n; clock_reads := 0;
     uuids := fun n => "uuid-" +:+ pretty n; uuid_draws := 1 |}.

(** A world whose generator returns a key that is already stored. *)
Definition stored_key : string := "1b9d6bcd-bbfd-4b2d-9b5d-ab8dfbbd4bed".

Definition stored_project : Project :=
  created stored_key "poster" "data:image/png;base64,BBBB" [] 7 8.

Definition colliding_world : World :=
  {| idb := Some {| schema := upgrade [];
                    projects := {[ stored_key := stored_project ]} |};
     clock := fun n => 100 + Z.of_nat n; clock_reads := 0;
     uuids := fun _ => stored_key; uuid_draws := 0 |}.

End KeySamples.

(** ** Strings and arrays, as far as the pages use them *)

Module Text.

(** Whether the character occurs in the string. *)
Fixpoint occurs (c : ascii) (s : string) : bool :=
  match s with
  | EmptyString => false
  | String d rest => Ascii.eqb d c || occurs c rest
  end.

End Text.

Module JsArray.

(** [list.sort(comparefn)].  The engine's sort is stable, and for a
    [comparefn] that orders consistently its result is the one this
    insertion sort computes: [x] goes in front of the first [y] with
    [comparefn(x, y) <= 0]. *)
Fixpoint insert {A} (comparefn : A -> A -> Z) (x : A) (sorted : list A)
    : list A :=
  match sorted with
  | [] => [x]
  | y :: rest =>
      if comparefn x y <=? 0 then x :: y :: rest
      else y :: insert comparefn x rest
  end.

Definition sort {A} (comparefn : A -> A -> Z) (l : list A) : list A :=
  foldr (insert comparefn) [] l.

End JsArray.

(** ** src/pages: the dashboard's project list *)

Module DashboardList.
Import Async.

Record State := {
  projects : list StorageService.Project;
  isLoading : bool
}.

(** [loadProjects]: fetch, sort by updated descending, stop the
    spinner. *)
Definition loadProjects (s : State) (w : StorageService.World)
    : State * StorageService.World :=
  match StorageService.getAllProjects w with
  | (Resolved list, w') =>
      ({| projects :=
            JsArray.sort
              (fun a b => StorageService.updatedAt b
                          - StorageService.updatedAt a) list;
          isLoading := false |}, w')
  | (Rejected _, w') =>
      (* console.error("Failed to load projects", e) *)
      ({| projects := projects s; isLoading := false |}, w')
  end.

(** [handleDelete]; [confirmed] is what the [confirm] dialog answered. *)
Definition handleDelete (confirmed : bool) (id : string) (s : State)
    (w : StorageService.World) : State * StorageService.World :=
  if confirmed then
    match StorageService.deleteProject id w with
    | (Resolved _, w') => loadProjects s w'
    | (Rejected _, w') => (s, w')
    end
  else (s, w).

End DashboardList.

(** ** Sample uploads *)

Module UploadSamples.

Definition small_file : Browser.File :=
  {| Browser.name := "poster.final.png"; Browser.size := 2048;
     Browser.dataURL := "data:image/png;base64,QUJD" |}.

Definition hidden_file : Browser.File :=
  {| Browser.name := ".png"; Browser.size := 5242880;
     Browser.dataURL := "data:image/png;base64,QUJD" |}.

Definition listing : DashboardList.State :=
  {| DashboardList.projects := []; DashboardList.isLoading := true |}.

End UploadSamples.

(** ** Sample malformed answers *)

Module MalformedSamples.
Import Async GenAI.

(** A service whose answer to every request has the given text, and whose
    parser reads that text as the given value (or fails). *)
Definition answering_with (text : string) (parsed : outcome Js.value)
    : GeminiService.World :=
  {| GeminiService.aistudio := None;
     GeminiService.network :=
       fun _ _ =>
         Resolved {| Response.candidates := None;
                     Response.text := Some text |};
     GeminiService.requests := [];
     GeminiService.JSON_parse := fun _ => parsed;
     GeminiService.clock := fun n => 1700000000000 + Z.of_nat n;
     GeminiService.clock_reads := 0;
     GeminiService.console := [] |}.

Definition with_null_block : Js.value :=
  Js.Obj {[ "textBlocks" :=
              Js.Arr [Js.Obj GeminiSamples.vendor_headline; Js.Null] ]}.

End MalformedSamples.

(** ** src/App.tsx and src/pages: the actions that call the services *)

Module AppAnalysis.
Import Async Types.

Section with_asBlock.

(** [result.textBlocks] is declared as [DetectedTextBlock[]]; [asBlock]
    is how a value the service returns is read at that type. *)
Variable asBlock : Js.value -> DetectedTextBlock.

(** [startAnalysis], with the reader's [onloadend] callback run to its
    end; the reader's result is the file's data URL. *)
Definition startAnalysis (s : App.State) (g : GeminiService.World)
    : App.State * GeminiService.World :=
  match App.imageFile s with
  | Some imageFile =>
      if Browser.falsy (App.imageUrl s) then (s, g)
      else
        let base64data := Browser.dataURL imageFile in
        (* 1. Analyze Layout (Fast) *)
        match GeminiService.analyzeImageText base64data g with
        | (Resolved result, g1) =>
            let blocks := asBlock <$> GeminiService.textBlocks result in
            (* 2. Clean Image (Slow - High Quality) *)
            match GeminiService.removeTextFromImage base64data g1 with
            | (Resolved cleanedImage, g2) =>
                ({| App.imageFile := App.imageFile s;
                    App.imageUrl := App.imageUrl s;
                    App.processedImageUrl :=
                      if Browser.falsy cleanedImage
                      then App.processedImageUrl s else cleanedImage;
                    App.isAnalyzing := false;
                    App.statusMessage := "Analyzing Image Structure...";
                    App.error := None;
                    App.blocks := blocks |}, g2)
            | (Rejected _, g2) =>
                ({| App.imageFile := App.imageFile s;
                    App.imageUrl := App.imageUrl s;
                    App.processedImageUrl := App.processedImageUrl s;
                    App.isAnalyzing := false;
                    App.statusMessage := "Analyzing Image Structure...";
                    App.error :=
                      Some "Failed to process image. Please try again.";
                    App.blocks := blocks |}, g2)
            end
        | (Rejected _, g1) =>
            ({| App.imageFile := App.imageFile s;
                App.imageUrl := App.imageUrl s;
                App.processedImageUrl := App.processedImageUrl s;
                App.isAnalyzing := false;
                App.statusMessage := "Analyzing Image Structure...";
                App.error :=
                  Some "Failed to process image. Please try again.";
                App.blocks := App.blocks s |}, g1)
        end
  | None => (s, g)
  end.

End with_asBlock.

End AppAnalysis.

Module ProjectActions.
Import Async Types.

(** The effect that loads the project named by the route. *)
Definition load (s : ProjectEditor.State) (w : StorageService.World)
    : ProjectEditor.State * StorageService.World :=
  if Browser.falsy (ProjectEditor.id s) then (s, w)
  else
    match StorageService.getProject (default "" (ProjectEditor.id s)) w with
    | (Resolved (Some project), w') =>
        ({| ProjectEditor.id := ProjectEditor.id s;
            ProjectEditor.projectName := StorageService.name project;
            ProjectEditor.imageUrl :=
              Some (StorageService.originalImage project);
            ProjectEditor.processedImageUrl :=
              StorageService.processedImage project;
            ProjectEditor.blocks := StorageService.blocks project;
            ProjectEditor.isAnalyzing := ProjectEditor.isAnalyzing s;
            ProjectEditor.statusMessage := ProjectEditor.statusMessage s;
            ProjectEditor.error := ProjectEditor.error s;
            ProjectEditor.isSaving := ProjectEditor.isSaving s |}, w')
    | (Resolved None, w') =>
        ({| ProjectEditor.id := ProjectEditor.id s;
            ProjectEditor.projectName := ProjectEditor.projectName s;
            ProjectEditor.imageUrl := ProjectEditor.imageUrl s;
            ProjectEditor.processedImageUrl :=
              ProjectEditor.processedImageUrl s;
            ProjectEditor.blocks := ProjectEditor.blocks s;
            ProjectEditor.isAnalyzing := ProjectEditor.isAnalyzing s;
            ProjectEditor.statusMessage := ProjectEditor.statusMessage s;
            ProjectEditor.error := Some "Project not found";
            ProjectEditor.isSaving := ProjectEditor.isSaving s |}, w')
    | (Rejected _, w') =>
        ({| ProjectEditor.id := ProjectEditor.id s;
            ProjectEditor.projectName := ProjectEditor.projectName s;
            ProjectEditor.imageUrl := ProjectEditor.imageUrl s;
            ProjectEditor.processedImageUrl :=
              ProjectEditor.processedImageUrl s;
            ProjectEditor.blocks := ProjectEditor.blocks s;
            ProjectEditor.isAnalyzing := ProjectEditor.isAnalyzing s;
            ProjectEditor.statusMessage := ProjectEditor.statusMessage s;
            ProjectEditor.error := Some "Failed to load project";
            ProjectEditor.isSaving := ProjectEditor.isSaving s |}, w')
    end.

(** The state while and after an action runs: [isAnalyzing] goes back to
    false in the [finally], the status message stays. *)
Definition finished (statusMessage : string) (error : option string)
    (processedImageUrl : option string) (blocks : list DetectedTextBlock)
    (s : ProjectEditor.State) : ProjectEditor.State :=
  {| ProjectEditor.id := ProjectEditor.id s;
     ProjectEditor.projectName := ProjectEditor.projectName s;
     ProjectEditor.imageUrl := ProjectEditor.imageUrl s;
     ProjectEditor.processedImageUrl := processedImageUrl;
     ProjectEditor.blocks := blocks;
     ProjectEditor.isAnalyzing := false;
     ProjectEditor.statusMessage := statusMessage;
     ProjectEditor.error := error;
     ProjectEditor.isSaving := ProjectEditor.isSaving s |}.

(** [reCleanBackground] *)
Definition reCleanBackground (s : ProjectEditor.State)
    (g : GeminiService.World) (w : StorageService.World)
    : ProjectEditor.State * GeminiService.World * StorageService.World :=
  if Browser.falsy (ProjectEditor.imageUrl s) then (s, g, w)
  else
    let imageUrl := default "" (ProjectEditor.imageUrl s) in
    match GeminiService.removeTextFromImage imageUrl g with
    | (Resolved cleaned, g') =>
        if Browser.falsy cleaned then
          (finished "Re-cleaning background..."
             (Some "Could not generate cleaned image")
             (ProjectEditor.processedImageUrl s) (ProjectEditor.blocks s) s,
           g', w)
        else
          let '(s', w') :=
            ProjectEditor.saveChanges s None cleaned
              (finished "Re-cleaning background..." (ProjectEditor.error s)
                 cleaned (ProjectEditor.blocks s) s) w in
          (s', g', w')
    | (Rejected _, g') =>
        (finished "Re-cleaning background..."
           (Some "Failed to clean background")
           (ProjectEditor.processedImageUrl s) (ProjectEditor.blocks s) s,
         g', w)
    end.

Section with_asBlock.

Variable asBlock : Js.value -> DetectedTextBlock.

(** [reDetectText] *)
Definition reDetectText (s : ProjectEditor.State)
    (g : GeminiService.World) (w : StorageService.World)
    : ProjectEditor.State * GeminiService.World * StorageService.World :=
  if Browser.falsy (ProjectEditor.imageUrl s) then (s, g, w)
  else
    let imageUrl := default "" (ProjectEditor.imageUrl s) in
    match GeminiService.analyzeImageText imageUrl g with
    | (Resolved result, g') =>
        let blocks := asBlock <$> GeminiService.textBlocks result in
        let '(s', w') :=
          ProjectEditor.saveChanges s (Some blocks) None
            (finished "Re-detecting text regions..." (ProjectEditor.error s)
               (ProjectEditor.processedImageUrl s) blocks s) w in
        (s', g', w')
    | (Rejected _, g') =>
        (finished "Re-detecting text regions..."
           (Some "Failed to detect text")
           (ProjectEditor.processedImageUrl s) (ProjectEditor.blocks s) s,
         g', w)
    end.

End with_asBlock.

End ProjectActions.

(** ** A sample reading of analysis values *)

Module ReadSamples.
Import Types.

Definition str (v : option Js.value) : string :=
  match v with Some (Js.Str x) => x | _ => "" end.

Definition nums (v : option Js.value) : list float :=
  match v with
  | Some (Js.Arr items) =>
      omap (fun x => match x with Js.Num f => Some f | _ => None end) items
  | _ => []
  end.

(** Reads an analysis value property by property. *)
Definition read (v : Js.value) : DetectedTextBlock :=
  let m := Js.spread v in
  {| id := str (m !! "id");
     originalText := str (m !! "originalText");
     currentText := str (m !! "currentText");
     box_2d := nums (m !! "box_2d");
     textColor := str (m !! "textColor");
     backgroundColor := str (m !! "backgroundColor");
     fontFamily :=
       if String.eqb (str (m !! "fontFamily")) "serif" then serif
       else if String.eqb (str (m !! "fontFamily")) "monospace"
       then monospace
       else if String.eqb (str (m !! "fontFamily")) "cursive" then cursive
       else sans_serif;
     fontWeight :=
       if String.eqb (str (m !! "fontWeight")) "bold" then bold
       else normal |}.

(** The single-page editor with a file chosen and nothing analysed. *)
Definition chosen : App.State :=
  {| App.imageFile := Some UploadSamples.small_file;
     App.imageUrl := Some "blob:poster";
     App.processedImageUrl := None;
     App.isAnalyzing := false;
     App.statusMessage := "Analyzing Image Structure...";
     App.error := None; App.blocks := [] |}.

End ReadSamples.

(** ** src/components: the viewport of the canvas editor *)

Module JsMath.
#[local] Open Scope float_scope.

(** [Math.min(a, b)] and [Math.max(a, b)]: [NaN] when an argument is
    [NaN]; [-0] counts as less than [+0]. *)
Definition min2 (a b : float) : float :=
  if is_nan a || is_nan b then nan
  else if a <? b then a
  else if b <? a then b
  else if get_sign a then a else b.

Definition max2 (a b : float) : float :=
  if is_nan a || is_nan b then nan
  else if a <? b then b
  else if b <? a then a
  else if get_sign a then b else a.

End JsMath.

Module Viewport.
#[local] Open Scope float_scope.

(** The size of the element the canvas sits in. *)
Record Container := {
  clientWidth : float;
  clientHeight : float
}.

(** [fitCanvas]: the scale it sets, or the current [scale] when it
    returns early. *)
Definition fitCanvas (container : option Container)
    (canvas : option Fabric.Canvas) (scale : float) : float :=
  match container, canvas with
  | Some container, Some canvas =>
      let padding := 64 in
      let availableWidth := clientWidth container - padding in
      let availableHeight := clientHeight container - padding in
      let contentWidth := Fabric.width canvas in
      let contentHeight := Fabric.height canvas in
      if (contentWidth <=? 1) || (contentHeight <=? 1) then scale
      else
        let scaleX := availableWidth / contentWidth in
        let scaleY := availableHeight / contentHeight in
        let newScale := JsMath.min2 (JsMath.min2 scaleX scaleY) 1 in
        (* Ensure minimal scale *)
        JsMath.max2 newScale 0.05
  | _, _ => scale
  end.

(** The zoom buttons: [s => Math.max(0.1, s - 0.1)] and [s => s + 0.1]. *)
Definition zoomOut (s : float) : float := JsMath.max2 0.1 (s - 0.1).
Definition zoomIn (s : float) : float := s + 0.1.

End Viewport.

(** ** Sample viewport *)

Module ViewportSamples.
#[local] Open Scope float_scope.

Definition pane : Viewport.Container :=
  {| Viewport.clientWidth := 864; Viewport.clientHeight := 664 |}.

Definition large_canvas : Fabric.Canvas :=
  {| Fabric.width := 1600; Fabric.height := 1200;
     Fabric.backgroundImage := None; Fabric.objects := [] |}.

End ViewportSamples.

(** ** src/App.tsx and src/pages: what the pages hand to the canvas *)

Module AppView.

(** [processedImageUrl || imageUrl] *)
Definition activeImageUrl (s : App.State) : option string :=
  if Browser.falsy (App.processedImageUrl s) then App.imageUrl s
  else App.processedImageUrl s.

(** [!!processedImageUrl] *)
Definition isCleaned (s : App.State) : bool :=
  negb (Browser.falsy (App.processedImageUrl s)).

(** The canvas after the content-loading effect has run with the props
    of [<EditorCanvas imageUrl={activeImageUrl} blocks={blocks}
    isCleaned={!!processedImageUrl} />]. *)
Definition canvas (fabricCanvas : option Fabric.Canvas)
    (img : EditorCanvas.LoadedImage) (s : App.State)
    : option Fabric.Canvas :=
  EditorCanvas.loadContent fabricCanvas (activeImageUrl s) img
    (App.blocks s) (isCleaned s).

End AppView.

Module ProjectView.

Definition activeImageUrl (s : ProjectEditor.State) : option string :=
  if Browser.falsy (ProjectEditor.processedImageUrl s)
  then ProjectEditor.imageUrl s
  else ProjectEditor.processedImageUrl s.

Definition isCleaned (s : ProjectEditor.State) : bool :=
  negb (Browser.falsy (ProjectEditor.processedImageUrl s)).

Definition canvas (fabricCanvas : option Fabric.Canvas)
    (img : EditorCanvas.LoadedImage) (s : ProjectEditor.State)
    : option Fabric.Canvas :=
  EditorCanvas.loadContent fabricCanvas (activeImageUrl s) img
    (ProjectEditor.blocks s) (isCleaned s).

End ProjectView.

(** * Properties *)

(** ** Storage service *)

Module StorageFacts.
Import Async StorageService.

Lemma openDB_set_idb d w : openDB (set_idb d w) = d.
Proof. reflexivity. Qed.

(** Each operation in closed form. *)

Lemma initDB_run w : initDB w = (Resolved (openDB w), set_idb (openDB w) w).
Proof. reflexivity. Qed.

Lemma set_idb_opened w d : idb w = Some d -> set_idb (openDB w) w = w.
Proof. destruct w as [o c cr u ud]. simpl. intros ->. reflexivity. Qed.

Lemma getProject_run k w :
  getProject k w
  = (Resolved (projects (openDB w) !! k), set_idb (openDB w) w).
Proof. reflexivity. Qed.

Lemma createProject_run name image blocks w :
  createProject name image blocks w
  = (Resolved (uuids w (uuid_draws w)),
     {| idb := Some
          {| schema := schema (openDB w);
             projects :=
               <[ uuids w (uuid_draws w) :=
                  {| id := uuids w (uuid_draws w); name := name;
                     createdAt := clock w (clock_reads w);
                     updatedAt := clock w (S (clock_reads w));
                     originalImage := image; processedImage := None;
                     blocks := blocks |} ]> (projects (openDB w)) |};
        clock := clock w; clock_reads := S (S (clock_reads w));
        uuids := uuids w; uuid_draws := S (uuid_draws w) |}).
Proof. reflexivity. Qed.

Lemma updateProject_run key updates w :
  updateProject key updates w
  = match projects (openDB w) !! key with
    | None =>
        (Rejected (JsError ("Project " +:+ key +:+ " not found")),
         set_idb (openDB w) w)
    | Some p =>
        let p' := spread_updates p updates (clock w (clock_reads w)) in
        (Resolved tt,
         {| idb := Some
              {| schema := schema (openDB w);
                 projects := <[ id p' := p' ]> (projects (openDB w)) |};
            clock := clock w; clock_reads := S (clock_reads w);
            uuids := uuids w; uuid_draws := uuid_draws w |})
    end.
Proof.
  unfold updateProject, bind, initDB, get. cbn beta iota zeta.
  rewrite openDB_set_idb. destruct (projects (openDB w) !! key); reflexivity.
Qed.

Lemma getAllProjects_run w :
  getAllProjects w
  = (Resolved (snd <$> merge_sort by_date_le
                 (map_to_list (projects (openDB w)))),
     set_idb (openDB w) w).
Proof. reflexivity. Qed.

Lemma by_date_le_total : Total by_date_le.
Proof.
  intros [k1 p1] [k2 p2]. unfold by_date_le. simpl.
  destruct (Z.lt_trichotomy (updatedAt p1) (updatedAt p2)) as [?|[?|?]];
    [by left; left | | by right; left].
  destruct (String.leb_total k1 k2); [left|right]; right; split;
    done || by symmetry.
Qed.

Lemma by_date_le_updatedAt a b :
  by_date_le a b -> updatedAt a.2 <= updatedAt b.2.
Proof. unfold by_date_le. lia. Qed.

Lemma numbered_keys_differ (i j : nat) :
  "uuid-" +:+ pretty i = "uuid-" +:+ pretty j -> i = j.
Proof.
  intros H. cbn [String.append] in H. injection H as H.
  exact (inj pretty _ _ H).
Qed.

Lemma drawn_key_is_fresh (w : World) :
  KeyGenerator.never_repeats w -> KeyGenerator.keys_drawn w ->
  projects (openDB w) !! uuids w (uuid_draws w) = None.
Proof.
  intros Hinj Hdrawn.
  destruct (projects (openDB w) !! uuids w (uuid_draws w)) eqn:E;
    [|reflexivity].
  destruct (Hdrawn (uuids w (uuid_draws w))) as (i & Hi & Heq).
  { rewrite E. eexists. reflexivity. }
  apply Hinj in Heq. lia.
Qed.

End StorageFacts.


Section storage_theorems.
Import Async StorageService StorageSamples KeySamples StorageFacts.

(** C2, as stated, fails twice over.  [createProject] reads the clock
    twice, once for [createdAt] and once for [updatedAt], so when the
    clock advances between the two readings the persisted record carries
    two different timestamps.  And the key is whatever [uuidv4] returns,
    put into the store unchecked: when the generator returns a key that
    is stored already, the key is not fresh and the record that was
    there is replaced, the store keeping its size. *)
Lemma createProject_timestamps_or_key_counterexample :
  (exists w',
     createProject "photo" "data:image/png;base64,AAAA" [] ticking_world
       = (Resolved "uuid-0", w')
     /\ getProject "uuid-0" w'
        = (Resolved (Some (created "uuid-0" "photo"
                             "data:image/png;base64,AAAA" []
                             1700000000000 1700000000001)), w')
     /\ createdAt (created "uuid-0" "photo" "data:image/png;base64,AAAA" []
                     1700000000000 1700000000001)
        <> updatedAt (created "uuid-0" "photo" "data:image/png;base64,AAAA"
                       [] 1700000000000 1700000000001))
  /\ (exists w',
        fst (getProject stored_key colliding_world)
          = Resolved (Some stored_project)
        /\ createProject "photo" "data:image/png;base64,AAAA" []
             colliding_world
           = (Resolved stored_key, w')
        /\ fst (getProject stored_key w')
           = Resolved (Some (created stored_key "photo"
                               "data:image/png;base64,AAAA" [] 100 101))
        /\ size (projects (openDB w'))
           = size (projects (openDB colliding_world))).
Proof.
  split.
  - eexists. rewrite createProject_run. split; [reflexivity|]. split.
    + rewrite getProject_run. cbn [openDB idb projects].
      rewrite lookup_insert_eq. reflexivity.
    + discriminate.
  - eexists. rewrite createProject_run. split; [|split; [reflexivity|split]].
    + rewrite getProject_run. cbn [fst openDB idb projects colliding_world].
      rewrite lookup_singleton_eq. reflexivity.
    + rewrite getProject_run.
      cbn [fst openDB idb projects colliding_world uuids uuid_draws].
      rewrite lookup_insert_eq. reflexivity.
    + cbn [openDB idb projects colliding_world uuids uuid_draws].
      rewrite insert_singleton_eq, !map_size_singleton. reflexivity.
Qed.

(** C2 (amended): for every name, image and block list, [createProject]
    generates a key, persists under it the record with exactly that
    name, that image as [originalImage], those blocks, [processedImage]
    null, [createdAt] the first and [updatedAt] the second of two
    consecutive clock readings (equal whenever the clock did not advance
    in between), leaves every other key as it was, and returns the key;
    [getProject] on the returned key yields exactly that record, and
    [getProject] on a key that is not stored yields nothing.  The key is
    what [uuidv4] returns: it is fresh, the store grows by exactly one
    record and every project stored before is still read back as it
    was, whenever the generator never repeats a key and the stored keys
    all came from it, which then holds again for the next call. *)
Theorem createProject_getProject_roundtrip
    (name originalImage : string) (blocks : list Types.DetectedTextBlock)
    (w : World) :
  let key := uuids w (uuid_draws w) in
  let t1 := clock w (clock_reads w) in
  let t2 := clock w (S (clock_reads w)) in
  let record := created key name originalImage blocks t1 t2 in
  exists w',
    createProject name originalImage blocks w = (Resolved key, w')
    /\ projects (openDB w') = <[ key := record ]> (projects (openDB w))
    /\ getProject key w' = (Resolved (Some record), w')
    /\ (createdAt record = updatedAt record <-> t1 = t2)
    /\ (projects (openDB w) !! key = None ->
        size (projects (openDB w')) = S (size (projects (openDB w))))
    /\ (forall k, k <> key ->
          fst (getProject k w') = fst (getProject k w))
    /\ (forall (w0 : World) k, projects (openDB w0) !! k = None ->
          fst (getProject k w0) = Resolved None)
    /\ (KeyGenerator.never_repeats w -> KeyGenerator.keys_drawn w ->
        fst (getProject key w) = Resolved None
        /\ size (projects (openDB w')) = S (size (projects (openDB w)))
        /\ (forall k p, fst (getProject k w) = Resolved (Some p) ->
              fst (getProject k w') = Resolved (Some p))
        /\ KeyGenerator.never_repeats w'
        /\ KeyGenerator.keys_drawn w').
Proof.
  intros key t1 t2 record. eexists.
  rewrite createProject_run. split; [reflexivity|].
  split; [reflexivity|]. split; [|split; [|split; [|split; [|split]]]].
  - rewrite getProject_run. cbn [openDB idb projects].
    rewrite lookup_insert_eq. reflexivity.
  - reflexivity.
  - intros Hfresh. cbn [openDB idb projects].
    apply map_size_insert_None, Hfresh.
  - intros k Hk. rewrite !getProject_run. cbn [fst openDB idb projects].
    rewrite lookup_insert_ne by (intros E; apply Hk; symmetry; exact E).
    reflexivity.
  - intros w0 k Hk. rewrite getProject_run. cbn [fst]. rewrite Hk.
    reflexivity.
  - intros Hinj Hdrawn.
    pose proof (drawn_key_is_fresh w Hinj Hdrawn) as Hfresh.
    split; [|split; [|split; [|split]]].
    + rewrite getProject_run. cbn [fst]. unfold key. rewrite Hfresh.
      reflexivity.
    + cbn [openDB idb projects]. apply map_size_insert_None, Hfresh.
    + intros k p. rewrite !getProject_run. cbn [fst openDB idb projects].
      intros [= Hk]. f_equal.
      rewrite lookup_insert_ne; [exact Hk|].
      intros E. rewrite <- E in Hk. unfold key in Hk.
      rewrite Hfresh in Hk. discriminate.
    + exact Hinj.
    + intros k [p Hp]. cbn [openDB idb projects] in Hp.
      cbn [uuids uuid_draws].
      apply lookup_insert_Some in Hp as [[<- _]|[_ Hp]].
      * exists (uuid_draws w). split; [lia|reflexivity].
      * destruct (Hdrawn k) as (i & Hi & Heq); [eexists; exact Hp|].
        exists i. split; [lia|exact Heq].
Qed.

Lemma createProject_getProject_roundtrip_witness :
  fst (getProject "nobody" drawn_world) = Resolved None
  /\ exists w',
       createProject "photo" "img" [] drawn_world = (Resolved "uuid-1", w')
       /\ getProject "uuid-1" w'
          = (Resolved (Some (created "uuid-1" "photo" "img" [] 100 101)), w')
       /\ fst (getProject "uuid-0" w') = Resolved (Some first_project)
       /\ size (projects (openDB w')) = 2%nat
       /\ KeyGenerator.keys_drawn w'.
Proof.
  assert (Hinj : KeyGenerator.never_repeats drawn_world).
  { intros i j. apply numbered_keys_differ. }
  assert (Hdrawn : KeyGenerator.keys_drawn drawn_world).
  { intros k [p Hp]. cbn [openDB idb projects drawn_world] in Hp.
    apply lookup_singleton_Some in Hp as [<- _].
    exists 0%nat. split; [cbn; lia|reflexivity]. }
  destruct (createProject_getProject_roundtrip "photo" "img" [] drawn_world)
    as (w' & Hc & _ & Hg & _ & _ & _ & Hnone & Hfresh).
  destruct (Hfresh Hinj Hdrawn) as (_ & Hsize & Hkept & _ & Hdrawn').
  split.
  - apply Hnone. reflexivity.
  - exists w'. split; [exact Hc|]. split; [exact Hg|].
    split; [apply Hkept; reflexivity|]. split; [|exact Hdrawn'].
    rewrite Hsize. reflexivity.
Defined.

Example getAllProjects_three :
  (getAllProjects three_projects_world).1
  = Resolved [ created "a" "early" "img" [] 2 5;
               created "c" "middle" "img" [] 3 5;
               created "b" "late" "img" [] 1 9 ].
Proof. vm_compute. reflexivity. Qed.

Example updateProject_missing :
  (updateProject "ghost" renaming three_projects_world).1
  = Rejected (JsError "Project ghost not found").
Proof. vm_compute. reflexivity. Qed.

(** C6: [upgrade], run on a new database, declares one object store,
    ['projects'] keyed on [id], with the single index ['by-date'] on
    [updatedAt]; and in every state of the database [getAllProjects]
    returns the stored projects, all of them and nothing else, in
    ascending order of [updatedAt]. *)
Theorem getAllProjects_sorted_by_date (w : World) :
  upgrade []
    = [ {| store_name := "projects"; store_keyPath := "id";
           store_indexes :=
             [ {| index_name := "by-date";
                  index_keyPath := "updatedAt" |} ] |} ]
  /\ exists l,
       getAllProjects w = (Resolved l, set_idb (openDB w) w)
       /\ l ≡ₚ snd <$> map_to_list (projects (openDB w))
       /\ (forall p, p ∈ l <->
                     exists k, projects (openDB w) !! k = Some p)
       /\ StronglySorted (fun a b => updatedAt a <= updatedAt b) l.
Proof.
  split; [reflexivity|]. eexists. rewrite getAllProjects_run.
  split; [reflexivity|].
  assert (Hperm : snd <$> merge_sort by_date_le
                            (map_to_list (projects (openDB w)))
                  ≡ₚ snd <$> map_to_list (projects (openDB w))).
  { apply fmap_Permutation, merge_sort_Permutation. }
  split; [exact Hperm|]. split.
  - intros p. rewrite Hperm, list_elem_of_fmap. split.
    + intros [[k q] [-> Hin]]. exists k.
      apply elem_of_map_to_list in Hin. exact Hin.
    + intros [k Hk]. exists (k, p). split; [reflexivity|].
      apply elem_of_map_to_list. exact Hk.
  - apply Sorted_StronglySorted.
    { intros a b c. apply Z.le_trans. }
    apply (Sorted_fmap snd by_date_le).
    + intros a b. apply by_date_le_updatedAt.
    + apply (@Sorted_merge_sort _ by_date_le _ by_date_le_total).
Qed.

(** C7: [updateProject] rejects, with the error "Project {id} not
    found", exactly when no project is stored under the id, and then the
    object store is unchanged; otherwise it resolves and stores (under
    the record's own id) the existing record overlaid with the fields
    the update names and with a fresh clock reading as [updatedAt]; a
    field the update does not name, [updatedAt] apart, keeps its
    value. *)
Theorem updateProject_overlay (key : string) (updates : PartialProject)
    (w : World) :
  (is_rejected (fst (updateProject key updates w)) = true
     <-> projects (openDB w) !! key = None)
  /\ (projects (openDB w) !! key = None ->
        fst (updateProject key updates w)
          = Rejected (JsError ("Project " +:+ key +:+ " not found"))
        /\ projects (openDB (snd (updateProject key updates w)))
           = projects (openDB w))
  /\ (forall p, projects (openDB w) !! key = Some p ->
        exists p',
          fst (updateProject key updates w) = Resolved tt
          /\ projects (openDB (snd (updateProject key updates w)))
             = <[ id p' := p' ]> (projects (openDB w))
          /\ updatedAt p' = clock w (clock_reads w)
          /\ id p' = default (id p) (upd_id updates)
          /\ name p' = default (name p) (upd_name updates)
          /\ createdAt p' = default (createdAt p) (upd_createdAt updates)
          /\ originalImage p'
             = default (originalImage p) (upd_originalImage updates)
          /\ processedImage p'
             = default (processedImage p) (upd_processedImage updates)
          /\ blocks p' = default (blocks p) (upd_blocks updates)).
Proof.
  rewrite updateProject_run.
  destruct (projects (openDB w) !! key) as [p|] eqn:Hget.
  - split; [split; discriminate|]. split; [discriminate|].
    intros q [= <-]. eexists. cbn [fst snd].
    split; [reflexivity|]. split; [reflexivity|].
    repeat split.
  - split; [split; reflexivity|]. split.
    + intros _. split; [reflexivity|]. reflexivity.
    + discriminate.
Qed.

Lemma updateProject_overlay_witness :
  (fst (updateProject "ghost" no_updates one_project_world)
     = Rejected (JsError "Project ghost not found")
   /\ projects (openDB (snd (updateProject "ghost" no_updates
                               one_project_world)))
      = projects (openDB one_project_world))
  /\ exists p',
       fst (updateProject "p1" renaming one_project_world) = Resolved tt
       /\ name p' = "poster" /\ updatedAt p' = 100
       /\ createdAt p' = 5 /\ id p' = "p1"
       /\ originalImage p' = "data:image/png;base64,AAAA"
       /\ projects (openDB (snd (updateProject "p1" renaming
                                   one_project_world)))
            !! "p1" = Some p'.
Proof.
  split.
  - apply (updateProject_overlay "ghost" no_updates one_project_world).
    reflexivity.
  - destruct (updateProject_overlay "p1" renaming one_project_world)
      as (_ & _ & Hsome).
    destruct (Hsome sample_project eq_refl)
      as (p' & Hres & Hstore & Hup & Hid & Hname & Hcr & Himg & _).
    exists p'. split; [exact Hres|]. split; [exact Hname|].
    split; [exact Hup|]. split; [exact Hcr|]. split; [exact Hid|].
    split; [exact Himg|].
    rewrite Hstore, Hid. apply lookup_insert_eq.
Defined.

End storage_theorems.

(** ** Canvas editor *)

Module CanvasFacts.
Import Types Fabric EditorCanvas.

Lemma rects_app l1 l2 : rects (l1 ++ l2) = rects l1 ++ rects l2.
Proof. apply omap_app. Qed.

Lemma textboxes_app l1 l2 :
  textboxes (l1 ++ l2) = textboxes l1 ++ textboxes l2.
Proof. apply omap_app. Qed.

Lemma processBlock_objects W H ic c b :
  objects (processBlock W H ic c b) = objects c ++ added W H ic b.
Proof.
  unfold processBlock, added. destruct ic; cbn [negb objects add].
  - reflexivity.
  - rewrite <- app_assoc. reflexivity.
Qed.

Lemma forEach_objects W H ic bs c :
  objects (fold_left (processBlock W H ic) bs c)
  = objects c ++ concat (added W H ic <$> bs).
Proof.
  revert c. induction bs as [|b bs IH]; intros c; cbn [fold_left].
  - cbn. rewrite app_nil_r. reflexivity.
  - rewrite IH, processBlock_objects, <- app_assoc. reflexivity.
Qed.

Lemma forEach_size W H ic bs c :
  width (fold_left (processBlock W H ic) bs c) = width c
  /\ height (fold_left (processBlock W H ic) bs c) = height c.
Proof.
  revert c. induction bs as [|b bs IH]; intros c; cbn [fold_left].
  - split; reflexivity.
  - destruct (IH (processBlock W H ic c b)) as [-> ->].
    unfold processBlock. destruct ic; split; reflexivity.
Qed.

Lemma onload_size img bs ic c :
  width (onload img bs ic c) = or_else (naturalWidth img) 800
  /\ height (onload img bs ic c) = or_else (naturalHeight img) 600.
Proof.
  unfold onload. cbv zeta.
  match goal with
  | |- width (fold_left _ _ ?c0) = _ /\ _ =>
      destruct (forEach_size (or_else (naturalWidth img) 800)
                  (or_else (naturalHeight img) 600) ic bs c0) as [-> ->]
  end.
  split; reflexivity.
Qed.

Lemma onload_objects img bs ic c :
  objects (onload img bs ic c)
  = concat (added (or_else (naturalWidth img) 800)
                  (or_else (naturalHeight img) 600) ic <$> bs).
Proof. unfold onload. rewrite forEach_objects. reflexivity. Qed.

Lemma textboxes_added W H ic b :
  textboxes (added W H ic b)
  = [textbox
       ((at_index (box_2d b) 1 / 1000) * W)%float
       ((at_index (box_2d b) 0 / 1000) * H)%float
       (((at_index (box_2d b) 3 - at_index (box_2d b) 1) / 1000) * W)%float
       (((at_index (box_2d b) 2 - at_index (box_2d b) 0) / 1000) * H)%float
       b].
Proof. unfold added. destruct ic; reflexivity. Qed.

Lemma rects_added_cleaned W H b : rects (added W H true b) = [].
Proof. reflexivity. Qed.

Lemma rects_added_masked W H b :
  rects (added W H false b)
  = [maskRect
       ((at_index (box_2d b) 1 / 1000) * W)%float
       ((at_index (box_2d b) 0 / 1000) * H)%float
       (((at_index (box_2d b) 3 - at_index (box_2d b) 1) / 1000) * W)%float
       (((at_index (box_2d b) 2 - at_index (box_2d b) 0) / 1000) * H)%float
       b].
Proof. reflexivity. Qed.

Lemma or_else_truthy a b : truthy a = true -> or_else a b = a.
Proof. unfold or_else. intros ->. reflexivity. Qed.

(** One object of a kind per block: the i-th object of that kind comes
    from the i-th block. *)
Lemma one_per_block {A} (pick : list Object -> list A)
    (f : DetectedTextBlock -> list Object) (g : DetectedTextBlock -> A) bs :
  (forall l1 l2, pick (l1 ++ l2) = pick l1 ++ pick l2) ->
  pick [] = [] ->
  (forall b, pick (f b) = [g b]) ->
  pick (concat (f <$> bs)) = g <$> bs.
Proof.
  intros Happ Hnil Hone. induction bs as [|b bs IH]; cbn.
  - exact Hnil.
  - rewrite Happ, Hone, IH. reflexivity.
Qed.

Lemma none_per_block {A} (pick : list Object -> list A)
    (f : DetectedTextBlock -> list Object) bs :
  (forall l1 l2, pick (l1 ++ l2) = pick l1 ++ pick l2) ->
  pick [] = [] ->
  (forall b, pick (f b) = []) ->
  pick (concat (f <$> bs)) = [].
Proof.
  intros Happ Hnil Hone. induction bs as [|b bs IH]; cbn.
  - exact Hnil.
  - rewrite Happ, Hone, IH. reflexivity.
Qed.

End CanvasFacts.

Section canvas_theorems.
Import Types Fabric EditorCanvas CanvasFacts CanvasSamples.
#[local] Open Scope float_scope.

(** C1: for every block with [box_2d = [ymin, xmin, ymax, xmax]] and
    every image, the textbox placed for the block has
    [left = (xmin/1000)*width], [width = ((xmax-xmin)/1000)*width],
    [top = (ymin/1000)*height] plus 10% of the box height
    [((ymax-ymin)/1000)*height], and a font size of 80% of that box
    height, where [width] x [height] are the pixel dimensions the editor
    takes from the image: its natural width and height whenever these
    are non-zero numbers. *)
Theorem textbox_pixel_mapping (img : LoadedImage)
    (blocks : list DetectedTextBlock) (isCleaned : bool) (canvas : Canvas)
    (i : nat) (block : DetectedTextBlock) (ymin xmin ymax xmax : float) :
  blocks !! i = Some block ->
  box_2d block = [ymin; xmin; ymax; xmax] ->
  let width := or_else (naturalWidth img) 800 in
  let height := or_else (naturalHeight img) 600 in
  let left := (xmin / 1000) * width in
  let top := (ymin / 1000) * height in
  let box_width := ((xmax - xmin) / 1000) * width in
  let box_height := ((ymax - ymin) / 1000) * height in
  (truthy (naturalWidth img) = true -> width = naturalWidth img)
  /\ (truthy (naturalHeight img) = true -> height = naturalHeight img)
  /\ Fabric.width (onload img blocks isCleaned canvas) = width
  /\ Fabric.height (onload img blocks isCleaned canvas) = height
  /\ length (textboxes (objects (onload img blocks isCleaned canvas)))
     = length blocks
  /\ exists tb,
       textboxes (objects (onload img blocks isCleaned canvas)) !! i
         = Some tb
       /\ Textbox.left tb = left
       /\ Textbox.width tb = box_width
       /\ Textbox.top tb = top + box_height * 0.1
       /\ Textbox.fontSize tb = box_height * 0.8
       /\ Textbox.text tb = currentText block.
Proof.
  intros Hi Hbox width height left top box_width box_height.
  assert (Htb : textboxes (objects (onload img blocks isCleaned canvas))
                = (fun b => textbox
                     ((at_index (box_2d b) 1 / 1000) * width)
                     ((at_index (box_2d b) 0 / 1000) * height)
                     (((at_index (box_2d b) 3 - at_index (box_2d b) 1)
                       / 1000) * width)
                     (((at_index (box_2d b) 2 - at_index (box_2d b) 0)
                       / 1000) * height) b) <$> blocks).
  { rewrite onload_objects.
    apply (one_per_block textboxes); [apply textboxes_app | reflexivity |].
    intros b. apply textboxes_added. }
  split; [apply or_else_truthy|]. split; [apply or_else_truthy|].
  destruct (onload_size img blocks isCleaned canvas) as [-> ->].
  split; [reflexivity|]. split; [reflexivity|].
  rewrite Htb. split; [apply length_fmap|].
  rewrite list_lookup_fmap, Hi. cbn [fmap option_fmap option_map].
  eexists. split; [reflexivity|].
  rewrite Hbox. repeat split.
Qed.

Lemma textbox_pixel_mapping_witness :
  exists tb,
    textboxes (objects (onload photo [headline; footer] false blank)) !! 1%nat
      = Some tb
    /\ Textbox.left tb = 64
    /\ Textbox.width tb = 256
    /\ Textbox.top tb = 384 + 48 * 0.1
    /\ Textbox.fontSize tb = 48 * 0.8
    /\ Textbox.text tb = "ends monday".
Proof.
  destruct (textbox_pixel_mapping photo [headline; footer] false blank 1
              footer 800 100 900 500 eq_refl eq_refl)
    as (_ & _ & _ & _ & _ & tb & H).
  exists tb. exact H.
Defined.

(** C10: when no cleaned image is in use ([isCleaned] false) the editor
    adds exactly one rectangle per block, in block order, not selectable,
    not evented, filled with the block's [backgroundColor], and covering
    the block's pixel box [x], [y], [w], [h] widened by [w * 0.05] on the
    left and on the right and by [h * 0.05] above and below; when
    [isCleaned] is true it adds no rectangle at all. *)
Theorem mask_rectangles (img : LoadedImage)
    (blocks : list DetectedTextBlock) (canvas : Canvas) :
  rects (objects (onload img blocks true canvas)) = []
  /\ length (rects (objects (onload img blocks false canvas)))
     = length blocks
  /\ forall (i : nat) (block : DetectedTextBlock),
       blocks !! i = Some block ->
       let width := Fabric.width (onload img blocks false canvas) in
       let height := Fabric.height (onload img blocks false canvas) in
       let x := (at_index (box_2d block) 1 / 1000) * width in
       let y := (at_index (box_2d block) 0 / 1000) * height in
       let w := ((at_index (box_2d block) 3 - at_index (box_2d block) 1)
                 / 1000) * width in
       let h := ((at_index (box_2d block) 2 - at_index (box_2d block) 0)
                 / 1000) * height in
       exists r,
         rects (objects (onload img blocks false canvas)) !! i = Some r
         /\ Rect.selectable r = false
         /\ Rect.evented r = false
         /\ Rect.fill r = backgroundColor block
         /\ Rect.left r = x - w * 0.05
         /\ Rect.top r = y - h * 0.05
         /\ Rect.width r = w + (w * 0.05) * 2
         /\ Rect.height r = h + (h * 0.05) * 2.
Proof.
  split; [|split].
  - rewrite onload_objects.
    apply (none_per_block rects); [apply rects_app | reflexivity |].
    intros b. apply rects_added_cleaned.
  - rewrite onload_objects.
    erewrite (one_per_block rects);
      [apply length_fmap | apply rects_app | reflexivity |].
    intros b. apply rects_added_masked.
  - intros i block Hi.
    destruct (onload_size img blocks false canvas) as [-> ->].
    rewrite onload_objects.
    erewrite (one_per_block rects);
      [| apply rects_app | reflexivity | intros b; apply rects_added_masked].
    cbv zeta. rewrite list_lookup_fmap, Hi.
    cbn [fmap option_fmap option_map].
    eexists. split; [reflexivity|]. repeat split.
Qed.

Lemma mask_rectangles_witness :
  rects (objects (onload photo [headline; footer] true blank)) = []
  /\ exists r,
       rects (objects (onload photo [headline; footer] false blank)) !! 0%nat
         = Some r
       /\ Rect.selectable r = false
       /\ Rect.evented r = false
       /\ Rect.fill r = "#ffffff"
       /\ Rect.left r = 160 - 320 * 0.05
       /\ Rect.top r = 48 - 96 * 0.05
       /\ Rect.width r = 320 + (320 * 0.05) * 2
       /\ Rect.height r = 96 + (96 * 0.05) * 2.
Proof.
  destruct (mask_rectangles photo [headline; footer] blank)
    as (Hclean & _ & Hmask).
  split; [exact Hclean|].
  destruct (Hmask 0%nat headline eq_refl) as (r & H).
  exists r. exact H.
Defined.

End canvas_theorems.

(** ** Pages *)

Module PageFacts.
Import Types.

(** The list both pages compute in [updateBlockText]. *)
Lemma retext_length id newText (bs : list DetectedTextBlock) :
  length ((fun b => if String.eqb (Types.id b) id
                    then with_currentText b newText else b) <$> bs)
  = length bs.
Proof. apply length_fmap. Qed.

Lemma retext_lookup id newText (bs : list DetectedTextBlock) i b :
  bs !! i = Some b ->
  ((fun b => if String.eqb (Types.id b) id
             then with_currentText b newText else b) <$> bs) !! i
  = Some (if String.eqb (Types.id b) id
          then with_currentText b newText else b).
Proof. intros H. rewrite list_lookup_fmap, H. reflexivity. Qed.

Lemma retext_absent id newText (bs : list DetectedTextBlock) :
  (forall b, b ∈ bs -> Types.id b <> id) ->
  (fun b => if String.eqb (Types.id b) id
            then with_currentText b newText else b) <$> bs = bs.
Proof.
  induction bs as [|b bs IH]; intros Hno; cbn; [reflexivity|].
  assert (Hb : String.eqb (Types.id b) id = false).
  { apply String.eqb_neq, Hno. left. }
  rewrite Hb. f_equal. apply IH. intros b' Hin. apply Hno. right. exact Hin.
Qed.

Lemma projectEditor_blocks seen id newText s w :
  ProjectEditor.blocks (ProjectEditor.updateBlockText seen id newText s w).1
  = (fun b => if String.eqb (Types.id b) id
              then with_currentText b newText else b)
    <$> ProjectEditor.blocks s.
Proof.
  unfold ProjectEditor.updateBlockText.
  destruct (ProjectEditor.saveChanges _ _ _ _ _) as [s' w']. reflexivity.
Qed.

End PageFacts.

Section page_theorems.
Import Types PageFacts PageSamples CanvasSamples.

(** C8: a file strictly larger than 5 * 1024 * 1024 bytes is turned away
    by both upload handlers before anything else happens.  On the
    dashboard the storage world is untouched (no project is created, no
    key drawn) and the route does not change; only the alert is shown.
    In the single-page editor the error message is set and the chosen
    file, the image URL, the blocks and the processed image stay as they
    were. *)
Theorem oversized_upload_rejected
    (createObjectURL : Browser.File -> string)
    (file : Browser.File) (others : list Browser.File)
    (w : Dashboard.World) (s : App.State) :
  (5 * 1024 * 1024 < Browser.size file)%N ->
  (Dashboard.handleCreateProject (file :: others) w
     = Dashboard.alert "Image size too large (max 5MB)" w
   /\ Dashboard.storage (Dashboard.handleCreateProject (file :: others) w)
      = Dashboard.storage w
   /\ Dashboard.location (Dashboard.handleCreateProject (file :: others) w)
      = Dashboard.location w)
  /\ (let s' := App.handleFileChange createObjectURL (file :: others) s in
      App.error s'
        = Some "File size too large. Please upload an image under 5MB."
      /\ App.imageFile s' = App.imageFile s
      /\ App.imageUrl s' = App.imageUrl s
      /\ App.blocks s' = App.blocks s
      /\ App.processedImageUrl s' = App.processedImageUrl s
      /\ App.isAnalyzing s' = App.isAnalyzing s
      /\ App.statusMessage s' = App.statusMessage s).
Proof.
  intros Hbig. apply N.ltb_lt in Hbig.
  unfold Dashboard.handleCreateProject, App.handleFileChange.
  cbn [head]. rewrite Hbig. cbv zeta. repeat split.
Qed.

Lemma oversized_upload_rejected_witness :
  Dashboard.handleCreateProject [big_file] dashboard
    = Dashboard.alert "Image size too large (max 5MB)" dashboard
  /\ App.blocks (App.handleFileChange (fun f => "blob:" +:+ Browser.name f)
                   [big_file] editing)
     = [headline; footer]
  /\ App.error (App.handleFileChange (fun f => "blob:" +:+ Browser.name f)
                  [big_file] editing)
     = Some "File size too large. Please upload an image under 5MB.".
Proof.
  destruct (oversized_upload_rejected (fun f => "blob:" +:+ Browser.name f)
              big_file [] dashboard editing eq_refl)
    as ((Hd & _ & _) & He & _ & _ & Hb & _).
  split; [exact Hd|]. split; [exact Hb | exact He].
Defined.

(** C9: [updateBlockText], in the single-page editor and in the project
    editor alike, yields a block list of the same length and order in
    which a block whose id is the given id has [currentText] replaced by
    the new text and every other field as before, and a block with
    another id is unchanged; when no block has the id, the list is
    unchanged. *)
Theorem updateBlockText_frame (id newText : string) (s : App.State)
    (seen ps : ProjectEditor.State) (w : StorageService.World)
    (before after : list DetectedTextBlock) :
  (before = App.blocks s
   /\ after = App.blocks (App.updateBlockText id newText s))
  \/ (before = ProjectEditor.blocks ps
      /\ after = ProjectEditor.blocks
                   (ProjectEditor.updateBlockText seen id newText ps w).1) ->
  length after = length before
  /\ (forall i b, before !! i = Some b ->
        exists b', after !! i = Some b'
          /\ Types.id b' = Types.id b
          /\ originalText b' = originalText b
          /\ box_2d b' = box_2d b
          /\ textColor b' = textColor b
          /\ backgroundColor b' = backgroundColor b
          /\ fontFamily b' = fontFamily b
          /\ fontWeight b' = fontWeight b
          /\ (Types.id b = id -> currentText b' = newText)
          /\ (Types.id b <> id -> b' = b))
  /\ ((forall b, b ∈ before -> Types.id b <> id) -> after = before).
Proof.
  intros Hwhich.
  assert (Hafter : after
            = (fun b => if String.eqb (Types.id b) id
                        then with_currentText b newText else b) <$> before).
  { destruct Hwhich as [[-> ->]|[-> ->]];
      [reflexivity | apply projectEditor_blocks]. }
  rewrite Hafter. split; [apply retext_length|]. split.
  - intros i b Hi. eexists. split; [apply retext_lookup, Hi|].
    destruct (String.eqb_spec (Types.id b) id) as [Heq|Hne].
    + repeat split; try reflexivity. intros Hne. contradiction.
    + repeat split; try reflexivity. intros Heq. contradiction.
  - apply retext_absent.
Qed.

Lemma updateBlockText_frame_witness :
  App.blocks (App.updateBlockText "block-1-1700000000000" "ends sunday"
                editing)
    !! 1%nat = Some (with_currentText footer "ends sunday")
  /\ App.blocks (App.updateBlockText "block-1-1700000000000" "ends sunday"
                   editing)
       !! 0%nat = Some headline
  /\ App.blocks (App.updateBlockText "block-7" "x" editing)
     = [headline; footer].
Proof.
  destruct (updateBlockText_frame "block-1-1700000000000" "ends sunday"
              editing project_page project_page
              StorageSamples.one_project_world
              _ _ (or_introl (conj eq_refl eq_refl)))
    as (_ & Hat & _).
  destruct (updateBlockText_frame "block-7" "x"
              editing project_page project_page
              StorageSamples.one_project_world
              _ _ (or_introl (conj eq_refl eq_refl)))
    as (_ & _ & Hnone).
  split; [|split].
  - destruct (Hat 1%nat footer eq_refl)
      as (b' & Hl & Hid & Ho & Hb & Htc & Hbc & Hff & Hfw & Hcur & _).
    rewrite Hl. f_equal. destruct b'. cbn in *.
    rewrite Hid, Ho, Hb, Htc, Hbc, Hff, Hfw, (Hcur eq_refl). reflexivity.
  - destruct (Hat 0%nat headline eq_refl)
      as (b' & Hl & _ & _ & _ & _ & _ & _ & _ & _ & Hsame).
    rewrite Hl, Hsame; [reflexivity | discriminate].
  - apply Hnone. intros b Hin.
    apply elem_of_cons in Hin as [->|Hin]; [discriminate|].
    apply elem_of_cons in Hin as [->|Hin]; [discriminate|].
    inversion Hin.
Defined.

End page_theorems.

(** ** Calls to the hosted model *)

Module GeminiFacts.
Import Async GenAI GeminiService Numeral.

(** *** Decimal digits and the block ids *)

Lemma pretty_N_char_digit x : is_digit (pretty_N_char x) = true.
Proof.
  unfold pretty_N_char. repeat case_match; reflexivity.
Qed.

Lemma pretty_N_go_digits x s :
  digits_only s = true -> digits_only (pretty_N_go x s) = true.
Proof.
  revert s. induction (N.lt_wf_0 x) as [x _ IH]; intros s Hs.
  destruct (decide (x = 0)%N) as [->|Hx].
  - rewrite pretty_N_go_0. exact Hs.
  - rewrite pretty_N_go_step by lia. apply IH.
    + apply N.div_lt; lia.
    + cbn [digits_only]. rewrite pretty_N_char_digit, Hs. reflexivity.
Qed.

Lemma pretty_nat_digits (n : nat) : digits_only (pretty n) = true.
Proof.
  unfold pretty, pretty_nat, pretty, pretty_N.
  case_decide; [reflexivity|]. apply pretty_N_go_digits. reflexivity.
Qed.

(** Two digit strings that are each followed by a dash are equal as soon
    as the strings they start are. *)
Lemma digits_before_dash a b s s' :
  digits_only a = true -> digits_only b = true ->
  a +:+ "-" +:+ s = b +:+ "-" +:+ s' -> a = b.
Proof.
  revert b. induction a as [|c a IH]; intros [|d b] Ha Hb Heq.
  - reflexivity.
  - cbn in Heq. injection Heq as <- _. cbn in Hb. discriminate.
  - cbn in Heq. injection Heq as -> _. cbn in Ha. discriminate.
  - cbn in Heq. injection Heq as -> Hrest.
    cbn in Ha, Hb. apply andb_prop in Ha as [_ Ha], Hb as [_ Hb].
    f_equal. apply (IH b Ha Hb Hrest).
Qed.

Lemma block_id_inj (i j : nat) (t t' : Z) :
  "block-" +:+ pretty i +:+ "-" +:+ pretty t
  = "block-" +:+ pretty j +:+ "-" +:+ pretty t' -> i = j.
Proof.
  intros Heq. cbn in Heq. injection Heq as Heq.
  apply digits_before_dash in Heq; try apply pretty_nat_digits.
  apply (inj pretty) in Heq. exact Heq.
Qed.

(** *** What each step does to the request log *)

Lemma selectApiKey_world w : (selectApiKey w).2 = w.
Proof.
  unfold selectApiKey. destruct (aistudio w) as [studio|]; [|reflexivity].
  destruct (hasSelectedApiKey studio) as [asked|]; [|reflexivity].
  unfold bind, await, ret. destruct asked as [hasKey|e]; [|reflexivity].
  destruct (negb hasKey); [|reflexivity].
  destruct (openSelectKey studio) as [[[]|e]|]; reflexivity.
Qed.

Lemma bind_keeps_requests {A B} (m : M World A) (k : A -> M World B) w :
  (forall a w', requests (k a w').2 = requests w') ->
  requests (bind m k w).2 = requests (m w).2.
Proof.
  intros Hk. unfold bind. destruct (m w) as [[a|e] w']; [apply Hk|].
  reflexivity.
Qed.

Lemma try_catch_keeps_requests {A} (m : M World A) (h : exn -> M World A) w :
  (forall e w', requests (h e w').2 = requests w') ->
  requests (try_catch m h w).2 = requests (m w).2.
Proof.
  intros Hh. unfold try_catch. destruct (m w) as [[a|e] w']; [|apply Hh].
  reflexivity.
Qed.

Lemma processBlock_requests block index w :
  requests (processBlock block index w).2 = requests w.
Proof.
  unfold processBlock, bind, Date_now, await, ret. cbn [fst snd].
  destruct (Js.getprop block "originalText"); reflexivity.
Qed.

Lemma map_from_requests items index w :
  requests (map_from processBlock items index w).2 = requests w.
Proof.
  revert index w. induction items as [|block rest IH]; intros index w.
  - reflexivity.
  - cbn [map_from]. rewrite bind_keeps_requests.
    + apply processBlock_requests.
    + intros a w'. rewrite bind_keeps_requests; [apply IH|].
      intros; reflexivity.
Qed.

Lemma array_map_requests v w :
  requests (array_map v processBlock w).2 = requests w.
Proof. destruct v; try reflexivity. apply map_from_requests. Qed.

Lemma analyze_handler_requests (error : exn) w :
  requests ((let* _ := console_error "Error analyzing image:" in
             throw (A := AnalysisResult) error) w).2 = requests w.
Proof. reflexivity. Qed.

Lemma analyzeImageText_requests image w :
  requests (analyzeImageText image w).2
  = requests w ++ [analyzeRequest image].
Proof.
  unfold analyzeImageText.
  rewrite try_catch_keeps_requests by (intros; reflexivity).
  rewrite bind_keeps_requests; [reflexivity|].
  intros response w'. destruct (Response.text response) as [jsonText|];
    [|reflexivity].
  destruct (String.eqb jsonText ""); [reflexivity|].
  rewrite bind_keeps_requests; [reflexivity|]. intros data w1.
  rewrite bind_keeps_requests; [reflexivity|]. intros textBlocks w2.
  rewrite bind_keeps_requests; [apply array_map_requests|].
  intros; reflexivity.
Qed.

Lemma removeTextFromImage_run image w :
  removeTextFromImage image w
  = match selectApiKey w with
    | (Resolved _, _) =>
        let w1 :=
          {| aistudio := aistudio w; network := network w;
             requests := requests w ++ [removeRequest image];
             JSON_parse := JSON_parse w; clock := clock w;
             clock_reads := clock_reads w; console := console w |} in
        match network w (length (requests w)) (removeRequest image) with
        | Resolved response =>
            (Resolved (firstInlineImage (firstParts response)), w1)
        | Rejected _ =>
            (Resolved None, (console_error "Error cleaning image:" w1).2)
        end
    | (Rejected _, _) =>
        (Resolved None, (console_error "Error cleaning image:" w).2)
    end.
Proof.
  unfold removeTextFromImage, try_catch, bind.
  pose proof (selectApiKey_world w) as Hw.
  destruct (selectApiKey w) as [[[]|e] w']; cbn [snd] in Hw; subst w'.
  - unfold generateContent.
    destruct (network w (length (requests w)) (removeRequest image));
      reflexivity.
  - reflexivity.
Qed.

(** *** [analyzeImageText] on each kind of answer *)

Lemma analyzeImageText_request_rejected image w e :
  network w (length (requests w)) (analyzeRequest image) = Rejected e ->
  (analyzeImageText image w).1 = Rejected e.
Proof.
  intros Hnet. unfold analyzeImageText, try_catch, bind, generateContent.
  rewrite Hnet. reflexivity.
Qed.

Lemma analyzeImageText_no_text image w response :
  network w (length (requests w)) (analyzeRequest image)
    = Resolved response ->
  Browser.falsy (Response.text response) = true ->
  (analyzeImageText image w).1 = Rejected (JsError "No response from Gemini").
Proof.
  intros Hnet Hfalsy.
  unfold analyzeImageText, try_catch, bind, generateContent.
  rewrite Hnet. destruct (Response.text response) as [jsonText|];
    cbn in Hfalsy; [rewrite Hfalsy|]; reflexivity.
Qed.

(** The object [processBlock] builds from a vendor object. *)
Lemma processBlock_object (b : gmap string Js.value) index w :
  processBlock (Js.Obj b) index w
  = (Resolved
       (Js.Obj (<[ "currentText" := default Js.Undefined (b !! "originalText") ]>
                  (<[ "id" := Js.Str ("block-" +:+ pretty index +:+ "-"
                                      +:+ pretty (clock w (clock_reads w))) ]>
                     b))),
     (Date_now w).2).
Proof. reflexivity. Qed.

Lemma map_from_objects (vendor : list (gmap string Js.value)) index w :
  exists w',
    map_from processBlock (Js.Obj <$> vendor) index w
    = (Resolved
         (imap (fun k b =>
                  Js.Obj
                    (<[ "currentText" :=
                          default Js.Undefined (b !! "originalText") ]>
                       (<[ "id" :=
                             Js.Str ("block-" +:+ pretty (index + k)%nat
                                     +:+ "-" +:+
                                     pretty (clock w (clock_reads w + k)%nat))
                         ]> b)))
               vendor),
       w').
Proof.
  revert index w. induction vendor as [|b vendor IH]; intros index w.
  - eexists. reflexivity.
  - cbn [fmap list_fmap map_from]. unfold bind at 1.
    rewrite processBlock_object.
    destruct (IH (S index) (Date_now w).2) as [w' Hrest].
    unfold bind at 1. rewrite Hrest. eexists. unfold ret. f_equal. f_equal.
    cbn [imap]. rewrite !Nat.add_0_r. f_equal.
    apply imap_ext. intros k x _. cbn [compose Date_now snd clock clock_reads].
    rewrite !Nat.add_succ_r. reflexivity.
Qed.

Lemma analyzeImageText_objects image w response jsonText data
    (vendor : list (gmap string Js.value)) :
  network w (length (requests w)) (analyzeRequest image)
    = Resolved response ->
  Response.text response = Some jsonText ->
  jsonText <> "" ->
  JSON_parse w jsonText = Resolved data ->
  Js.getprop data "textBlocks" = Resolved (Js.Arr (Js.Obj <$> vendor)) ->
  (analyzeImageText image w).1
  = Resolved
      {| textBlocks :=
           imap (fun k b =>
                   Js.Obj
                     (<[ "currentText" :=
                           default Js.Undefined (b !! "originalText") ]>
                        (<[ "id" :=
                              Js.Str ("block-" +:+ pretty k +:+ "-" +:+
                                      pretty (clock w (clock_reads w + k)%nat))
                          ]> b)))
                vendor |}.
Proof.
  intros Hnet Htext Hne Hparse Hprop.
  unfold analyzeImageText, try_catch, bind at 1, generateContent.
  rewrite Hnet, Htext. apply String.eqb_neq in Hne. rewrite Hne.
  unfold bind at 1, parse. cbn [JSON_parse]. rewrite Hparse.
  unfold bind at 1, await. rewrite Hprop. cbn [Js.truthy array_map].
  unfold bind at 1.
  match goal with
  | |- context [map_from processBlock _ 0%nat ?w1] =>
      destruct (map_from_objects vendor 0 w1) as [w' ->]
  end.
  reflexivity.
Qed.

Lemma analyzeImageText_absent image w response jsonText data :
  network w (length (requests w)) (analyzeRequest image)
    = Resolved response ->
  Response.text response = Some jsonText ->
  jsonText <> "" ->
  JSON_parse w jsonText = Resolved data ->
  Js.getprop data "textBlocks" = Resolved Js.Undefined ->
  (analyzeImageText image w).1 = Resolved {| textBlocks := [] |}.
Proof.
  intros Hnet Htext Hne Hparse Hprop.
  unfold analyzeImageText, try_catch, bind at 1, generateContent.
  rewrite Hnet, Htext. apply String.eqb_neq in Hne. rewrite Hne.
  unfold bind at 1, parse. cbn [JSON_parse]. rewrite Hparse.
  unfold bind at 1, await. rewrite Hprop. reflexivity.
Qed.

(** *** The loop over the response parts *)

Lemma firstInlineImage_none ps :
  firstInlineImage ps = None <-> Forall (fun p => inlineData p = None) ps.
Proof.
  induction ps as [|p ps IH]; cbn [firstInlineImage].
  - split; [constructor | reflexivity].
  - destruct (inlineData p) as [blob|] eqn:Hp.
    + split; [discriminate|]. intros H. inversion H; congruence.
    + rewrite IH. split; [by constructor|]. intros H. by inversion H.
Qed.

Lemma firstInlineImage_first before part blob after :
  Forall (fun p => inlineData p = None) before ->
  inlineData part = Some blob ->
  firstInlineImage (before ++ part :: after)
  = Some ("data:image/png;base64," +:+ template (data blob)).
Proof.
  intros Hbefore Hpart. induction Hbefore as [|p ps Hp _ IH];
    cbn [app firstInlineImage].
  - rewrite Hpart. reflexivity.
  - rewrite Hp. exact IH.
Qed.

End GeminiFacts.

Section gemini_theorems.
Import Async GenAI GeminiService GeminiFacts GeminiSamples.

(** C3: each of the two operations sends its request inside a single
    try/catch and never sends it again.  [analyzeImageText] sends exactly
    one request whatever happens; [removeTextFromImage] sends one, or
    none when the key-selection step before it fails.  When the request
    fails, or its answer carries no text, [analyzeImageText] rejects
    (with the request's error, respectively with "No response from
    Gemini"); [removeTextFromImage] never rejects, and when its request
    fails it resolves to null. *)
Theorem single_request_no_retry (base64Image : string) (w : World) :
  requests (analyzeImageText base64Image w).2
    = requests w ++ [analyzeRequest base64Image]
  /\ (forall e,
        network w (length (requests w)) (analyzeRequest base64Image)
          = Rejected e ->
        (analyzeImageText base64Image w).1 = Rejected e)
  /\ (forall response,
        network w (length (requests w)) (analyzeRequest base64Image)
          = Resolved response ->
        Browser.falsy (Response.text response) = true ->
        (analyzeImageText base64Image w).1
          = Rejected (JsError "No response from Gemini"))
  /\ (requests (removeTextFromImage base64Image w).2
        = requests w ++ [removeRequest base64Image]
      \/ (is_rejected (selectApiKey w).1 = true
          /\ requests (removeTextFromImage base64Image w).2 = requests w))
  /\ is_rejected (removeTextFromImage base64Image w).1 = false
  /\ (is_rejected (selectApiKey w).1 = true ->
      (removeTextFromImage base64Image w).1 = Resolved None)
  /\ (forall e,
        network w (length (requests w)) (removeRequest base64Image)
          = Rejected e ->
        (removeTextFromImage base64Image w).1 = Resolved None).
Proof.
  split; [apply analyzeImageText_requests|].
  split; [intros e; apply analyzeImageText_request_rejected|].
  split; [intros response; apply analyzeImageText_no_text|].
  rewrite removeTextFromImage_run.
  destruct (selectApiKey w) as [[[]|e0] w0].
  - destruct (network w (length (requests w)) (removeRequest base64Image))
      as [response|e1].
    + split; [left; reflexivity|]. split; [reflexivity|].
      split; discriminate.
    + split; [left; reflexivity|]. split; [reflexivity|].
      split; [discriminate | reflexivity].
  - split; [right; split; reflexivity|]. split; [reflexivity|].
    split; reflexivity.
Qed.

Lemma single_request_no_retry_witness :
  (analyzeImageText "data:image/png;base64,QUJD" offline).1
    = Rejected (HostError "Failed to fetch")
  /\ (removeTextFromImage "data:image/png;base64,QUJD" offline).1
     = Resolved None
  /\ length (requests (analyzeImageText "data:image/png;base64,QUJD"
                         offline).2) = 1%nat.
Proof.
  destruct (single_request_no_retry "data:image/png;base64,QUJD" offline)
    as (Hlog & Hreject & _ & _ & _ & _ & Hnull).
  split; [apply Hreject; reflexivity|].
  split; [apply (Hnull (HostError "Failed to fetch")); reflexivity|].
  rewrite Hlog. reflexivity.
Defined.

(** C4: when the request is answered with a text that parses and whose
    [textBlocks] is an array of objects, [analyzeImageText] resolves to
    as many blocks, in the same order; each block carries the vendor's
    [box_2d], [textColor], [backgroundColor], [fontFamily], [fontWeight]
    and [originalText] untouched, a [currentText] equal to the vendor's
    [originalText], and the id [block-{index}-{clock reading}]; two
    blocks at different positions never have the same id.  When
    [textBlocks] is absent the result is the empty block list. *)
Theorem analyzed_blocks (base64Image : string) (w : World)
    (response : Response.t) (jsonText : string) (data : Js.value) :
  network w (length (requests w)) (analyzeRequest base64Image)
    = Resolved response ->
  Response.text response = Some jsonText ->
  jsonText <> "" ->
  JSON_parse w jsonText = Resolved data ->
  (forall vendor : list (gmap string Js.value),
     Js.getprop data "textBlocks" = Resolved (Js.Arr (Js.Obj <$> vendor)) ->
     exists blocks,
       (analyzeImageText base64Image w).1
         = Resolved {| textBlocks := blocks |}
       /\ length blocks = length vendor
       /\ (forall i b, vendor !! i = Some b ->
             exists r,
               blocks !! i = Some (Js.Obj r)
               /\ r !! "box_2d" = b !! "box_2d"
               /\ r !! "textColor" = b !! "textColor"
               /\ r !! "backgroundColor" = b !! "backgroundColor"
               /\ r !! "fontFamily" = b !! "fontFamily"
               /\ r !! "fontWeight" = b !! "fontWeight"
               /\ r !! "originalText" = b !! "originalText"
               /\ r !! "currentText"
                  = Some (default Js.Undefined (b !! "originalText"))
               /\ r !! "id"
                  = Some (Js.Str ("block-" +:+ pretty i +:+ "-" +:+
                                  pretty (clock w (clock_reads w + i)%nat))))
       /\ (forall i j ri rj,
             i <> j ->
             blocks !! i = Some (Js.Obj ri) ->
             blocks !! j = Some (Js.Obj rj) ->
             is_Some (ri !! "id") /\ ri !! "id" <> rj !! "id"))
  /\ (Js.getprop data "textBlocks" = Resolved Js.Undefined ->
      (analyzeImageText base64Image w).1 = Resolved {| textBlocks := [] |}).
Proof.
  intros Hnet Htext Hne Hparse. split.
  - intros vendor Hprop. eexists.
    split; [exact (analyzeImageText_objects _ _ _ _ _ _
                     Hnet Htext Hne Hparse Hprop)|].
    split; [apply length_imap|]. split.
    + intros i b Hi. eexists. rewrite list_lookup_imap, Hi.
      split; [reflexivity|].
      repeat (split; [by rewrite !lookup_insert_ne by discriminate|]).
      split; [apply lookup_insert_eq|].
      rewrite lookup_insert_ne by discriminate. apply lookup_insert_eq.
    + intros i j ri rj Hij Hi Hj.
      rewrite list_lookup_imap in Hi, Hj.
      destruct (vendor !! i) as [bi|]; [|discriminate].
      destruct (vendor !! j) as [bj|]; [|discriminate].
      injection Hi as <-. injection Hj as <-.
      rewrite !(lookup_insert_ne _ "currentText" "id") by discriminate.
      rewrite !lookup_insert_eq. split; [eexists; reflexivity|].
      intros Heq. apply Hij.
      apply (block_id_inj i j (clock w (clock_reads w + i)%nat)
               (clock w (clock_reads w + j)%nat)).
      congruence.
  - apply (analyzeImageText_absent _ _ _ _ _ Hnet Htext Hne Hparse).
Qed.

Lemma analyzed_blocks_witness :
  exists blocks,
    (analyzeImageText "data:image/png;base64,QUJD" answering).1
      = Resolved {| textBlocks := blocks |}
    /\ length blocks = 2%nat
    /\ exists r,
         blocks !! 1%nat = Some (Js.Obj r)
         /\ r !! "originalText" = Some (Js.Str "ends friday")
         /\ r !! "currentText" = Some (Js.Str "ends friday")
         /\ r !! "textColor" = Some (Js.Str "#222222")
         /\ r !! "id" = Some (Js.Str "block-1-1700000000001").
Proof.
  destruct (analyzed_blocks "data:image/png;base64,QUJD" answering
              analysis_response analysis_json analysis_data
              eq_refl eq_refl ltac:(discriminate) eq_refl)
    as [Hblocks _].
  destruct (Hblocks [vendor_headline; vendor_footer] eq_refl)
    as (blocks & Hres & Hlen & Heach & _).
  exists blocks. split; [exact Hres|]. split; [exact Hlen|].
  destruct (Heach 1%nat vendor_footer eq_refl)
    as (r & Hr & _ & Hcolor & _ & _ & _ & Horig & Hcur & Hid).
  exists r. split; [exact Hr|]. split; [exact Horig|].
  split; [exact Hcur|]. split; [exact Hcolor|]. exact Hid.
Defined.

(** C5: when the request is answered, [removeTextFromImage] resolves to
    "data:image/png;base64," followed by the data of the first part of
    the first candidate that carries inline data, and it resolves to
    null exactly when no part of the first candidate carries inline
    data. *)
Theorem cleaned_image_is_first_inline_part (base64Image : string)
    (w : World) (response : Response.t) :
  (selectApiKey w).1 = Resolved tt ->
  network w (length (requests w)) (removeRequest base64Image)
    = Resolved response ->
  (forall before part blob image after,
     firstParts response = before ++ part :: after ->
     Forall (fun p => inlineData p = None) before ->
     inlineData part = Some blob ->
     data blob = Some image ->
     (removeTextFromImage base64Image w).1
       = Resolved (Some ("data:image/png;base64," +:+ image)))
  /\ ((removeTextFromImage base64Image w).1 = Resolved None
      <-> Forall (fun p => inlineData p = None) (firstParts response)).
Proof.
  intros Hkey Hnet. rewrite removeTextFromImage_run.
  destruct (selectApiKey w) as [o w0]. cbn [fst] in Hkey. subst o.
  rewrite Hnet. cbn [fst]. split.
  - intros before part blob image after Hparts Hbefore Hpart Hdata.
    rewrite Hparts, (firstInlineImage_first _ _ blob) by assumption.
    rewrite Hdata. reflexivity.
  - rewrite <- firstInlineImage_none. split; [congruence|].
    intros ->. reflexivity.
Qed.

Lemma cleaned_image_is_first_inline_part_witness :
  (removeTextFromImage "data:image/png;base64,QUJD" answering).1
    = Resolved (Some "data:image/png;base64,iVBORw0KGgo").
Proof.
  destruct (cleaned_image_is_first_inline_part "data:image/png;base64,QUJD"
              answering image_response eq_refl eq_refl) as [Hfirst _].
  apply (Hfirst [ {| inlineData := None; text := Some "Here it is." |} ]
           {| inlineData := Some png; text := None |} png "iVBORw0KGgo" []
           eq_refl).
  - repeat constructor.
  - reflexivity.
  - reflexivity.
Defined.

End gemini_theorems.

(** * Further properties *)

(** ** Storage service: deletion, the key invariant, listing *)

Module StorageMoreFacts.
Import Async StorageService StorageInvariant StorageFacts.

Lemma deleteProject_run key w :
  deleteProject key w
  = (Resolved tt,
     {| idb := Some {| schema := schema (openDB w);
                       projects := base.delete key (projects (openDB w)) |};
        clock := clock w; clock_reads := clock_reads w;
        uuids := uuids w; uuid_draws := uuid_draws w |}).
Proof. reflexivity. Qed.

(** The listing [getAllProjects] computes from the records of a store. *)
Lemma listing_elem_of (m : gmap string Project) p :
  p ∈ snd <$> merge_sort by_date_le (map_to_list m)
  <-> exists k, m !! k = Some p.
Proof.
  rewrite merge_sort_Permutation, list_elem_of_fmap. split.
  - intros [[k q] [-> Hin]]. exists k. by apply elem_of_map_to_list in Hin.
  - intros [k Hk]. exists (k, p). split; [done|].
    by apply elem_of_map_to_list.
Qed.

Lemma listing_sorted (m : gmap string Project) :
  StronglySorted (fun a b => updatedAt a <= updatedAt b)
    (snd <$> merge_sort by_date_le (map_to_list m)).
Proof.
  apply Sorted_StronglySorted.
  { intros a b c. apply Z.le_trans. }
  apply (Sorted_fmap snd by_date_le).
  - intros a b. apply by_date_le_updatedAt.
  - apply (@Sorted_merge_sort _ by_date_le _ by_date_le_total).
Qed.

Lemma listing_insert_fresh (m : gmap string Project) k p :
  m !! k = None ->
  snd <$> merge_sort by_date_le (map_to_list (<[ k := p ]> m))
  ≡ₚ p :: (snd <$> merge_sort by_date_le (map_to_list m)).
Proof.
  intros Hfresh. rewrite !merge_sort_Permutation.
  rewrite map_to_list_insert by done. reflexivity.
Qed.

(** In a list sorted by [updatedAt], a record that is strictly newer than
    every other one comes last. *)
Lemma newest_is_last (l : list Project) p :
  StronglySorted (fun a b => updatedAt a <= updatedAt b) l ->
  p ∈ l ->
  (forall q, q ∈ l -> q = p \/ updatedAt q < updatedAt p) ->
  last l = Some p.
Proof.
  intros Hsorted Hin Hnewest.
  destruct (last l) as [x|] eqn:Hlast.
  - apply last_Some in Hlast as [l' ->]. f_equal.
    destruct (Hnewest x) as [Heq|Hlt]; [|done|].
    { apply elem_of_app. right. by apply list_elem_of_singleton. }
    apply elem_of_app in Hin as [Hin|Hin].
    + pose proof (StronglySorted_app_1_elem_of _ _ _ p x Hsorted Hin
                    ltac:(by apply list_elem_of_singleton)) as Hle.
      cbn in Hle. lia.
    + apply list_elem_of_singleton in Hin. congruence.
  - apply last_None in Hlast. subst l. by apply elem_of_nil in Hin.
Qed.

Lemma listing_newest_last (m : gmap string Project) k p :
  (forall k' q, m !! k' = Some q -> k' <> k -> updatedAt q < updatedAt p) ->
  last (snd <$> merge_sort by_date_le (map_to_list (<[ k := p ]> m)))
  = Some p.
Proof.
  intros Hnewer. apply newest_is_last.
  - apply listing_sorted.
  - apply listing_elem_of. exists k. apply lookup_insert_eq.
  - intros q Hq. apply listing_elem_of in Hq as [k' Hk'].
    destruct (decide (k = k')) as [<-|Hkk].
    + rewrite lookup_insert_eq in Hk'. left. congruence.
    + rewrite lookup_insert_ne in Hk' by done. right.
      eapply Hnewer; [done|]. congruence.
Qed.

End StorageMoreFacts.

Section storage_more_theorems.
Import Async StorageService StorageInvariant StorageSamples.
Import StorageFacts StorageMoreFacts.

(** X1: [deleteProject] always resolves; afterwards [getProject] finds
    nothing under the deleted key and exactly what it found before under
    every other key.  Deleting a key that is not stored is not an error
    and leaves the store as it was. *)
Theorem deleteProject_then_getProject (key : string) (w : World) :
  (deleteProject key w).1 = Resolved tt
  /\ (getProject key (deleteProject key w).2).1 = Resolved None
  /\ (forall k, k <> key ->
        (getProject k (deleteProject key w).2).1 = (getProject k w).1)
  /\ (projects (openDB w) !! key = None ->
      projects (openDB (deleteProject key w).2) = projects (openDB w)).
Proof.
  rewrite deleteProject_run. cbn [fst snd].
  split; [reflexivity|]. rewrite !getProject_run. cbn [fst openDB idb projects].
  split; [by rewrite lookup_delete_eq|]. split.
  - intros k Hk. rewrite !getProject_run. cbn [fst openDB idb projects].
    by rewrite lookup_delete_ne.
  - intros Hnone. by apply delete_id.
Qed.

Lemma deleteProject_then_getProject_witness :
  (getProject "p1" (deleteProject "p1" one_project_world).2).1
    = Resolved None
  /\ (getProject "p1" (deleteProject "ghost" one_project_world).2).1
     = Resolved (Some sample_project)
  /\ projects (openDB (deleteProject "ghost" one_project_world).2)
     = projects (openDB one_project_world).
Proof.
  destruct (deleteProject_then_getProject "p1" one_project_world)
    as (_ & Hgone & _ & _).
  destruct (deleteProject_then_getProject "ghost" one_project_world)
    as (_ & _ & Hother & Hsame).
  split; [exact Hgone|]. split.
  - rewrite Hother by discriminate. reflexivity.
  - apply Hsame. reflexivity.
Defined.

(** X2: every record is stored under its own [id].  This holds in a
    database that was never opened, and [createProject], [updateProject]
    (whatever fields the update names, [id] included), [deleteProject],
    [getProject] and [getAllProjects] all keep it. *)
Theorem keyed_by_id_kept (w : World) :
  (idb w = None -> keyed_by_id w)
  /\ (keyed_by_id w ->
      (forall name image blocks,
         keyed_by_id (createProject name image blocks w).2)
      /\ (forall key updates, keyed_by_id (updateProject key updates w).2)
      /\ (forall key, keyed_by_id (deleteProject key w).2)
      /\ (forall key, keyed_by_id (getProject key w).2)
      /\ keyed_by_id (getAllProjects w).2).
Proof.
  split.
  { intros Hnew k p. unfold openDB. rewrite Hnew. cbn.
    rewrite lookup_empty. discriminate. }
  intros Hinv. repeat split.
  - intros name image blocks k p. rewrite createProject_run.
    cbn [snd openDB idb projects].
    destruct (decide (uuids w (uuid_draws w) = k)) as [<-|Hne].
    + rewrite lookup_insert_eq. by intros [= <-].
    + rewrite lookup_insert_ne by done. apply Hinv.
  - intros key updates k p. rewrite updateProject_run.
    destruct (projects (openDB w) !! key) as [q|];
      cbn [snd openDB idb projects set_idb].
    + match goal with
      | |- <[ ?i := ?x ]> _ !! _ = _ -> _ =>
          destruct (decide (i = k)) as [<-|Hne];
            [rewrite lookup_insert_eq; by intros [= <-]
            | rewrite lookup_insert_ne by done; apply Hinv]
      end.
    + apply Hinv.
  - intros key k p. rewrite deleteProject_run.
    cbn [snd openDB idb projects]. intros Hk.
    apply lookup_delete_Some in Hk as [_ Hk]. by apply Hinv.
  - intros key k p. rewrite getProject_run. cbn [snd]. apply Hinv.
  - intros k p. rewrite getAllProjects_run. cbn [snd]. apply Hinv.
Qed.

Lemma keyed_by_id_kept_witness :
  keyed_by_id one_project_world
  /\ keyed_by_id (createProject "photo" "img" [] one_project_world).2
  /\ keyed_by_id (updateProject "p1" renaming one_project_world).2.
Proof.
  assert (H1 : keyed_by_id one_project_world).
  { intros k p Hk. cbn in Hk.
    apply lookup_singleton_Some in Hk as [<- <-]. reflexivity. }
  destruct (keyed_by_id_kept one_project_world) as [_ Hkept].
  destruct (Hkept H1) as (Hc & Hu & _).
  split; [exact H1|]. split; [apply Hc | apply Hu].
Defined.

(** X3: after [createProject], [getAllProjects] lists the new record
    together with the records listed before (when the generated key was
    not stored yet), and the new record comes last whenever its
    [updatedAt] reading is later than every stored [updatedAt]. *)
Theorem created_project_is_listed (name image : string)
    (blocks : list Types.DetectedTextBlock) (w : World) :
  let key := uuids w (uuid_draws w) in
  let record := created key name image blocks (clock w (clock_reads w))
                  (clock w (S (clock_reads w))) in
  exists before after,
    (getAllProjects w).1 = Resolved before
    /\ (getAllProjects (createProject name image blocks w).2).1
       = Resolved after
    /\ record ∈ after
    /\ (projects (openDB w) !! key = None -> after ≡ₚ record :: before)
    /\ ((forall k q, projects (openDB w) !! k = Some q ->
           updatedAt q < clock w (S (clock_reads w))) ->
        last after = Some record).
Proof.
  intros key record. eexists _, _.
  rewrite createProject_run, !getAllProjects_run.
  cbn [fst snd openDB idb projects].
  split; [reflexivity|]. split; [reflexivity|]. split; [|split].
  - apply listing_elem_of. exists key. apply lookup_insert_eq.
  - intros Hfresh. by apply listing_insert_fresh.
  - intros Hnewer. apply listing_newest_last.
    intros k' q Hq _. exact (Hnewer k' q Hq).
Qed.

Lemma created_project_is_listed_witness :
  exists after,
    (getAllProjects (createProject "photo" "img" [] one_project_world).2).1
      = Resolved after
    /\ after ≡ₚ [created "uuid-0" "photo" "img" [] 100 101; sample_project]
    /\ last after = Some (created "uuid-0" "photo" "img" [] 100 101).
Proof.
  destruct (created_project_is_listed "photo" "img" [] one_project_world)
    as (before & after & Hb & Ha & _ & Hperm & Hlast).
  exists after. split; [exact Ha|]. split.
  - rewrite Hperm by reflexivity.
    assert (Hone : before = [sample_project]).
    { assert (E : Resolved before = Resolved [sample_project])
        by (rewrite <- Hb; vm_compute; reflexivity).
      congruence. }
    rewrite Hone. reflexivity.
  - apply Hlast. intros k q Hq. cbn in Hq.
    apply lookup_singleton_Some in Hq as [_ <-]. reflexivity.
Defined.

(** X4: after [updateProject] on a stored project, at a clock reading
    later than every stored [updatedAt], the updated record is the last
    one [getAllProjects] returns; and when the store is keyed by id and
    the update does not name [id], the number of stored projects does
    not change. *)
Theorem updated_project_is_last (key : string) (updates : PartialProject)
    (w : World) (p : Project) :
  projects (openDB w) !! key = Some p ->
  (forall k q, projects (openDB w) !! k = Some q ->
     updatedAt q < clock w (clock_reads w)) ->
  exists after,
    (getAllProjects (updateProject key updates w).2).1 = Resolved after
    /\ last after
       = Some (spread_updates p updates (clock w (clock_reads w)))
    /\ (keyed_by_id w -> upd_id updates = None ->
        size (projects (openDB (updateProject key updates w).2))
        = size (projects (openDB w))).
Proof.
  intros Hstored Hnewer. eexists.
  rewrite updateProject_run, Hstored, getAllProjects_run.
  cbn [fst snd openDB idb projects]. split; [reflexivity|]. split.
  - apply listing_newest_last. intros k' q Hq _. exact (Hnewer k' q Hq).
  - intros Hinv Hid. cbn [spread_updates id]. rewrite Hid. cbn [default].
    rewrite (Hinv key p Hstored).
    apply map_size_insert_Some. by eexists.
Qed.

Lemma updated_project_is_last_witness :
  exists after,
    (getAllProjects (updateProject "a" renaming three_projects_world).2).1
      = Resolved after
    /\ last after = Some (created "a" "poster" "img" [] 2 100).
Proof.
  destruct (updated_project_is_last "a" renaming three_projects_world
              (created "a" "early" "img" [] 2 5)) as (after & Ha & Hlast & _).
  - reflexivity.
  - intros k q Hq. cbn in Hq.
    destruct (decide (k = "b")) as [->|Hb];
      [rewrite lookup_insert_eq in Hq; injection Hq as <-; reflexivity|].
    rewrite lookup_insert_ne in Hq by done.
    destruct (decide (k = "a")) as [->|Ha];
      [rewrite lookup_insert_eq in Hq; injection Hq as <-; reflexivity|].
    rewrite lookup_insert_ne in Hq by done.
    apply lookup_singleton_Some in Hq as [_ <-]. reflexivity.
  - exists after. split; [exact Ha | exact Hlast].
Defined.

End storage_more_theorems.

(** ** Dashboard *)

Module DashboardFacts.
Import Async StorageService Text.

(** *** [sort] *)

Lemma insert_Permutation {A} (cmp : A -> A -> Z) x l :
  JsArray.insert cmp x l ≡ₚ x :: l.
Proof.
  induction l as [|y l IH]; cbn; [done|].
  destruct (cmp x y <=? 0); [done|]. rewrite IH. apply Permutation_swap.
Qed.

Lemma sort_Permutation {A} (cmp : A -> A -> Z) l : JsArray.sort cmp l ≡ₚ l.
Proof.
  induction l as [|x l IH]; cbn; [done|].
  rewrite insert_Permutation. by f_equiv.
Qed.

(** Newest first. *)
Lemma insert_newer_first x l :
  StronglySorted (fun a b => updatedAt b <= updatedAt a) l ->
  StronglySorted (fun a b => updatedAt b <= updatedAt a)
    (JsArray.insert (fun a b => updatedAt b - updatedAt a) x l).
Proof.
  induction 1 as [|y l Hl IH Hy]; cbn.
  - repeat constructor.
  - destruct (updatedAt y - updatedAt x <=? 0) eqn:Hcmp.
    + apply Z.leb_le in Hcmp. constructor; [by constructor|].
      constructor; [lia|].
      eapply Forall_impl; [exact Hy|]. cbn. intros; lia.
    + apply Z.leb_gt in Hcmp. constructor; [exact IH|].
      rewrite insert_Permutation. constructor; [|exact Hy]. lia.
Qed.

Lemma sort_newer_first l :
  StronglySorted (fun a b => updatedAt b <= updatedAt a)
    (JsArray.sort (fun a b => updatedAt b - updatedAt a) l).
Proof.
  induction l as [|x l IH]; cbn; [constructor|].
  by apply insert_newer_first.
Qed.

(** *** [split] *)

Lemma split_no_sep sep s : occurs sep s = false -> Browser.split sep s = [s].
Proof.
  induction s as [|c s IH]; cbn [occurs Browser.split]; [done|]. intros Hno.
  apply orb_false_elim in Hno as [Hc Hs]. rewrite Hc, (IH Hs). done.
Qed.

Lemma split_at_sep sep a b :
  occurs sep a = false ->
  Browser.split sep (a +:+ String sep b) = a :: Browser.split sep b.
Proof.
  induction a as [|c a IH]; intros Hno.
  - change ("" +:+ String sep b) with (String sep b).
    cbn [Browser.split]. by rewrite Ascii.eqb_refl.
  - change (String c a +:+ String sep b)
      with (String c (a +:+ String sep b)).
    cbn [occurs] in Hno. apply orb_false_elim in Hno as [Hc Ha].
    cbn [Browser.split]. rewrite Hc, (IH Ha). done.
Qed.

Lemma split_pieces sep s :
  Forall (fun piece => occurs sep piece = false) (Browser.split sep s).
Proof.
  induction s as [|c s IH]; cbn [Browser.split].
  - by repeat constructor.
  - destruct (Ascii.eqb c sep) eqn:Hc; [by constructor|].
    destruct (Browser.split sep s) as [|piece pieces].
    + repeat constructor. cbn [occurs]. by rewrite Hc.
    + inversion IH; subst. constructor; [|done]. cbn [occurs].
      by rewrite Hc.
Qed.

Lemma split_nonempty sep s : Browser.split sep s <> [].
Proof.
  destruct s as [|c s]; cbn [Browser.split]; [done|].
  destruct (Ascii.eqb c sep); [done|]. by destruct (Browser.split sep s).
Qed.

End DashboardFacts.

Section dashboard_theorems.
Import Async StorageService Text DashboardFacts.
Import StorageFacts StorageMoreFacts StorageSamples PageSamples UploadSamples.

(** X5: [loadProjects] stops the spinner, leaves the stored projects as
    they are, and shows exactly the stored projects, newest [updatedAt]
    first. *)
Theorem loadProjects_newest_first (s : DashboardList.State) (w : World) :
  DashboardList.isLoading (DashboardList.loadProjects s w).1 = false
  /\ projects (openDB (DashboardList.loadProjects s w).2)
     = projects (openDB w)
  /\ (forall p,
        p ∈ DashboardList.projects (DashboardList.loadProjects s w).1
        <-> exists k, projects (openDB w) !! k = Some p)
  /\ length (DashboardList.projects (DashboardList.loadProjects s w).1)
     = size (projects (openDB w))
  /\ StronglySorted (fun a b => updatedAt b <= updatedAt a)
       (DashboardList.projects (DashboardList.loadProjects s w).1).
Proof.
  unfold DashboardList.loadProjects. rewrite getAllProjects_run.
  cbn [fst snd DashboardList.isLoading DashboardList.projects].
  split; [reflexivity|]. split; [reflexivity|]. split; [|split].
  - intros p. rewrite sort_Permutation. apply listing_elem_of.
  - rewrite sort_Permutation, length_fmap, merge_sort_Permutation.
    apply length_map_to_list.
  - apply sort_newer_first.
Qed.

Example loadProjects_three :
  name <$> DashboardList.projects
             (DashboardList.loadProjects listing three_projects_world).1
  = ["late"; "early"; "middle"].
Proof. vm_compute. reflexivity. Qed.

(** X6: [handleDelete] does nothing at all when the user declines the
    confirmation; when the user confirms, the project is removed from the
    store and the list is reloaded, so that it shows exactly the projects
    stored under the other keys, newest first. *)
Theorem handleDelete_confirmed_or_not (key : string)
    (s : DashboardList.State) (w : World) :
  DashboardList.handleDelete false key s w = (s, w)
  /\ projects (openDB (DashboardList.handleDelete true key s w).2)
     = base.delete key (projects (openDB w))
  /\ (forall p,
        p ∈ DashboardList.projects
              (DashboardList.handleDelete true key s w).1
        <-> exists k, k <> key /\ projects (openDB w) !! k = Some p)
  /\ StronglySorted (fun a b => updatedAt b <= updatedAt a)
       (DashboardList.projects (DashboardList.handleDelete true key s w).1).
Proof.
  split; [reflexivity|].
  unfold DashboardList.handleDelete. rewrite deleteProject_run.
  unfold DashboardList.loadProjects. rewrite getAllProjects_run.
  cbn [fst snd DashboardList.projects openDB idb projects].
  split; [reflexivity|]. split.
  - intros p. rewrite sort_Permutation, listing_elem_of.
    split; intros [k Hk]; exists k.
    + apply lookup_delete_Some in Hk as [Hne Hk]. split; [congruence|done].
    + destruct Hk as [Hne Hk]. apply lookup_delete_Some.
      split; [congruence|done].
  - apply sort_newer_first.
Qed.

(** X7: a file of at most 5 * 1024 * 1024 bytes creates a project and
    opens it: no alert is shown, the route becomes [/project/{key}], and
    under that key the store holds a record with the file's data URL as
    [originalImage], no blocks and no processed image.  The project's
    name is the file name up to its first dot; it is never empty and
    never contains a dot, being "Untitled Project" when the file name is
    empty or starts with a dot. *)
Theorem handleCreateProject_accepted (file : Browser.File)
    (others : list Browser.File) (w : Dashboard.World) :
  (Browser.size file <= 5 * 1024 * 1024)%N ->
  let key := uuids (Dashboard.storage w) (uuid_draws (Dashboard.storage w)) in
  let w' := Dashboard.handleCreateProject (file :: others) w in
  Dashboard.location w' = "/project/" +:+ key
  /\ Dashboard.alerts w' = Dashboard.alerts w
  /\ exists p,
       (getProject key (Dashboard.storage w')).1 = Resolved (Some p)
       /\ id p = key
       /\ originalImage p = Browser.dataURL file
       /\ blocks p = []
       /\ processedImage p = None
       /\ name p <> ""
       /\ occurs "." (name p) = false
       /\ (occurs "." (Browser.name file) = false ->
           Browser.name file <> "" -> name p = Browser.name file)
       /\ (forall stem rest,
             Browser.name file = stem +:+ String "." rest ->
             occurs "." stem = false -> stem <> "" -> name p = stem)
       /\ (Browser.name file = ""
           \/ (exists rest, Browser.name file = String "." rest) ->
           name p = "Untitled Project").
Proof.
  intros Hsmall key w'. subst w'. unfold Dashboard.handleCreateProject.
  cbn [head]. apply N.ltb_ge in Hsmall. rewrite Hsmall.
  rewrite createProject_run. cbv zeta.
  cbn [Dashboard.navigate Dashboard.location Dashboard.alerts
       Dashboard.storage].
  split; [reflexivity|]. split; [reflexivity|].
  eexists. rewrite getProject_run. cbn [fst openDB idb projects].
  rewrite lookup_insert_eq. split; [reflexivity|].
  cbn [id originalImage blocks processedImage name].
  do 4 (split; [reflexivity|]).
  pose proof (split_pieces "." (Browser.name file)) as Hpieces.
  pose proof (split_nonempty "." (Browser.name file)) as Hne.
  destruct (Browser.split "." (Browser.name file)) as [|stem0 pieces] eqn:Hs;
    [done|].
  apply Forall_cons in Hpieces as [Hstem0 _].
  cbn [lookup list_lookup Browser.or_string].
  split; [|split; [|split; [|split]]].
  - destruct (String.eqb_spec stem0 ""); [discriminate | done].
  - destruct (String.eqb_spec stem0 ""); [reflexivity | done].
  - intros Hnodot Hnonempty. rewrite split_no_sep in Hs by done.
    injection Hs as <- _.
    destruct (String.eqb_spec (Browser.name file) ""); done.
  - intros stem rest Hname Hnodot Hnonempty.
    rewrite Hname, split_at_sep in Hs by done. injection Hs as <- _.
    destruct (String.eqb_spec stem ""); done.
  - intros [Hempty|[rest Hdot]].
    + rewrite Hempty in Hs. injection Hs as <- _. reflexivity.
    + rewrite Hdot in Hs. cbn [Browser.split] in Hs.
      rewrite Ascii.eqb_refl in Hs. injection Hs as <- _. reflexivity.
Qed.

Lemma handleCreateProject_accepted_witness :
  Dashboard.location (Dashboard.handleCreateProject [small_file] dashboard)
    = "/project/uuid-0"
  /\ exists p,
       (getProject "uuid-0"
          (Dashboard.storage
             (Dashboard.handleCreateProject [small_file] dashboard))).1
         = Resolved (Some p)
       /\ name p = "poster"
       /\ originalImage p = "data:image/png;base64,QUJD"
       /\ blocks p = [].
Proof.
  destruct (handleCreateProject_accepted small_file [] dashboard)
    as (Hloc & _ & p & Hget & _ & Himg & Hblocks & _ & _ & _ & _ & Hstem & _).
  { vm_compute. discriminate. }
  split; [exact Hloc|]. exists p. split; [exact Hget|].
  split; [|split; [exact Himg | exact Hblocks]].
  apply (Hstem "poster" "final.png"); [reflexivity | reflexivity | discriminate].
Defined.

End dashboard_theorems.

(** ** Calls to the hosted model: payloads, logging, malformed answers *)

Module GeminiMoreFacts.
Import Async GenAI GeminiService GeminiFacts Text DashboardFacts.

Lemma cleanBase64_no_comma s :
  occurs "," s = false -> cleanBase64 s = s.
Proof.
  intros Hno. unfold cleanBase64. rewrite split_no_sep by done. reflexivity.
Qed.

Lemma cleanBase64_cases s :
  cleanBase64 s = s \/ occurs "," (cleanBase64 s) = false.
Proof.
  unfold cleanBase64.
  pose proof (split_pieces "," s) as Hpieces.
  destruct (Browser.split "," s) as [|h [|piece pieces]]; [by left..|].
  apply Forall_cons in Hpieces as [_ Hpieces].
  apply Forall_cons in Hpieces as [Hpiece _].
  cbn [lookup list_lookup Browser.or_string].
  destruct (String.eqb piece ""); [by left | by right].
Qed.

(** Whatever a step does to a field of the world, binding a
    continuation that keeps the field does the same. *)
Lemma bind_keeps {A B X} (f : World -> X) (m : M World A)
    (k : A -> M World B) w :
  (forall a w', f (k a w').2 = f w') -> f (bind m k w).2 = f (m w).2.
Proof.
  intros Hk. unfold bind. destruct (m w) as [[a|e] w']; [apply Hk|].
  reflexivity.
Qed.

Lemma processBlock_console block index w :
  console (processBlock block index w).2 = console w.
Proof.
  unfold processBlock, bind, Date_now, await, ret. cbn [fst snd].
  destruct (Js.getprop block "originalText"); reflexivity.
Qed.

Lemma map_from_console items index w :
  console (map_from processBlock items index w).2 = console w.
Proof.
  revert index w. induction items as [|block rest IH]; intros index w.
  - reflexivity.
  - cbn [map_from]. rewrite (bind_keeps console).
    + apply processBlock_console.
    + intros a w'. rewrite (bind_keeps console); [apply IH|].
      intros; reflexivity.
Qed.

(** The body of [analyzeImageText]'s [try] writes nothing to the
    console. *)
Lemma analyze_body_console image w :
  console
    ((let* response := generateContent (analyzeRequest image) in
      match Response.text response with
      | Some jsonText =>
          if String.eqb jsonText ""
          then throw (JsError "No response from Gemini")
          else
            let* data := parse jsonText in
            let* textBlocks := await (Js.getprop data "textBlocks") in
            let* processedBlocks :=
              array_map
                (if Js.truthy textBlocks then textBlocks else Js.Arr [])
                processBlock in
            ret {| textBlocks := processedBlocks |}
      | None => throw (JsError "No response from Gemini")
      end) w).2
  = console w.
Proof.
  rewrite (bind_keeps console); [reflexivity|].
  intros response w'. destruct (Response.text response) as [jsonText|];
    [|reflexivity].
  destruct (String.eqb jsonText ""); [reflexivity|].
  rewrite (bind_keeps console); [reflexivity|]. intros data w1.
  rewrite (bind_keeps console); [reflexivity|]. intros textBlocks w2.
  rewrite (bind_keeps console); [|intros; reflexivity].
  destruct (if Js.truthy textBlocks then textBlocks else Js.Arr []);
    try reflexivity.
  apply map_from_console.
Qed.

(** What [analyzeImageText] does once the answer's text is in hand. *)
Lemma analyzeImageText_answered image w response jsonText :
  network w (length (requests w)) (analyzeRequest image)
    = Resolved response ->
  Response.text response = Some jsonText ->
  jsonText <> "" ->
  (analyzeImageText image w).1
  = (try_catch
       (let* data := parse jsonText in
        let* textBlocks := await (Js.getprop data "textBlocks") in
        let* processedBlocks :=
          array_map
            (if Js.truthy textBlocks then textBlocks else Js.Arr [])
            processBlock in
        ret {| textBlocks := processedBlocks |})
       (fun error =>
          let* _ := console_error "Error analyzing image:" in
          throw error)
       (generateContent (analyzeRequest image) w).2).1.
Proof.
  intros Hnet Htext Hne.
  unfold analyzeImageText, try_catch, bind at 1, generateContent.
  rewrite Hnet, Htext. apply String.eqb_neq in Hne. rewrite Hne.
  reflexivity.
Qed.

Lemma processBlock_null index w :
  exists w',
    processBlock Js.Null index w
    = (Rejected (TypeError
         "Cannot read properties of null (reading 'originalText')"), w').
Proof. eexists. reflexivity. Qed.

Lemma processBlock_outcome block index w :
  (exists y w', processBlock block index w = (Resolved y, w'))
  \/ (exists w',
        processBlock block index w
        = (Rejected (TypeError
             "Cannot read properties of null (reading 'originalText')"),
           w')).
Proof.
  destruct block; try (left; eexists _, _; reflexivity);
    right; eexists; reflexivity.
Qed.

(** One [null] among the items makes the whole [map] throw. *)
Lemma map_from_null items index w :
  Js.Null ∈ items ->
  exists w',
    map_from processBlock items index w
    = (Rejected (TypeError
         "Cannot read properties of null (reading 'originalText')"), w').
Proof.
  intros Hin. revert index w.
  induction items as [|block rest IH]; intros index w.
  - by apply elem_of_nil in Hin.
  - cbn [map_from]. unfold bind at 1.
    destruct (processBlock_outcome block index w)
      as [(y & w1 & Hy)|(w1 & Hr)]; [|rewrite Hr; by eexists].
    apply elem_of_cons in Hin as [<-|Hin].
    + destruct (processBlock_null index w) as [w2 Hnull].
      rewrite Hnull in Hy. discriminate.
    + rewrite Hy. destruct (IH Hin (S index) w1) as [w2 Hrest].
      unfold bind at 1. rewrite Hrest. by eexists.
Qed.

End GeminiMoreFacts.

Section gemini_more_theorems.
Import Async GenAI GeminiService GeminiFacts GeminiSamples Text.
Import DashboardFacts GeminiMoreFacts.

(** X8: [cleanBase64] strips the header of a data URL: a string without
    a comma is sent as it is; [header,payload] is reduced to the payload;
    a header with an empty payload is kept whole; and stripping twice is
    the same as stripping once. *)
Theorem cleanBase64_strips_header (s : string) :
  (occurs "," s = false -> cleanBase64 s = s)
  /\ (forall header payload,
        s = header +:+ String "," payload ->
        occurs "," header = false -> occurs "," payload = false ->
        payload <> "" -> cleanBase64 s = payload)
  /\ (forall header,
        s = header +:+ "," -> occurs "," header = false ->
        cleanBase64 s = s)
  /\ cleanBase64 (cleanBase64 s) = cleanBase64 s.
Proof.
  split; [apply cleanBase64_no_comma|]. split; [|split].
  - intros header payload -> Hh Hp Hne. unfold cleanBase64.
    rewrite split_at_sep, (split_no_sep _ payload) by done.
    cbn [lookup list_lookup Browser.or_string].
    by destruct (String.eqb_spec payload "").
  - intros header -> Hh. unfold cleanBase64.
    rewrite split_at_sep by done. reflexivity.
  - destruct (cleanBase64_cases s) as [Heq|Hno].
    + rewrite Heq. exact Heq.
    + by apply cleanBase64_no_comma.
Qed.

Lemma cleanBase64_strips_header_witness :
  cleanBase64 "data:image/png;base64,QUJD" = "QUJD"
  /\ cleanBase64 "QUJD" = "QUJD"
  /\ cleanBase64 "data:image/png;base64," = "data:image/png;base64,".
Proof.
  destruct (cleanBase64_strips_header "data:image/png;base64,QUJD")
    as (_ & Hstrip & _).
  destruct (cleanBase64_strips_header "QUJD") as (Hraw & _).
  destruct (cleanBase64_strips_header "data:image/png;base64,")
    as (_ & _ & Hempty & _).
  split; [|split].
  - apply (Hstrip "data:image/png;base64" "QUJD");
      [reflexivity | reflexivity | reflexivity | discriminate].
  - apply Hraw. reflexivity.
  - apply (Hempty "data:image/png;base64"); reflexivity.
Defined.

(** X9: the image [removeTextFromImage] returns can be handed back to
    either call: when the part's data is a non-empty string without a
    comma, stripping the header of the returned data URL gives exactly
    that data. *)
Theorem cleaned_image_payload (base64Image : string) (w : World)
    (response : Response.t) (before : list Part) (part : Part) (blob : Blob)
    (payload : string) (after : list Part) :
  (selectApiKey w).1 = Resolved tt ->
  network w (length (requests w)) (removeRequest base64Image)
    = Resolved response ->
  firstParts response = before ++ part :: after ->
  Forall (fun p => inlineData p = None) before ->
  inlineData part = Some blob ->
  data blob = Some payload ->
  occurs "," payload = false ->
  payload <> "" ->
  exists url,
    (removeTextFromImage base64Image w).1 = Resolved (Some url)
    /\ cleanBase64 url = payload.
Proof.
  intros Hkey Hnet Hparts Hbefore Hpart Hdata Hcomma Hne.
  rewrite removeTextFromImage_run.
  destruct (selectApiKey w) as [o w0]. cbn [fst] in Hkey. subst o.
  rewrite Hnet, Hparts, (firstInlineImage_first _ _ blob) by done.
  rewrite Hdata. cbn [fst template default].
  exists ("data:image/png;base64" +:+ String "," payload).
  split; [reflexivity|]. unfold cleanBase64.
  rewrite split_at_sep, (split_no_sep _ payload) by done.
  cbn [lookup list_lookup Browser.or_string].
  by destruct (String.eqb_spec payload "").
Qed.

Lemma cleaned_image_payload_witness :
  exists url,
    (removeTextFromImage "data:image/png;base64,QUJD" answering).1
      = Resolved (Some url)
    /\ cleanBase64 url = "iVBORw0KGgo".
Proof.
  apply (cleaned_image_payload "data:image/png;base64,QUJD" answering
           image_response
           [ {| inlineData := None; text := Some "Here it is." |} ]
           {| inlineData := Some png; text := None |} png "iVBORw0KGgo" []);
    try reflexivity.
  - repeat constructor.
  - discriminate.
Defined.

(** X10: a failure is logged exactly once, and nothing else is.
    [analyzeImageText] adds the line "Error analyzing image:" to the
    console exactly when it rejects.  [removeTextFromImage] adds the line
    "Error cleaning image:" exactly when the key selection or the request
    failed, and then resolves to null; when the request was answered it
    logs nothing, so a null result without a log line means that the
    answer carried no inline image (an answer without candidates, for
    one). *)
Theorem failures_are_logged_once (base64Image : string) (w : World) :
  console (analyzeImageText base64Image w).2
    = console w ++
      (if is_rejected (analyzeImageText base64Image w).1
       then ["Error analyzing image:"] else [])
  /\ (is_rejected (selectApiKey w).1
      || is_rejected (network w (length (requests w))
                        (removeRequest base64Image)) = true ->
      (removeTextFromImage base64Image w).1 = Resolved None
      /\ console (removeTextFromImage base64Image w).2
         = console w ++ ["Error cleaning image:"])
  /\ (forall response,
        (selectApiKey w).1 = Resolved tt ->
        network w (length (requests w)) (removeRequest base64Image)
          = Resolved response ->
        console (removeTextFromImage base64Image w).2 = console w
        /\ (removeTextFromImage base64Image w).1
           = Resolved (firstInlineImage (firstParts response))
        /\ (Response.candidates response = None
            \/ Response.candidates response = Some [] ->
            (removeTextFromImage base64Image w).1 = Resolved None)).
Proof.
  split; [|split].
  - pose proof (analyze_body_console base64Image w) as Hbody.
    unfold analyzeImageText, try_catch.
    match goal with
    | |- context [match ?m with (_, _) => _ end] =>
        destruct m as [[r|e] w1]
    end; cbn [fst snd is_rejected] in *.
    + rewrite Hbody, app_nil_r. reflexivity.
    + cbn. rewrite Hbody. reflexivity.
  - rewrite removeTextFromImage_run.
    pose proof (selectApiKey_world w) as Hw.
    destruct (selectApiKey w) as [[[]|e0] w0]; cbn [fst snd is_rejected] in *.
    + destruct (network w (length (requests w))
                  (removeRequest base64Image)) as [response|e1];
        cbn [is_rejected orb]; [discriminate|].
      intros _. split; reflexivity.
    + intros _. split; reflexivity.
  - intros response Hkey Hnet. rewrite removeTextFromImage_run.
    destruct (selectApiKey w) as [o w0]. cbn [fst] in Hkey. subst o.
    rewrite Hnet. cbn [fst snd console].
    split; [reflexivity|]. split; [reflexivity|].
    unfold firstParts. intros [->| ->]; reflexivity.
Qed.

Lemma failures_are_logged_once_witness :
  console (analyzeImageText "QUJD" offline).2 = ["Error analyzing image:"]
  /\ console (removeTextFromImage "QUJD" offline).2
     = ["Error cleaning image:"]
  /\ console (removeTextFromImage "QUJD" answering).2 = []
  /\ console (analyzeImageText "QUJD" answering).2 = [].
Proof.
  destruct (failures_are_logged_once "QUJD" offline) as (Ha & Hr & _).
  destruct (failures_are_logged_once "QUJD" answering) as (Ha' & _ & Hok).
  split; [|split; [|split]].
  - rewrite Ha. reflexivity.
  - apply Hr. reflexivity.
  - apply (Hok image_response); reflexivity.
  - rewrite Ha'. vm_compute. reflexivity.
Defined.

(** X11: what [analyzeImageText] does with an answer whose text is not a
    well-formed analysis.  A failure of [JSON.parse] is rethrown; the
    value [null] gives a [TypeError]; a [textBlocks] that is falsy
    ([null], [false], [0], the empty string, or absent) gives the empty
    block list; a [textBlocks] that is truthy but not an array gives a
    [TypeError]; and a single [null] among the items makes the whole call
    reject, whatever the other items are. *)
Theorem analyzeImageText_malformed (base64Image : string) (w : World)
    (response : Response.t) (jsonText : string) :
  network w (length (requests w)) (analyzeRequest base64Image)
    = Resolved response ->
  Response.text response = Some jsonText ->
  jsonText <> "" ->
  (forall e, JSON_parse w jsonText = Rejected e ->
     (analyzeImageText base64Image w).1 = Rejected e)
  /\ (JSON_parse w jsonText = Resolved Js.Null ->
      (analyzeImageText base64Image w).1
      = Rejected (TypeError
          "Cannot read properties of null (reading 'textBlocks')"))
  /\ (forall data textBlocks,
        JSON_parse w jsonText = Resolved data ->
        Js.getprop data "textBlocks" = Resolved textBlocks ->
        (Js.truthy textBlocks = false ->
         (analyzeImageText base64Image w).1
         = Resolved {| textBlocks := [] |})
        /\ (Js.truthy textBlocks = true ->
            (forall items, textBlocks <> Js.Arr items) ->
            (analyzeImageText base64Image w).1
            = Rejected (TypeError
                "(data.textBlocks || []).map is not a function"))
        /\ (forall items,
              textBlocks = Js.Arr items -> Js.Null ∈ items ->
              (analyzeImageText base64Image w).1
              = Rejected (TypeError
                  "Cannot read properties of null (reading 'originalText')"))).
Proof.
  intros Hnet Htext Hne.
  rewrite (analyzeImageText_answered _ _ _ _ Hnet Htext Hne).
  unfold generateContent. cbn [snd].
  split; [|split].
  - intros e He. unfold try_catch, bind at 1, parse. cbn [JSON_parse].
    rewrite He. reflexivity.
  - intros He. unfold try_catch, bind at 1, parse. cbn [JSON_parse].
    rewrite He. reflexivity.
  - intros data textBlocks He Hprop. split; [|split].
    + intros Hfalsy. unfold try_catch, bind at 1, parse. cbn [JSON_parse].
      rewrite He. unfold bind at 1, await. rewrite Hprop, Hfalsy.
      reflexivity.
    + intros Htruthy Hnot. unfold try_catch, bind at 1, parse.
      cbn [JSON_parse]. rewrite He. unfold bind at 1, await.
      rewrite Hprop, Htruthy.
      destruct textBlocks; try discriminate; try reflexivity.
      by destruct (Hnot items).
    + intros items -> Hnull. unfold try_catch, bind at 1, parse.
      cbn [JSON_parse]. rewrite He. unfold bind at 1, await.
      rewrite Hprop. cbn [Js.truthy array_map]. unfold bind at 1.
      match goal with
      | |- context [map_from processBlock items 0%nat ?w1] =>
          destruct (map_from_null items 0 w1 Hnull) as [w' ->]
      end.
      reflexivity.
Qed.

Lemma analyzeImageText_malformed_witness :
  (analyzeImageText "QUJD"
     (MalformedSamples.answering_with "not json"
        (Rejected (SyntaxError "Unexpected token")))).1
    = Rejected (SyntaxError "Unexpected token")
  /\ (analyzeImageText "QUJD"
        (MalformedSamples.answering_with "{textBlocks:[headline,null]}"
           (Resolved MalformedSamples.with_null_block))).1
     = Rejected (TypeError
         "Cannot read properties of null (reading 'originalText')").
Proof.
  split.
  - destruct (analyzeImageText_malformed "QUJD"
                (MalformedSamples.answering_with "not json"
                   (Rejected (SyntaxError "Unexpected token")))
                _ "not json" eq_refl eq_refl ltac:(discriminate))
      as (Hparse & _).
    apply Hparse. reflexivity.
  - destruct (analyzeImageText_malformed "QUJD"
                (MalformedSamples.answering_with
                   "{textBlocks:[headline,null]}"
                   (Resolved MalformedSamples.with_null_block))
                _ "{textBlocks:[headline,null]}" eq_refl eq_refl
                ltac:(discriminate))
      as (_ & _ & Hdata).
    destruct (Hdata MalformedSamples.with_null_block
                (Js.Arr [Js.Obj vendor_headline; Js.Null])
                eq_refl eq_refl) as (_ & _ & Hnull).
    apply (Hnull [Js.Obj vendor_headline; Js.Null] eq_refl).
    apply elem_of_cons. right. apply elem_of_cons. left. reflexivity.
Defined.

End gemini_more_theorems.

(** ** Canvas editor: stacking, reloading, editing *)

Module CanvasMoreFacts.
Import Types Fabric EditorCanvas CanvasFacts.
#[local] Open Scope float_scope.

(** The textbox and the mask of a block on a [W] x [H] canvas. *)
Lemma onload_textboxes img bs ic c :
  textboxes (objects (onload img bs ic c))
  = (fun b =>
       textbox
         ((at_index (box_2d b) 1 / 1000) * or_else (naturalWidth img) 800)
         ((at_index (box_2d b) 0 / 1000) * or_else (naturalHeight img) 600)
         (((at_index (box_2d b) 3 - at_index (box_2d b) 1) / 1000)
          * or_else (naturalWidth img) 800)
         (((at_index (box_2d b) 2 - at_index (box_2d b) 0) / 1000)
          * or_else (naturalHeight img) 600) b) <$> bs.
Proof.
  rewrite onload_objects.
  apply (one_per_block textboxes); [apply textboxes_app | reflexivity |].
  intros b. apply textboxes_added.
Qed.

Lemma onload_rects_masked img bs c :
  rects (objects (onload img bs false c))
  = (fun b =>
       maskRect
         ((at_index (box_2d b) 1 / 1000) * or_else (naturalWidth img) 800)
         ((at_index (box_2d b) 0 / 1000) * or_else (naturalHeight img) 600)
         (((at_index (box_2d b) 3 - at_index (box_2d b) 1) / 1000)
          * or_else (naturalWidth img) 800)
         (((at_index (box_2d b) 2 - at_index (box_2d b) 0) / 1000)
          * or_else (naturalHeight img) 600) b) <$> bs.
Proof.
  rewrite onload_objects.
  apply (one_per_block rects); [apply rects_app | reflexivity |].
  intros b. apply rects_added_masked.
Qed.

Lemma onload_rects_cleaned img bs c :
  rects (objects (onload img bs true c)) = [].
Proof.
  rewrite onload_objects.
  apply (none_per_block rects); [apply rects_app | reflexivity |].
  intros b. apply rects_added_cleaned.
Qed.

(** Where the two objects of the i-th block sit when masks are drawn. *)
Lemma masked_pair_lookup W H bs i b :
  bs !! i = Some b ->
  exists r t,
    added W H false b = [ORect r; OTextbox t]
    /\ concat (added W H false <$> bs) !! (2 * i)%nat = Some (ORect r)
    /\ concat (added W H false <$> bs) !! (2 * i + 1)%nat
       = Some (OTextbox t).
Proof.
  revert i. induction bs as [|b0 bs IH]; intros i Hi; [done|].
  destruct i as [|i].
  - injection Hi as ->. eexists _, _. split; [reflexivity|].
    split; reflexivity.
  - destruct (IH i Hi) as (r & t & Hadded & Hr & Ht).
    exists r, t. split; [exact Hadded|].
    replace (2 * S i)%nat with (S (S (2 * i))) by lia.
    split; [exact Hr|]. exact Ht.
Qed.

Lemma masked_length W H bs :
  length (concat (added W H false <$> bs)) = (2 * length bs)%nat.
Proof.
  induction bs as [|b bs IH]; [reflexivity|].
  cbn [fmap list_fmap concat]. rewrite length_app, IH. cbn. lia.
Qed.

Lemma cleaned_objects W H bs :
  exists g,
    concat (added W H true <$> bs) = (fun b => OTextbox (g b)) <$> bs
    /\ forall b, added W H true b = [OTextbox (g b)].
Proof.
  eexists (fun b => _). split; [|intros b; reflexivity].
  induction bs as [|b bs IH]; [reflexivity|].
  cbn [fmap list_fmap concat]. rewrite IH. reflexivity.
Qed.

Lemma forEach_background W H ic bs c :
  backgroundImage (fold_left (processBlock W H ic) bs c) = backgroundImage c.
Proof.
  revert c. induction bs as [|b bs IH]; intros c; [reflexivity|].
  cbn [fold_left]. rewrite IH. unfold processBlock.
  destruct ic; reflexivity.
Qed.


End CanvasMoreFacts.

Section canvas_more_theorems.
Import Types Fabric EditorCanvas CanvasFacts CanvasMoreFacts CanvasSamples.
Import PageSamples.
#[local] Open Scope float_scope.

(** X12: the order in which the canvas holds its objects.  With masks,
    the canvas holds two objects per block, in block order, the mask of a
    block, filled with its [backgroundColor], directly below its
    textbox; without masks it holds the textboxes only, in block order.
    With or without masks, the textbox of a block shows its
    [currentText] in its [textColor] and [fontWeight], in Times New
    Roman, Courier New, Brush Script MT or Arial according to the
    block's font family. *)
Theorem canvas_stacking_order (img : LoadedImage)
    (blocks : list DetectedTextBlock) (canvas : Canvas)
    (i : nat) (block : DetectedTextBlock) :
  blocks !! i = Some block ->
  (length (objects (onload img blocks false canvas))
     = (2 * length blocks)%nat
   /\ exists r t,
        objects (onload img blocks false canvas) !! (2 * i)%nat
          = Some (ORect r)
        /\ objects (onload img blocks false canvas) !! (2 * i + 1)%nat
           = Some (OTextbox t)
        /\ Rect.fill r = backgroundColor block
        /\ Textbox.text t = currentText block
        /\ Textbox.fill t = textColor block
        /\ Textbox.fontWeight t = fontWeight block
        /\ Textbox.fontFamily t
           = match fontFamily block with
             | serif => "Times New Roman"
             | monospace => "Courier New"
             | cursive => "Brush Script MT"
             | sans_serif => "Arial"
             end)
  /\ (length (objects (onload img blocks true canvas)) = length blocks
      /\ exists t,
           objects (onload img blocks true canvas) !! i = Some (OTextbox t)
           /\ Textbox.text t = currentText block
           /\ Textbox.fill t = textColor block
           /\ Textbox.fontWeight t = fontWeight block
           /\ Textbox.fontFamily t
              = match fontFamily block with
                | serif => "Times New Roman"
                | monospace => "Courier New"
                | cursive => "Brush Script MT"
                | sans_serif => "Arial"
                end).
Proof.
  intros Hi. rewrite !onload_objects. split.
  - split; [apply masked_length|].
    destruct (masked_pair_lookup (or_else (naturalWidth img) 800)
                (or_else (naturalHeight img) 600) blocks i block Hi)
      as (r & t & Hadded & Hr & Ht).
    exists r, t. split; [exact Hr|]. split; [exact Ht|].
    injection Hadded as <- <-. repeat split.
  - destruct (cleaned_objects (or_else (naturalWidth img) 800)
                (or_else (naturalHeight img) 600) blocks)
      as (g & -> & Hg).
    split; [apply length_fmap|].
    rewrite list_lookup_fmap, Hi. eexists. split; [reflexivity|].
    specialize (Hg block). injection Hg as <-.
    repeat split.
Qed.

Lemma canvas_stacking_order_witness :
  exists r t,
    objects (onload photo [headline; footer] false blank) !! 2%nat
      = Some (ORect r)
    /\ objects (onload photo [headline; footer] false blank) !! 3%nat
       = Some (OTextbox t)
    /\ Rect.fill r = "#eeeeee"
    /\ Textbox.text t = "ends monday"
    /\ Textbox.fill t = "#222222"
    /\ Textbox.fontWeight t = normal
    /\ Textbox.fontFamily t = "Times New Roman".
Proof.
  destruct (canvas_stacking_order photo [headline; footer] blank 1 footer
              eq_refl) as [(_ & r & t & H) _].
  exists r, t. exact H.
Defined.

(** X13: loading content starts from scratch.  The canvas [onload]
    produces does not depend on what the canvas held before, so loading
    the same content again changes nothing; its background is the loaded
    image, anchored top left at scale 1.  Without a canvas instance, or
    without an image URL (absent or empty), the effect does nothing. *)
Theorem loading_starts_from_scratch (img : LoadedImage)
    (blocks : list DetectedTextBlock) (isCleaned : bool)
    (c1 c2 : Canvas) :
  onload img blocks isCleaned c1 = onload img blocks isCleaned c2
  /\ onload img blocks isCleaned (onload img blocks isCleaned c1)
     = onload img blocks isCleaned c1
  /\ backgroundImage (onload img blocks isCleaned c1)
     = Some {| Fabric.src := EditorCanvas.src img; originX := "left";
               originY := "top"; scaleX := 1; scaleY := 1 |}
  /\ loadContent None (Some (EditorCanvas.src img)) img blocks isCleaned
     = None
  /\ loadContent (Some c1) None img blocks isCleaned = Some c1
  /\ loadContent (Some c1) (Some "") img blocks isCleaned = Some c1.
Proof.
  assert (Hany : forall c c',
            onload img blocks isCleaned c = onload img blocks isCleaned c')
    by reflexivity.
  split; [apply Hany|]. split; [apply Hany|]. split; [|repeat split].
  unfold onload. cbv zeta. rewrite forEach_background. reflexivity.
Qed.

(** X14: editing a text never moves anything.  After [updateBlockText]
    in the single-page editor the canvas has the same masks as before
    and, position by position, textboxes with the same left, top, width,
    font size, font family, font weight and colour; only the text of the
    blocks with the given id has changed. *)
Theorem editing_keeps_geometry (img : LoadedImage) (isCleaned : bool)
    (canvas : Canvas) (id newText : string) (s : App.State) :
  let before := objects (onload img (App.blocks s) isCleaned canvas) in
  let after :=
    objects (onload img (App.blocks (App.updateBlockText id newText s))
               isCleaned canvas) in
  rects after = rects before
  /\ length (textboxes after) = length (textboxes before)
  /\ forall i block,
       App.blocks s !! i = Some block ->
       exists t t',
         textboxes before !! i = Some t
         /\ textboxes after !! i = Some t'
         /\ Textbox.left t' = Textbox.left t
         /\ Textbox.top t' = Textbox.top t
         /\ Textbox.width t' = Textbox.width t
         /\ Textbox.fontSize t' = Textbox.fontSize t
         /\ Textbox.fontFamily t' = Textbox.fontFamily t
         /\ Textbox.fontWeight t' = Textbox.fontWeight t
         /\ Textbox.fill t' = Textbox.fill t
         /\ Textbox.text t'
            = (if String.eqb (Types.id block) id then newText
               else Textbox.text t).
Proof.
  intros before after. subst before after.
  cbn [App.updateBlockText App.setBlocks App.blocks].
  split; [|split].
  - destruct isCleaned.
    + by rewrite !onload_rects_cleaned.
    + rewrite !onload_rects_masked, <- list_fmap_compose.
      apply list_fmap_ext. intros _ b _. cbn [compose].
      by destruct (String.eqb (Types.id b) id).
  - by rewrite !onload_textboxes, !length_fmap.
  - intros i block Hi. rewrite !onload_textboxes, !list_lookup_fmap, Hi.
    cbn [fmap option_fmap option_map]. eexists _, _.
    split; [reflexivity|]. split; [reflexivity|].
    destruct (String.eqb (Types.id block) id); repeat split.
Qed.

Lemma editing_keeps_geometry_witness :
  exists t',
    textboxes
      (objects (onload photo
                  (App.blocks (App.updateBlockText "block-1-1700000000000"
                                 "ends sunday" editing))
                  false blank)) !! 1%nat = Some t'
    /\ Textbox.left t' = 64%float
    /\ Textbox.width t' = 256%float
    /\ Textbox.text t' = "ends sunday".
Proof.
  destruct (editing_keeps_geometry photo false blank
              "block-1-1700000000000" "ends sunday" editing)
    as (_ & _ & Hat).
  destruct (Hat 1%nat footer eq_refl)
    as (t & t' & Ht & Ht' & Hl & _ & Hw & _ & _ & _ & _ & Htext).
  exists t'. split; [exact Ht'|].
  injection Ht as <-. split; [exact Hl|]. split; [exact Hw|]. exact Htext.
Defined.

End canvas_more_theorems.

(** ** Pages: analysis, loading and saving *)

Module ActionFacts.
Import Async Types GenAI GeminiService GeminiFacts.

Lemma removeTextFromImage_resolves image w :
  exists cleaned, (removeTextFromImage image w).1 = Resolved cleaned.
Proof.
  rewrite removeTextFromImage_run.
  destruct (selectApiKey w) as [[[]|e] w0]; [|by eexists].
  destruct (network w (length (requests w)) (removeRequest image));
    by eexists.
Qed.

Lemma removeTextFromImage_requests image w :
  (length (requests (removeTextFromImage image w).2)
   <= S (length (requests w)))%nat.
Proof.
  rewrite removeTextFromImage_run.
  destruct (selectApiKey w) as [[[]|e] w0]; [|cbn; lia].
  destruct (network w (length (requests w)) (removeRequest image));
    cbn [snd requests console_error]; rewrite length_app; cbn; lia.
Qed.

(** [saveChanges] from a render that has a route id. *)
Lemma saveChanges_run seen newBlocks newProcessedImage s w key :
  ProjectEditor.id seen = Some key -> key <> "" ->
  ProjectEditor.saveChanges seen newBlocks newProcessedImage s w
  = (ProjectEditor.setIsSaving false s,
     (StorageService.updateProject key
        {| StorageService.upd_id := None;
           StorageService.upd_name := None;
           StorageService.upd_createdAt := None;
           StorageService.upd_updatedAt := None;
           StorageService.upd_originalImage := None;
           StorageService.upd_processedImage :=
             Some (ProjectEditor.nullish newProcessedImage
                     (ProjectEditor.processedImageUrl seen));
           StorageService.upd_blocks :=
             Some (default (ProjectEditor.blocks seen) newBlocks) |} w).2).
Proof.
  intros Hid Hne. unfold ProjectEditor.saveChanges. rewrite Hid.
  apply String.eqb_neq in Hne. rewrite Hne.
  destruct (StorageService.updateProject _ _ _). reflexivity.
Qed.

(** What [updateProject] leaves under the key of a record stored under
    its own id, when the update does not name [id]. *)
Lemma updateProject_stored key updates w p :
  StorageService.projects (StorageService.openDB w) !! key = Some p ->
  StorageService.id p = key ->
  StorageService.upd_id updates = None ->
  StorageService.projects
    (StorageService.openDB (StorageService.updateProject key updates w).2)
    !! key
  = Some (StorageService.spread_updates p updates
            (StorageService.clock w (StorageService.clock_reads w))).
Proof.
  intros Hstored Hid Hupd. rewrite StorageFacts.updateProject_run, Hstored.
  cbn [snd StorageService.openDB StorageService.idb
       StorageService.projects StorageService.spread_updates
       StorageService.id].
  rewrite Hupd, Hid. cbn [default]. apply lookup_insert_eq.
Qed.

Lemma load_run s w key :
  ProjectEditor.id s = Some key -> key <> "" ->
  ProjectActions.load s w
  = match StorageService.projects (StorageService.openDB w) !! key with
    | Some project =>
        ({| ProjectEditor.id := ProjectEditor.id s;
            ProjectEditor.projectName := StorageService.name project;
            ProjectEditor.imageUrl :=
              Some (StorageService.originalImage project);
            ProjectEditor.processedImageUrl :=
              StorageService.processedImage project;
            ProjectEditor.blocks := StorageService.blocks project;
            ProjectEditor.isAnalyzing := ProjectEditor.isAnalyzing s;
            ProjectEditor.statusMessage := ProjectEditor.statusMessage s;
            ProjectEditor.error := ProjectEditor.error s;
            ProjectEditor.isSaving := ProjectEditor.isSaving s |},
         StorageService.set_idb (StorageService.openDB w) w)
    | None =>
        ({| ProjectEditor.id := ProjectEditor.id s;
            ProjectEditor.projectName := ProjectEditor.projectName s;
            ProjectEditor.imageUrl := ProjectEditor.imageUrl s;
            ProjectEditor.processedImageUrl :=
              ProjectEditor.processedImageUrl s;
            ProjectEditor.blocks := ProjectEditor.blocks s;
            ProjectEditor.isAnalyzing := ProjectEditor.isAnalyzing s;
            ProjectEditor.statusMessage := ProjectEditor.statusMessage s;
            ProjectEditor.error := Some "Project not found";
            ProjectEditor.isSaving := ProjectEditor.isSaving s |},
         StorageService.set_idb (StorageService.openDB w) w)
    end.
Proof.
  intros Hid Hne. unfold ProjectActions.load. rewrite Hid.
  cbn [Browser.falsy default from_option Datatypes.id].
  apply String.eqb_neq in Hne. rewrite Hne.
  rewrite StorageFacts.getProject_run.
  destruct (StorageService.projects (StorageService.openDB w) !! key);
    reflexivity.
Qed.

End ActionFacts.

Section action_theorems.
Import Async Types GenAI.
Import GeminiFacts ActionFacts StorageFacts StorageMoreFacts.
Import StorageSamples PageSamples UploadSamples GeminiSamples ReadSamples.
Import CanvasSamples.

(** X15: [startAnalysis] does nothing without a chosen file or without
    an image URL.  When the analysis request fails, the cleaning request
    is never sent: exactly one request has gone out, the error message
    is shown, the spinner is off, and the blocks and the images of the
    editor are what they were. *)
Theorem startAnalysis_failure_stops (asBlock : Js.value -> DetectedTextBlock)
    (s : App.State) (g : GeminiService.World) :
  (App.imageFile s = None \/ Browser.falsy (App.imageUrl s) = true ->
   AppAnalysis.startAnalysis asBlock s g = (s, g))
  /\ (forall file,
        App.imageFile s = Some file ->
        Browser.falsy (App.imageUrl s) = false ->
        is_rejected
          (GeminiService.analyzeImageText (Browser.dataURL file) g).1
          = true ->
        let s' := (AppAnalysis.startAnalysis asBlock s g).1 in
        let g' := (AppAnalysis.startAnalysis asBlock s g).2 in
        App.error s' = Some "Failed to process image. Please try again."
        /\ App.isAnalyzing s' = false
        /\ App.blocks s' = App.blocks s
        /\ App.processedImageUrl s' = App.processedImageUrl s
        /\ App.imageUrl s' = App.imageUrl s
        /\ GeminiService.requests g'
           = GeminiService.requests g
             ++ [GeminiService.analyzeRequest (Browser.dataURL file)]).
Proof.
  split.
  - unfold AppAnalysis.startAnalysis. intros [->| Hurl]; [reflexivity|].
    rewrite Hurl. by destruct (App.imageFile s).
  - intros file Hfile Hurl Hrej. unfold AppAnalysis.startAnalysis.
    rewrite Hfile, Hurl.
    pose proof (analyzeImageText_requests (Browser.dataURL file) g) as Hreq.
    destruct (GeminiService.analyzeImageText (Browser.dataURL file) g)
      as [[result|e] g1]; cbn [fst snd is_rejected] in *; [discriminate|].
    repeat split. exact Hreq.
Qed.

Lemma startAnalysis_failure_stops_witness :
  App.error (AppAnalysis.startAnalysis read chosen offline).1
    = Some "Failed to process image. Please try again."
  /\ length (GeminiService.requests
               (AppAnalysis.startAnalysis read chosen offline).2) = 1%nat
  /\ AppAnalysis.startAnalysis read editing offline = (editing, offline).
Proof.
  destruct (startAnalysis_failure_stops read chosen offline) as [_ Hfail].
  destruct (startAnalysis_failure_stops read editing offline) as [Hnone _].
  destruct (Hfail small_file eq_refl eq_refl eq_refl)
    as (Herr & _ & _ & _ & _ & Hreq).
  split; [exact Herr|]. split.
  - rewrite Hreq. reflexivity.
  - apply Hnone. left. reflexivity.
Defined.

(** X16: when the analysis succeeds, [startAnalysis] shows the detected
    blocks without an error, turns the spinner off and restores the
    status message; the processed image becomes the cleaned image when
    the cleaning call returned one and stays as it was when it returned
    null; and at most two requests have gone out. *)
Theorem startAnalysis_success (asBlock : Js.value -> DetectedTextBlock)
    (s : App.State) (g : GeminiService.World) (file : Browser.File)
    (result : GeminiService.AnalysisResult) :
  App.imageFile s = Some file ->
  Browser.falsy (App.imageUrl s) = false ->
  (GeminiService.analyzeImageText (Browser.dataURL file) g).1
    = Resolved result ->
  let g1 := (GeminiService.analyzeImageText (Browser.dataURL file) g).2 in
  let cleaned :=
    (GeminiService.removeTextFromImage (Browser.dataURL file) g1).1 in
  let s' := (AppAnalysis.startAnalysis asBlock s g).1 in
  let g' := (AppAnalysis.startAnalysis asBlock s g).2 in
  App.error s' = None
  /\ App.blocks s' = asBlock <$> GeminiService.textBlocks result
  /\ App.isAnalyzing s' = false
  /\ App.statusMessage s' = "Analyzing Image Structure..."
  /\ (forall image, cleaned = Resolved (Some image) -> image <> "" ->
        App.processedImageUrl s' = Some image)
  /\ (cleaned = Resolved None ->
      App.processedImageUrl s' = App.processedImageUrl s)
  /\ (length (GeminiService.requests g')
      <= 2 + length (GeminiService.requests g))%nat.
Proof.
  intros Hfile Hurl Hres. unfold AppAnalysis.startAnalysis.
  rewrite Hfile, Hurl.
  pose proof (analyzeImageText_requests (Browser.dataURL file) g) as Hreq.
  destruct (GeminiService.analyzeImageText (Browser.dataURL file) g)
    as [[result'|e] g1]; cbn [fst snd] in *; [|discriminate].
  injection Hres as ->.
  pose proof (removeTextFromImage_requests (Browser.dataURL file) g1)
    as Hreq2.
  destruct (removeTextFromImage_resolves (Browser.dataURL file) g1)
    as [cleaned Hcleaned].
  destruct (GeminiService.removeTextFromImage (Browser.dataURL file) g1)
    as [[cleaned'|e] g2]; cbn [fst snd] in *; [|discriminate].
  injection Hcleaned as ->.
  split; [reflexivity|]. split; [reflexivity|]. split; [reflexivity|].
  split; [reflexivity|]. split; [|split].
  - intros image [= ->] Hne. cbn [Browser.falsy].
    apply String.eqb_neq in Hne. rewrite Hne. reflexivity.
  - intros [= ->]. reflexivity.
  - rewrite Hreq, length_app in Hreq2. cbn in Hreq2. lia.
Qed.

Lemma startAnalysis_success_witness :
  App.error (AppAnalysis.startAnalysis read chosen answering).1 = None
  /\ App.processedImageUrl (AppAnalysis.startAnalysis read chosen answering).1
     = Some "data:image/png;base64,iVBORw0KGgo"
  /\ currentText
       <$> App.blocks (AppAnalysis.startAnalysis read chosen answering).1
     = ["SALE"; "ends friday"].
Proof.
  assert (Hres : exists result,
            (GeminiService.analyzeImageText
               (Browser.dataURL small_file) answering).1 = Resolved result
            /\ currentText <$> (read <$> GeminiService.textBlocks result)
               = ["SALE"; "ends friday"]).
  { eexists. split; [vm_compute; reflexivity|]. vm_compute. reflexivity. }
  destruct Hres as (result & Hres & Htexts).
  destruct (startAnalysis_success read chosen answering small_file result
              eq_refl eq_refl Hres)
    as (Herr & Hblocks & _ & _ & Himg & _).
  split; [exact Herr|]. split.
  - apply Himg; [vm_compute; reflexivity | discriminate].
  - rewrite Hblocks. exact Htexts.
Defined.

(** X17: a project created on the dashboard opens in the project
    editor.  After an accepted upload, loading the editor at the new key
    shows the uploaded image as the source image, no processed image, no
    blocks, and no new error. *)
Theorem created_project_opens (file : Browser.File)
    (others : list Browser.File) (w : Dashboard.World)
    (s : ProjectEditor.State) :
  (Browser.size file <= 5 * 1024 * 1024)%N ->
  let key := StorageService.uuids (Dashboard.storage w)
               (StorageService.uuid_draws (Dashboard.storage w)) in
  key <> "" ->
  ProjectEditor.id s = Some key ->
  let opened :=
    (ProjectActions.load s
       (Dashboard.storage
          (Dashboard.handleCreateProject (file :: others) w))).1 in
  ProjectEditor.imageUrl opened = Some (Browser.dataURL file)
  /\ ProjectEditor.processedImageUrl opened = None
  /\ ProjectEditor.blocks opened = []
  /\ ProjectEditor.error opened = ProjectEditor.error s
  /\ ProjectEditor.projectName opened
     = Browser.or_string (Browser.split "." (Browser.name file) !! 0%nat)
         "Untitled Project".
Proof.
  intros Hsmall key Hkey Hid opened. subst opened.
  unfold Dashboard.handleCreateProject. cbn [head].
  apply N.ltb_ge in Hsmall. rewrite Hsmall. rewrite createProject_run.
  cbv zeta. cbn [Dashboard.navigate Dashboard.storage].
  rewrite (load_run _ _ key) by done.
  cbn [StorageService.openDB StorageService.idb StorageService.projects].
  rewrite lookup_insert_eq. repeat split.
Qed.

Lemma created_project_opens_witness :
  ProjectEditor.imageUrl
    (ProjectActions.load
       {| ProjectEditor.id := Some "uuid-0";
          ProjectEditor.projectName := "Untitled Project";
          ProjectEditor.imageUrl := None;
          ProjectEditor.processedImageUrl := None;
          ProjectEditor.blocks := [];
          ProjectEditor.isAnalyzing := false;
          ProjectEditor.statusMessage := "";
          ProjectEditor.error := None;
          ProjectEditor.isSaving := false |}
       (Dashboard.storage
          (Dashboard.handleCreateProject [small_file] dashboard))).1
  = Some "data:image/png;base64,QUJD".
Proof.
  refine (proj1 (created_project_opens small_file [] dashboard _ _ _ _)).
  - vm_compute. discriminate.
  - vm_compute. discriminate.
  - reflexivity.
Defined.

(** X18: a project deleted on the dashboard no longer opens: loading
    the editor at its key reports "Project not found" and leaves the
    rest of the editor as it was.  Without a route id the load does
    nothing. *)
Theorem deleted_project_is_not_found (key : string)
    (list : DashboardList.State) (w : StorageService.World)
    (s : ProjectEditor.State) :
  (Browser.falsy (ProjectEditor.id s) = true ->
   ProjectActions.load s w = (s, w))
  /\ (ProjectEditor.id s = Some key -> key <> "" ->
      let opened :=
        (ProjectActions.load s
           (DashboardList.handleDelete true key list w).2).1 in
      ProjectEditor.error opened = Some "Project not found"
      /\ ProjectEditor.blocks opened = ProjectEditor.blocks s
      /\ ProjectEditor.imageUrl opened = ProjectEditor.imageUrl s
      /\ ProjectEditor.processedImageUrl opened
         = ProjectEditor.processedImageUrl s
      /\ ProjectEditor.projectName opened = ProjectEditor.projectName s).
Proof.
  split.
  - intros Hfalsy. unfold ProjectActions.load. rewrite Hfalsy. reflexivity.
  - intros Hid Hne opened. subst opened.
    unfold DashboardList.handleDelete. rewrite deleteProject_run.
    unfold DashboardList.loadProjects. rewrite getAllProjects_run.
    cbn [snd]. rewrite (load_run _ _ key) by done.
    cbn [StorageService.openDB StorageService.idb StorageService.projects
         StorageService.set_idb].
    rewrite lookup_delete_eq. repeat split.
Qed.

Lemma deleted_project_is_not_found_witness :
  ProjectEditor.error
    (ProjectActions.load project_page
       (DashboardList.handleDelete true "p1" listing one_project_world).2).1
  = Some "Project not found".
Proof.
  destruct (deleted_project_is_not_found "p1" listing one_project_world
              project_page) as [_ Hgone].
  apply Hgone; [reflexivity | discriminate].
Defined.

(** X19: the auto-save of [updateBlockText] in the project editor.  For
    a project stored under the route id, loading it after an edit gives
    the edited blocks back, with the source image and the name it had;
    the stored processed image is the one the saving render held. *)
Theorem autosave_roundtrip (seen s s0 : ProjectEditor.State)
    (blockId newText key : string) (w : StorageService.World)
    (p : StorageService.Project) :
  ProjectEditor.id seen = Some key -> key <> "" ->
  ProjectEditor.id s0 = Some key ->
  StorageService.projects (StorageService.openDB w) !! key = Some p ->
  StorageService.id p = key ->
  let edited := ProjectEditor.updateBlockText seen blockId newText s w in
  let reopened := (ProjectActions.load s0 edited.2).1 in
  ProjectEditor.blocks reopened = ProjectEditor.blocks edited.1
  /\ ProjectEditor.processedImageUrl reopened
     = ProjectEditor.processedImageUrl seen
  /\ ProjectEditor.imageUrl reopened
     = Some (StorageService.originalImage p)
  /\ ProjectEditor.projectName reopened = StorageService.name p
  /\ ProjectEditor.isSaving edited.1 = false.
Proof.
  intros Hseen Hne Hid0 Hstored Hkeyed edited reopened.
  subst reopened edited. unfold ProjectEditor.updateBlockText.
  rewrite (saveChanges_run _ _ _ _ _ key) by done. cbn [fst snd].
  rewrite (load_run _ _ key) by done.
  rewrite (updateProject_stored key _ w p) by done.
  repeat split.
Qed.

Lemma autosave_roundtrip_witness :
  currentText
    <$> ProjectEditor.blocks
          (ProjectActions.load project_page
             (ProjectEditor.updateBlockText project_page
                "block-1-1700000000000" "ends sunday" project_page
                one_project_world).2).1
  = ["SALE"; "ends sunday"].
Proof.
  destruct (autosave_roundtrip project_page project_page project_page
              "block-1-1700000000000" "ends sunday" "p1" one_project_world
              sample_project eq_refl ltac:(discriminate) eq_refl eq_refl
              eq_refl) as (Hblocks & _).
  cbv zeta in Hblocks. rewrite Hblocks. reflexivity.
Defined.

(** X20: [reCleanBackground].  When the cleaning call returns an image,
    the editor shows it and the project stored under the route id holds
    it as its processed image, together with the blocks of the editor
    and its source image.  When the call returns null, the error "Could
    not generate cleaned image" is shown and neither the processed image
    nor the store changes.  Either way the spinner is off. *)
Theorem reCleanBackground_saves (s : ProjectEditor.State)
    (g : GeminiService.World) (w : StorageService.World)
    (url key : string) (p : StorageService.Project) :
  ProjectEditor.imageUrl s = Some url -> url <> "" ->
  ProjectEditor.id s = Some key -> key <> "" ->
  StorageService.projects (StorageService.openDB w) !! key = Some p ->
  StorageService.id p = key ->
  let after := ProjectActions.reCleanBackground s g w in
  ProjectEditor.isAnalyzing after.1.1 = false
  /\ (forall cleaned,
        (GeminiService.removeTextFromImage url g).1
          = Resolved (Some cleaned) ->
        cleaned <> "" ->
        ProjectEditor.processedImageUrl after.1.1 = Some cleaned
        /\ ProjectEditor.error after.1.1 = ProjectEditor.error s
        /\ exists p',
             StorageService.projects (StorageService.openDB after.2) !! key
               = Some p'
             /\ StorageService.processedImage p' = Some cleaned
             /\ StorageService.blocks p' = ProjectEditor.blocks s
             /\ StorageService.originalImage p'
                = StorageService.originalImage p
             /\ StorageService.name p' = StorageService.name p)
  /\ ((GeminiService.removeTextFromImage url g).1 = Resolved None ->
      ProjectEditor.error after.1.1
        = Some "Could not generate cleaned image"
      /\ ProjectEditor.processedImageUrl after.1.1
         = ProjectEditor.processedImageUrl s
      /\ after.2 = w).
Proof.
  intros Hurl Hne Hid Hkey Hstored Hkeyed after. subst after.
  unfold ProjectActions.reCleanBackground. rewrite Hurl.
  cbn [Browser.falsy default from_option Datatypes.id].
  pose proof Hne as Hne'. apply String.eqb_neq in Hne'. rewrite Hne'.
  destruct (removeTextFromImage_resolves url g) as [cleaned Hcleaned].
  destruct (GeminiService.removeTextFromImage url g) as [[cleaned'|e] g'];
    cbn [fst snd] in *; [|discriminate].
  injection Hcleaned as ->. destruct cleaned as [image|].
  - cbn [Browser.falsy]. destruct (String.eqb_spec image "") as [->|Himage].
    + split; [reflexivity|]. split; [|discriminate].
      intros cleaned [= <-] Habs. done.
    + rewrite (saveChanges_run _ _ _ _ _ key) by done. cbn [fst snd].
      split; [reflexivity|]. split; [|discriminate].
      intros cleaned [= <-] _. split; [reflexivity|].
      split; [reflexivity|]. eexists.
      split; [by apply updateProject_stored|]. repeat split.
  - cbn [Browser.falsy fst snd]. split; [reflexivity|].
    split; [discriminate|]. intros _. repeat split.
Qed.

Lemma reCleanBackground_saves_witness :
  ProjectEditor.processedImageUrl
    (ProjectActions.reCleanBackground project_page answering
       one_project_world).1.1
    = Some "data:image/png;base64,iVBORw0KGgo"
  /\ exists p',
       StorageService.projects
         (StorageService.openDB
            (ProjectActions.reCleanBackground project_page answering
               one_project_world).2) !! "p1" = Some p'
       /\ StorageService.processedImage p'
          = Some "data:image/png;base64,iVBORw0KGgo"
       /\ StorageService.blocks p' = [headline; footer].
Proof.
  destruct (reCleanBackground_saves project_page answering
              one_project_world "data:image/png;base64,AAAA" "p1"
              sample_project eq_refl ltac:(discriminate) eq_refl
              ltac:(discriminate) eq_refl eq_refl) as (_ & Hsome & _).
  destruct (Hsome "data:image/png;base64,iVBORw0KGgo")
    as (Hshown & _ & p' & Hp' & Himg & Hblocks & _);
    [vm_compute; reflexivity | discriminate |].
  split; [exact Hshown|]. exists p'. split; [exact Hp'|].
  split; [exact Himg | exact Hblocks].
Defined.

(** X21: [reDetectText].  When the analysis fails, the error "Failed to
    detect text" is shown and the blocks and the store are untouched.
    When it succeeds, the editor shows the detected blocks and the
    project stored under the route id holds the same blocks.  Either way
    the spinner is off. *)
Theorem reDetectText_saves (asBlock : Js.value -> DetectedTextBlock)
    (s : ProjectEditor.State) (g : GeminiService.World)
    (w : StorageService.World) (url key : string)
    (p : StorageService.Project) :
  ProjectEditor.imageUrl s = Some url -> url <> "" ->
  ProjectEditor.id s = Some key -> key <> "" ->
  StorageService.projects (StorageService.openDB w) !! key = Some p ->
  StorageService.id p = key ->
  let after := ProjectActions.reDetectText asBlock s g w in
  ProjectEditor.isAnalyzing after.1.1 = false
  /\ (is_rejected (GeminiService.analyzeImageText url g).1 = true ->
      ProjectEditor.error after.1.1 = Some "Failed to detect text"
      /\ ProjectEditor.blocks after.1.1 = ProjectEditor.blocks s
      /\ after.2 = w)
  /\ (forall result,
        (GeminiService.analyzeImageText url g).1 = Resolved result ->
        ProjectEditor.blocks after.1.1
          = asBlock <$> GeminiService.textBlocks result
        /\ ProjectEditor.error after.1.1 = ProjectEditor.error s
        /\ exists p',
             StorageService.projects (StorageService.openDB after.2) !! key
               = Some p'
             /\ StorageService.blocks p'
                = asBlock <$> GeminiService.textBlocks result
             /\ StorageService.processedImage p'
                = ProjectEditor.processedImageUrl s
             /\ StorageService.originalImage p'
                = StorageService.originalImage p).
Proof.
  intros Hurl Hne Hid Hkey Hstored Hkeyed after. subst after.
  unfold ProjectActions.reDetectText. rewrite Hurl.
  cbn [Browser.falsy default from_option Datatypes.id].
  pose proof Hne as Hne'. apply String.eqb_neq in Hne'. rewrite Hne'.
  destruct (GeminiService.analyzeImageText url g) as [[result|e] g'];
    cbn [fst snd is_rejected].
  - rewrite (saveChanges_run _ _ _ _ _ key) by done. cbn [fst snd].
    split; [reflexivity|]. split; [discriminate|].
    intros result' [= <-]. split; [reflexivity|]. split; [reflexivity|].
    eexists. split; [by apply updateProject_stored|]. repeat split.
  - split; [reflexivity|]. split; [|discriminate].
    intros _. repeat split.
Qed.

Lemma reDetectText_saves_witness :
  ProjectEditor.error
    (ProjectActions.reDetectText read project_page offline
       one_project_world).1.1 = Some "Failed to detect text"
  /\ (ProjectActions.reDetectText read project_page offline
        one_project_world).2 = one_project_world.
Proof.
  destruct (reDetectText_saves read project_page offline one_project_world
              "data:image/png;base64,AAAA" "p1" sample_project
              eq_refl ltac:(discriminate) eq_refl ltac:(discriminate)
              eq_refl eq_refl) as (_ & Hfail & _).
  destruct (Hfail eq_refl) as (Herr & _ & Hw).
  split; [exact Herr | exact Hw].
Defined.

End action_theorems.

(** ** Viewport *)

Module FloatFacts.
Import SpecFloat FloatOps FloatAxioms.
#[local] Open Scope float_scope.

Lemma SFcompare_sym x y c :
  SFcompare x y = Some c -> SFcompare y x = Some (CompOpp c).
Proof.
  destruct x as [sx|sx| |sx mx ex], y as [sy|sy| |sy my ey];
    cbn; try discriminate; intros [= <-];
    try (by destruct sx); try (by destruct sy);
    try (by destruct sx, sy).
  destruct sx, sy; try reflexivity;
    rewrite (Z.compare_antisym ex ey);
    destruct (ex ?= ey)%Z; cbn; try reflexivity;
    change (Pos.compare_cont Eq my mx) with (my ?= mx)%positive;
    change (Pos.compare_cont Eq mx my) with (mx ?= my)%positive;
    rewrite (Pos.compare_antisym mx my); by destruct (mx ?= my)%positive.
Qed.

Lemma SFcompare_numbers x y :
  x <> S754_nan -> y <> S754_nan -> exists c, SFcompare x y = Some c.
Proof.
  intros Hx Hy.
  destruct x as [sx|sx| |sx mx ex], y as [sy|sy| |sy my ey];
    try done; cbn; by eexists.
Qed.

Lemma number_spec a : is_nan a = false -> Prim2SF a <> S754_nan.
Proof.
  unfold is_nan. rewrite FloatAxioms.eqb_spec. intros Hnan Heq.
  rewrite Heq in Hnan. discriminate.
Qed.

Lemma ltb_leb a b : (a <? b) = true -> (a <=? b) = true.
Proof.
  rewrite ltb_spec, leb_spec. unfold SFltb, SFleb.
  by destruct (SFcompare (Prim2SF a) (Prim2SF b)) as [[]|].
Qed.

Lemma not_ltb_leb a b :
  is_nan a = false -> is_nan b = false ->
  (a <? b) = false -> (b <=? a) = true.
Proof.
  intros Ha Hb. rewrite ltb_spec, leb_spec. unfold SFltb, SFleb.
  destruct (SFcompare_numbers _ _ (number_spec a Ha) (number_spec b Hb))
    as [c Hc].
  rewrite Hc, (SFcompare_sym _ _ _ Hc). by destruct c.
Qed.

Lemma leb_refl a : is_nan a = false -> (a <=? a) = true.
Proof.
  intros Ha. rewrite leb_spec. unfold SFleb.
  destruct (SFcompare_numbers _ _ (number_spec a Ha) (number_spec a Ha))
    as [c Hc].
  pose proof (SFcompare_sym _ _ _ Hc) as Hsym. rewrite Hc in Hsym |- *.
  by destruct c.
Qed.

(** [Math.max] of two numbers is one of them and is at least both. *)
Lemma max2_number a b :
  is_nan a = false -> is_nan b = false ->
  (JsMath.max2 a b = a \/ JsMath.max2 a b = b)
  /\ (a <=? JsMath.max2 a b) = true
  /\ (b <=? JsMath.max2 a b) = true.
Proof.
  intros Ha Hb. unfold JsMath.max2. rewrite Ha, Hb. cbn [orb].
  destruct (a <? b) eqn:Hab.
  { split; [by right|]. split; [by apply ltb_leb | by apply leb_refl]. }
  destruct (b <? a) eqn:Hba.
  { split; [by left|]. split; [by apply leb_refl | by apply ltb_leb]. }
  pose proof (not_ltb_leb a b Ha Hb Hab).
  pose proof (not_ltb_leb b a Hb Ha Hba).
  destruct (get_sign a).
  - split; [by right|]. split; [done | by apply leb_refl].
  - split; [by left|]. split; [by apply leb_refl | done].
Qed.

(** [Math.min] of two numbers is one of them and is at most both. *)
Lemma min2_number a b :
  is_nan a = false -> is_nan b = false ->
  (JsMath.min2 a b = a \/ JsMath.min2 a b = b)
  /\ (JsMath.min2 a b <=? a) = true
  /\ (JsMath.min2 a b <=? b) = true.
Proof.
  intros Ha Hb. unfold JsMath.min2. rewrite Ha, Hb. cbn [orb].
  destruct (a <? b) eqn:Hab.
  { split; [by left|]. split; [by apply leb_refl | by apply ltb_leb]. }
  destruct (b <? a) eqn:Hba.
  { split; [by right|]. split; [by apply ltb_leb | by apply leb_refl]. }
  pose proof (not_ltb_leb a b Ha Hb Hab).
  pose proof (not_ltb_leb b a Hb Ha Hba).
  destruct (get_sign a).
  - split; [by left|]. split; [by apply leb_refl | done].
  - split; [by right|]. split; [done | by apply leb_refl].
Qed.

Lemma ltb_asym a b : (a <? b) = true -> (b <? a) = false.
Proof.
  rewrite !ltb_spec. unfold SFltb.
  destruct (SFcompare (Prim2SF a) (Prim2SF b)) as [c|] eqn:Hc; [|done].
  rewrite (SFcompare_sym _ _ _ Hc). by destruct c.
Qed.

End FloatFacts.

Section viewport_theorems.
Import FloatFacts ViewportSamples.
#[local] Open Scope float_scope.

(** X22: [fitCanvas] leaves the scale alone without a container or a
    canvas, and when the canvas is at most 1 pixel wide or high.
    Otherwise, as long as the two ratios of available to content size
    are numbers, the scale it sets lies between 0.05 and 1: fitting
    never enlarges the canvas and never shrinks it below 5%. *)
Theorem fitCanvas_scale_bounds (container : Viewport.Container)
    (canvas : Fabric.Canvas) (scale : float) :
  Viewport.fitCanvas None (Some canvas) scale = scale
  /\ Viewport.fitCanvas (Some container) None scale = scale
  /\ ((Fabric.width canvas <=? 1) || (Fabric.height canvas <=? 1) = true ->
      Viewport.fitCanvas (Some container) (Some canvas) scale = scale)
  /\ ((Fabric.width canvas <=? 1) || (Fabric.height canvas <=? 1) = false ->
      is_nan ((Viewport.clientWidth container - 64) / Fabric.width canvas)
        = false ->
      is_nan ((Viewport.clientHeight container - 64) / Fabric.height canvas)
        = false ->
      (0.05 <=? Viewport.fitCanvas (Some container) (Some canvas) scale)
        = true
      /\ (Viewport.fitCanvas (Some container) (Some canvas) scale <=? 1)
         = true).
Proof.
  split; [reflexivity|]. split; [reflexivity|]. split.
  - intros Hsmall. unfold Viewport.fitCanvas. cbv zeta. by rewrite Hsmall.
  - intros Hbig Hx Hy. unfold Viewport.fitCanvas. cbv zeta. rewrite Hbig.
    set (sx := (Viewport.clientWidth container - 64) / Fabric.width canvas)
      in *.
    set (sy := (Viewport.clientHeight container - 64) / Fabric.height canvas)
      in *.
    destruct (min2_number sx sy Hx Hy) as (Hm & _ & _).
    assert (Hmn : is_nan (JsMath.min2 sx sy) = false)
      by (destruct Hm as [-> | ->]; done).
    destruct (min2_number (JsMath.min2 sx sy) 1 Hmn eq_refl)
      as (Hn & _ & Hn1).
    assert (Hnn : is_nan (JsMath.min2 (JsMath.min2 sx sy) 1) = false)
      by (destruct Hn as [-> | ->]; done).
    destruct (max2_number (JsMath.min2 (JsMath.min2 sx sy) 1) 0.05
                Hnn eq_refl) as (Hr & _ & Hlow).
    split; [exact Hlow|].
    destruct Hr as [-> | ->]; [exact Hn1 | reflexivity].
Qed.

Lemma fitCanvas_scale_bounds_witness :
  Viewport.fitCanvas (Some pane) (Some large_canvas) 1 = 0.5
  /\ (0.05 <=? Viewport.fitCanvas (Some pane) (Some large_canvas) 1) = true
  /\ (Viewport.fitCanvas (Some pane) (Some large_canvas) 1 <=? 1) = true.
Proof.
  destruct (fitCanvas_scale_bounds pane large_canvas 1)
    as (_ & _ & _ & Hfit).
  destruct (Hfit eq_refl eq_refl eq_refl) as [Hlow Hhigh].
  split; [reflexivity|]. split; [exact Hlow | exact Hhigh].
Defined.

(** X23: zooming out never goes below 10%.  As long as [s - 0.1] is a
    number, the scale after the zoom-out button is [s - 0.1] or 0.1, is
    at least 0.1, and is exactly 0.1 when [s - 0.1] is below 0.1. *)
Theorem zoomOut_floor (s : float) :
  is_nan (s - 0.1) = false ->
  (Viewport.zoomOut s = s - 0.1 \/ Viewport.zoomOut s = 0.1)
  /\ (0.1 <=? Viewport.zoomOut s) = true
  /\ ((s - 0.1 <? 0.1) = true -> Viewport.zoomOut s = 0.1).
Proof.
  intros Hnum. unfold Viewport.zoomOut.
  destruct (max2_number 0.1 (s - 0.1) eq_refl Hnum) as (Hr & Hlow & _).
  split; [tauto|]. split; [exact Hlow|].
  intros Hbelow. unfold JsMath.max2. rewrite Hnum.
  change (is_nan 0.1) with false. cbn [orb].
  rewrite (ltb_asym _ _ Hbelow), Hbelow. reflexivity.
Qed.

Lemma zoomOut_floor_witness :
  Viewport.zoomOut 0.15 = 0.1
  /\ (0.1 <=? Viewport.zoomOut 0.15) = true.
Proof.
  destruct (zoomOut_floor 0.15 eq_refl) as (_ & Hlow & Hfloor).
  split; [apply Hfloor; reflexivity | exact Hlow].
Defined.

End viewport_theorems.

(** ** Pages and canvas together *)

Module ViewFacts.
Import Types Fabric EditorCanvas CanvasFacts CanvasMoreFacts.


End ViewFacts.

Section view_theorems.
Import Types Fabric EditorCanvas ViewFacts CanvasSamples PageSamples.



End view_theorems.

(** ** Strings spread into objects *)

Module JsFacts.
Import Js.

(** A character of the basic plane is one code unit, however many bytes
    it takes: the three bytes of U+4E2D spread into the single property
    [0]. *)
Example spread_one_code_unit :
  let zhong :=
    String (ascii_of_N 228)
      (String (ascii_of_N 184) (String (ascii_of_N 173) "")) in
  chars ("a" +:+ zhong +:+ "b") = [Str "a"; Str zhong; Str "b"]
  /\ spread (Str zhong) = {[ "0" := Str zhong ]}.
Proof. split; vm_compute; reflexivity. Qed.

(** A character outside the basic plane is two code units, its
    surrogates: U+1F600 spreads into the properties [0] and [1], holding
    U+D83D and U+DE00. *)
Example spread_surrogate_pair :
  let face :=
    String (ascii_of_N 240)
      (String (ascii_of_N 159)
         (String (ascii_of_N 152) (String (ascii_of_N 128) ""))) in
  chars face = [Str (three_bytes 55357); Str (three_bytes 56832)]
  /\ dom (spread (Str face)) = {[ "0"; "1" ]}.
Proof. split; vm_compute; reflexivity. Qed.

End JsFacts.
